(** * JPyang: the Java output plug-in of pyang

    A shallow embedding of [pyang/plugins/jpyang.py] and the properties of
    its schema emitter, key extractor and class generator.

    Conventions of the embedding:
    - Python 2 byte strings are [string]; [str] methods are in [Module Py].
    - A [print] statement is one [Stdout] (or [Stderr]) event carrying the
      printed text without the final newline; writing a file is one
      [WriteFile] event.  An uncaught Python exception is [Raise].
    - Code that prints, writes or may fault lives in the monad [M]:
      the events produced so far, and either a value or the exception.
    - Strings are the byte strings of Python 2 in the C locale: only the
      ASCII letters have an upper and a lower case.
    - Every statement has an argument string, as in the data model of the
      specification.
    - Of [JPyangPlugin.emit], the loop over the modules is embedded; the
      creation of directories and the call of javadoc are not. *)

From Stdlib Require Import String Ascii List ZArith Lia Bool Permutation.
From Stdlib Require Import DecimalString.
Import ListNotations.
Open Scope string_scope.

(* ================================================================= *)
(** ** Python 2 [str] and [list] operations used by the plug-in *)

Module Py.

(** The double quote character and the line feed. *)
Definition dq : string := String (ascii_of_nat 34) "".
Definition nl : string := String (ascii_of_nat 10) "".

Definition is_upper (c : ascii) : bool :=
  let n := nat_of_ascii c in (65 <=? n)%nat && (n <=? 90)%nat.

Definition is_lower (c : ascii) : bool :=
  let n := nat_of_ascii c in (97 <=? n)%nat && (n <=? 122)%nat.

Definition upper_ascii (c : ascii) : ascii :=
  if is_lower c then ascii_of_nat (nat_of_ascii c - 32) else c.

Definition lower_ascii (c : ascii) : ascii :=
  if is_upper c then ascii_of_nat (nat_of_ascii c + 32) else c.

(** [s.lower()] in the C locale. *)
Fixpoint lower (s : string) : string :=
  match s with
  | "" => ""
  | String c r => String (lower_ascii c) (lower r)
  end.

(** [s.capitalize()]: the first character upper-cased, the others
    lower-cased. *)
Definition capitalize (s : string) : string :=
  match s with
  | "" => ""
  | String c r => String (upper_ascii c) (lower r)
  end.

(** [s.split(sep)] for a one-character separator: every occurrence of
    the separator cuts, so adjacent separators give empty pieces and the
    empty string gives one empty piece. *)
Fixpoint split (sep : ascii) (s : string) : list string :=
  match s with
  | "" => [""]
  | String c r =>
      if Ascii.eqb c sep then "" :: split sep r
      else match split sep r with
           | [] => [String c ""]
           | w :: ws => String c w :: ws
           end
  end.

(** [s * n]. *)
Fixpoint times (s : string) (n : nat) : string :=
  match n with
  | O => ""
  | S k => s ++ times s k
  end.

(** [s[:-k]] for a positive literal [k]. *)
Definition drop_last (k : nat) (s : string) : string :=
  substring 0 (String.length s - k) s.

(** [s[-1:]]. *)
Definition last1 (s : string) : string :=
  substring (String.length s - 1) 1 s.

(** [s[:1]]. *)
Definition first1 (s : string) : string := substring 0 1 s.

(** [s[k:]] for a non-negative literal [k]. *)
Definition drop_first (k : nat) (s : string) : string :=
  substring k (String.length s - k) s.

(** [str(n)] for an integer. *)
Definition str (z : Z) : string := NilZero.string_of_int (Z.to_int z).

(** [len(s)] as a Python integer. *)
Definition len (s : string) : Z := Z.of_nat (String.length s).

(** [s.replace(old, new)] for a non-empty [old]: occurrences are replaced
    from the left and do not overlap.  [skip] counts the characters of an
    occurrence already replaced. *)
Fixpoint replace_from (old new : string) (skip : nat) (s : string) : string :=
  match s with
  | "" => ""
  | String c r =>
      match skip with
      | S k => replace_from old new k r
      | O => if prefix old s
             then new ++ replace_from old new (String.length old - 1) r
             else String c (replace_from old new 0 r)
      end
  end.

Definition replace (old new s : string) : string := replace_from old new 0 s.

(** [s.splitlines()]: lines end at LF, CR or CR LF; the line ends are
    dropped and a final line end opens no empty line.  [cr] tells that the
    previous character was a CR, whose LF is then skipped. *)
Fixpoint splitlines_from (cr : bool) (s : string) : list string :=
  match s with
  | "" => []
  | String c r =>
      if Ascii.eqb c (ascii_of_nat 10) then
        if cr then splitlines_from false r
        else "" :: splitlines_from false r
      else if Ascii.eqb c (ascii_of_nat 13) then
        "" :: splitlines_from true r
      else
        match splitlines_from false r with
        | [] => [String c ""]
        | w :: ws => String c w :: ws
        end
  end.

Definition splitlines (s : string) : list string := splitlines_from false s.

(** A slice [l[start:stop]] of a list; an absent bound is [None], a
    negative one counts from the end, and both are clamped to the list. *)
Definition clamp (n : Z) (i : Z) : Z :=
  if (i <? 0)%Z then Z.max 0 (i + n) else Z.min i n.

(** [sep.join(l)]. *)
Definition join (sep : string) (l : list string) : string :=
  String.concat sep l.

(** [repr(s)] of a byte string: single quotes, unless the string holds a
    single quote and no double quote; the quote and the backslash are
    escaped, and so is every character that is not printable ASCII. *)
Definition backslash : ascii := ascii_of_nat 92.

Definition hex_digit (n : nat) : string := substring n 1 "0123456789abcdef".

Definition repr_char (quote c : ascii) : string :=
  let n := nat_of_ascii c in
  if Ascii.eqb c quote || Ascii.eqb c backslash then
    String backslash (String c "")
  else if (n =? 9)%nat then String backslash "t"
  else if (n =? 10)%nat then String backslash "n"
  else if (n =? 13)%nat then String backslash "r"
  else if (n <? 32)%nat || (127 <=? n)%nat then
    String backslash "x" ++ hex_digit (n / 16) ++ hex_digit (n mod 16)
  else String c "".

Fixpoint has_char (c : ascii) (s : string) : bool :=
  match s with
  | "" => false
  | String d r => Ascii.eqb c d || has_char c r
  end.

Fixpoint repr_chars (quote : ascii) (s : string) : string :=
  match s with
  | "" => ""
  | String c r => repr_char quote c ++ repr_chars quote r
  end.

Definition repr (s : string) : string :=
  let quote :=
    if has_char "'" s && negb (has_char (ascii_of_nat 34) s)
    then ascii_of_nat 34 else "'"%char in
  String quote (repr_chars quote s) ++ String quote "".

(** [repr(l)] of a list of byte strings. *)
Definition repr_list (l : list string) : string :=
  "[" ++ join ", " (map repr l) ++ "]".

(** [l.append(x)], as the new list. *)
Definition list_append {A : Type} (l : list A) (x : A) : list A :=
  (l ++ [x])%list.

Definition slice {A : Type} (start stop : option Z) (l : list A) : list A :=
  let n := Z.of_nat (List.length l) in
  let lo := match start with None => 0%Z | Some i => clamp n i end in
  let hi := match stop with None => n | Some j => clamp n j end in
  firstn (Z.to_nat (hi - lo)) (skipn (Z.to_nat lo) l).

End Py.

Import Py.

(* ================================================================= *)
(** ** The statement tree handed over by the parser *)

(** A statement: its keyword, its argument and its substatements in parse
    order.  The parser's back-reference [stmt.parent] is not stored in the
    tree: a function that reads it takes the parent next to the statement
    ([None] for a statement without parent, as a top-level module). *)
#[local] Set Warnings "-register-all".
Inductive Statement : Type :=
  Stmt { keyword : string; arg : string; substmts : list Statement }.

(** Modelled from the spec: [Statement.search_one(keyword, arg=None)] of
    the parser, which is not part of the plug-in.  It is the single-child
    lookup: the first substatement, in parse order, with exactly this
    keyword and, when an argument is given, exactly this argument; [None]
    when there is none. *)
Definition search_one (stmt : Statement) (kw : string) (a : option string)
  : option Statement :=
  find (fun ch => String.eqb (keyword ch) kw &&
                  match a with
                  | None => true
                  | Some x => String.eqb (arg ch) x
                  end)
       (substmts stmt).

(** Modelled from the spec: [Statement.search(keyword)] of the parser, the
    multi-child lookup: all substatements with this keyword, in parse
    order. *)
Definition search (stmt : Statement) (kw : string) : list Statement :=
  filter (fun ch => String.eqb (keyword ch) kw) (substmts stmt).

(* ================================================================= *)
(** ** Effects: output, files and exceptions *)

Inductive PyExn : Type :=
| AttributeError
| UnboundLocalError
| KeyError
| TypeError
| EmitError (exitCode : Z).

(** The name of the exception class. *)
Definition exn_name (e : PyExn) : string :=
  match e with
  | AttributeError => "AttributeError"
  | UnboundLocalError => "UnboundLocalError"
  | KeyError => "KeyError"
  | TypeError => "TypeError"
  | EmitError _ => "EmitError"
  end.

Inductive Event : Type :=
| Stdout (text : string)
| Stderr (text : string)
| WriteFile (path content : string).

Inductive Result (A : Type) : Type :=
| Ok (a : A)
| Raise (e : PyExn).

Arguments Ok {A} a.
Arguments Raise {A} e.

Definition M (A : Type) : Type := (list Event * Result A)%type.

Definition ret {A : Type} (a : A) : M A := ([], Ok a).

Definition raise {A : Type} (e : PyExn) : M A := ([], Raise e).

Definition bind {A B : Type} (m : M A) (k : A -> M B) : M B :=
  match m with
  | (out, Raise e) => (out, Raise e)
  | (out, Ok a) => let (out', r) := k a in ((out ++ out')%list, r)
  end.

Declare Scope py_scope.
Delimit Scope py_scope with py.
Notation "x <- m ;; k" := (bind m (fun x => k))
  (at level 61, m at next level, right associativity) : py_scope.
Notation "' pat <- m ;; k" := (bind m (fun x => match x with pat => k end))
  (at level 61, pat pattern, m at next level, right associativity) : py_scope.
Notation "m ;; k" := (bind m (fun _ => k))
  (at level 61, right associativity) : py_scope.
Open Scope py_scope.

(** [print text] and [print >> sys.stderr, text]. *)
Definition print (text : string) : M unit := ([Stdout text], Ok tt).

Definition print_err (text : string) : M unit := ([Stderr text], Ok tt).

(** [with open(path, ...) as f: f.write(content)]. *)
Definition write_file (path content : string) : M unit :=
  ([WriteFile path content], Ok tt).

(** [if c: m], for a statement [m]. *)
Definition when (c : bool) (m : M unit) : M unit := if c then m else ret tt.

(** Reading an attribute or calling a method of the result of
    [search_one]: an [AttributeError] when the result is [None]. *)
Definition deref (o : option Statement) : M Statement :=
  match o with
  | Some s => ret s
  | None => raise AttributeError
  end.

(** Reading a local variable that may not have been assigned. *)
Definition local {A : Type} (v : option A) : M A :=
  match v with
  | Some a => ret a
  | None => raise UnboundLocalError
  end.

(** [for x in l: s = body(s, x)], the loop's variables being [s]. *)
Fixpoint for_loop {A S : Type} (l : list A) (body : S -> A -> M S) (s : S)
  : M S :=
  match l with
  | [] => ret s
  | x :: rest => s' <- body s x ;; for_loop rest body s'
  end.

(** The events of a computation and its outcome. *)
Definition events {A : Type} (m : M A) : list Event := fst m.

Definition outcome {A : Type} (m : M A) : Result A := snd m.

(** The diagnostics among events: what went to [sys.stderr]. *)
Definition is_stderr (e : Event) : bool :=
  match e with
  | Stderr _ => true
  | _ => false
  end.

Definition diagnostics (evs : list Event) : list Event := filter is_stderr evs.

(** What went to [sys.stdout]. *)
Definition is_stdout (e : Event) : bool :=
  match e with
  | Stdout _ => true
  | _ => false
  end.

(** The files written, by path. *)
Definition written (evs : list Event) : list string :=
  flat_map (fun e => match e with
                     | WriteFile p _ => [p]
                     | _ => []
                     end) evs.

(* ================================================================= *)
(** ** The context: options and known revisions *)

(** The options the plug-in reads ([store_true] options are false unless
    given). *)
Record Opts : Type := {
  directory : string;
  debug : bool;
  verbose : bool;
  no_schema : bool
}.

(** An entry of [ctx.revs]: a revision and where it was found. *)
Definition RevEntry : Type := (string * string)%type.

Record Context : Type := {
  opts : Opts;
  revs : list (string * list RevEntry)
}.

(** [d[k]] on a dict: a [KeyError] when the key is absent. *)
Fixpoint dict_get {V : Type} (d : list (string * V)) (k : string) : M V :=
  match d with
  | [] => raise KeyError
  | (k', v) :: rest => if String.eqb k' k then ret v else dict_get rest k
  end.

(* ================================================================= *)
(** ** Keys and names *)

(** A list of (type, identifier) pairs. *)
Definition KeyList : Type := list (string * string).

(** The loop variables of [extract_keys]:
    [only_strings], [confm_keys], [primitive_keys]. *)
Definition KeyAcc : Type := (Z * KeyList * KeyList)%type.

(** The body of the loop of [extract_keys], for one identifier [arg] of
    the key argument.  [only_strings] starts as [True] and is multiplied
    by a comparison each time: it is a Python integer from then on. *)
Definition extract_keys_step (stmt : Statement) (ctx : Context)
  (acc : KeyAcc) (a : string) : M KeyAcc :=
  let '(only_strings, confm_keys, primitive_keys) := acc in
  leaf <- deref (search_one stmt "leaf" (Some a)) ;;
  key_type <- deref (search_one leaf "type" None) ;;
  '(confm_keys, primitive_keys) <-
    (if String.eqb (arg key_type) "string" then
       ret (list_append confm_keys ("com.tailf.confm.xs.String", a),
            list_append primitive_keys ("String", a))
     else if String.eqb (arg key_type) "uint32" then
       ret (list_append confm_keys ("com.tailf.confm.xs.UnsignedInt", a),
            list_append primitive_keys ("long", a))
     else
       when (debug (opts ctx) || verbose (opts ctx))
         (print_err ("WARNING! No support for type " ++ dq ++
                     arg key_type ++ dq ++ ", defaulting to string.")) ;;
       ret (list_append confm_keys ("com.tailf.confm.xs.String", a),
            list_append primitive_keys ("String", a))) ;;
  let only_strings :=
    (only_strings *
     Z.b2z (String.eqb (fst (last primitive_keys ("", ""))) "String"))%Z in
  ret (only_strings, confm_keys, primitive_keys).

(** [extract_keys(stmt, ctx)]: the key statement of [stmt],
    [only_strings], and the keys with their confm and primitive types. *)
Definition extract_keys (stmt : Statement) (ctx : Context)
  : M (Statement * Z * KeyList * KeyList) :=
  let key := search_one stmt "key" None in
  key_stmt <- deref key ;;
  '(only_strings, confm_keys, primitive_keys) <-
    for_loop (split " " (arg key_stmt)) (extract_keys_step stmt ctx)
             (1%Z, [], []) ;;
  ret (key_stmt, only_strings, confm_keys, primitive_keys).

(** Python's truth value of an integer, as in [if not only_strings]. *)
Definition truthy (z : Z) : bool := negb (z =? 0)%Z.

(** [extract_names(arg)]: the file name and the class name. *)
Definition extract_names (a : string) : string * string :=
  let capitalized := capitalize a in
  (capitalized ++ ".java", capitalized).

(** [is_module(stmt)]. *)
Definition is_module (stmt : Statement) : bool :=
  String.eqb (keyword stmt) "module" || String.eqb (keyword stmt) "submodule".

(** [is_container(stmt, strict=False)]. *)
Definition is_container (stmt : Statement) (strict : bool) : bool :=
  String.eqb (keyword stmt) "container" ||
  (negb strict && String.eqb (keyword stmt) "list").

(** [in_schema(stmt)]. *)
Definition in_schema (stmt : Statement) : bool :=
  is_container stmt false ||
  String.eqb (keyword stmt) "module" ||
  String.eqb (keyword stmt) "leaf".

(** [indent(lines, level=1)]. *)
Definition indent (lines : list string) (level : nat) : string :=
  let res :=
    fold_left (fun res line => res ++ times (times " " level) 4 ++ line ++ nl)
              lines "" in
  drop_last 1 res.

(** [java_docify(s)]. *)
Definition java_docify (s : string) : string :=
  let res :=
    fold_left (fun res row => res ++ " * " ++ row ++ nl) (splitlines s) "" in
  drop_last 1 res.

(* ================================================================= *)
(** ** The schema emitter *)

(** The occurrence bounds computed by [schema_node]:
    [(min_occurs, max_occurs)] after the three [if] statements. *)
Definition schema_occurs (stmt : Statement) (parent : option Statement)
  : string * string :=
  let min_occurs := "0" in
  let max_occurs := "-1" in
  let mandatory := search_one stmt "mandatory" None in
  let isMandatory :=
    match mandatory with
    | Some m => String.eqb (arg m) "true"
    | None => false
    end in
  let unique := search_one stmt "unique" None in
  let isUnique :=
    match unique with
    | Some u => String.eqb (arg u) "true"
    | None => false
    end in
  let key :=
    match parent with
    | Some p => search_one p "key" None
    | None => None
    end in
  let isKey :=
    match key with
    | Some k => String.eqb (arg k) (arg stmt)
    | None => false
    end in
  let childOfContainerOrList :=
    match parent with
    | Some p => is_container p false
    | None => false
    end in
  let '(min_occurs, max_occurs) :=
    if is_module stmt || isKey ||
       (childOfContainerOrList && is_container stmt true)
    then ("1", "1")
    else (min_occurs, max_occurs) in
  let min_occurs := if isMandatory then "1" else min_occurs in
  let max_occurs :=
    if isUnique || childOfContainerOrList || is_container stmt true
    then "1"
    else max_occurs in
  (min_occurs, max_occurs).

(** [schema_node(stmt, tagpath, ns, ctx)], with [stmt.parent]. *)
Definition schema_node (stmt : Statement) (parent : option Statement)
  (tagpath ns : string) (ctx : Context) : M (list string) :=
  when (verbose (opts ctx))
    (print ("Generating schema node " ++ dq ++ tagpath ++ dq ++ "...")) ;;
  let res := ["<tagpath>" ++ tagpath ++ "</tagpath>";
              "<namespace>" ++ ns ++ "</namespace>";
              "<primitive_type></primitive_type>"] in
  let '(min_occurs, max_occurs) := schema_occurs stmt parent in
  let res := list_append res ("<min_occurs>" ++ min_occurs ++ "</min_occurs>") in
  let res := list_append res ("<max_occurs>" ++ max_occurs ++ "</max_occurs>") in
  let children :=
    fold_left (fun children ch => children ++ arg ch ++ " ")
              (substmts stmt) "" in
  let res :=
    list_append res ("<children>" ++ drop_last 1 children ++ "</children>") in
  let res := list_append res "<flags></flags>" in
  let res := list_append res "<desc></desc>" in
  ret res.

(** [schema_nodes(owner.substmts, tagpath, ns, ctx)]: the function is
    only ever called on the substatements of a statement, which is the
    parent of each of them. *)
Fixpoint schema_nodes (owner : Statement) (tagpath ns : string)
  (ctx : Context) {struct owner} : M string :=
  match owner with
  | Stmt _ _ stmts =>
      (fix loop (stmts : list Statement) (res : string) {struct stmts}
         : M string :=
         match stmts with
         | [] => ret res
         | stmt :: rest =>
             if in_schema stmt then
               node <- schema_node stmt (Some owner)
                                   (tagpath ++ arg stmt ++ "/") ns ctx ;;
               below <- schema_nodes stmt (tagpath ++ arg stmt ++ "/") ns ctx ;;
               loop rest (res ++ "<node>" ++ nl ++ indent node 1 ++
                          nl ++ "</node>" ++ below)
             else loop rest res
         end) stmts ""
  end.

(* ================================================================= *)
(** ** Rendering of Java source text *)

(** The day on which the compiler runs, [datetime.date.today()]. *)
Record Date : Type := { year : Z; month : Z; day : Z }.

(** [java_class(filename, package, imports, description, body, version,
    modifiers, source)], on the day [time]. *)
Definition java_class (time : Date) (filename package : string)
  (imports : list string) (description body version modifiers source : string)
  : string :=
  let date := str (day time) ++ "/" ++ str (month time) ++ "/" ++
              str (year time mod 100) in
  let header_comment :=
    "/* " ++ nl ++ " * @(#)" ++ filename ++ times " " 8 ++ version ++ " " ++
    date ++ "
 *
 * This file has been auto-generated by JPyang, the Java output format plug-in
 * of pyang. Origin: " ++ source ++ nl ++ " */" in
  let date := str (year time) ++ "-" ++ str (month time) ++ "-" ++
              str (day time) in
  let class_doc := "/**
 * " ++ description ++ "
 *
 * @version    " ++ version ++ " " ++ date ++ "
 * @author    Auto Generated
 */" in
  let header := header_comment ++ nl ++ nl ++ "package " ++ package ++ ";" ++
                nl in
  let header :=
    if (0 <? Z.of_nat (List.length imports))%Z then header ++ nl
    else header in
  let header :=
    fold_left (fun header im => header ++ "import " ++ im ++ ";" ++ nl)
              imports header in
  let header := header ++ nl ++ class_doc ++ nl in
  let class_decl :=
    "public class " ++ hd "" (split "." filename) ++ modifiers ++ " {" ++ nl in
  header ++ class_decl ++ body ++ nl ++ "}".

(** The local variables of [constructor] that make up its result:
    [obj_status], [docstring], [inserts], [arguments], [setters] and
    [root]. *)
Record ConstructorLocals : Type := {
  c_obj_status : string;
  c_docstring : string;
  c_inserts : string;
  c_arguments : string;
  c_setters : string;
  c_root : string
}.

(** The body of the loop of [constructor] that fills [values] in the
    modes 2 and 3, for one key.  [currentframe().f_lineno] is the line
    of that expression in the plug-in, line 700. *)
Definition constructor_value (ctx : Context) (values : list string)
  (a : string * string) : M (list string) :=
  let '(arg_type, arg_name) := a in
  decl <-
    (if String.eqb arg_type "String" then
       ret "new com.tailf.confm.xs.String("
     else if String.eqb arg_type "long" then
       ret "new com.tailf.confm.xs.UnsignedInt("
     else
       when (debug (opts ctx) || verbose (opts ctx))
         (print_err ("WARNING, at line " ++ str 700 ++
                     " constructor argument" ++
                     " defaulting to string from: " ++
                     arg_type)) ;;
       ret "new com.tailf.confm.xs.String(") ;;
  ret (list_append values (decl ++ arg_name ++ "Value)")).

(** The body of the loop of [constructor] over [zip(args, values)]; its
    variables are [inserts], [docstring], [MAX_COLS] and [arguments]. *)
Definition constructor_argument (root : string) (mode : Z)
  (vars : string * string * Z * string) (av : (string * string) * string)
  : string * string * Z * string :=
  let '(inserts, docstring, MAX_COLS, arguments) := vars in
  let '((arg_type, arg_name), value) := av in
  let inserts := inserts ++ "
        // Set key element: " ++ arg_name ++ "
        Leaf " ++ arg_name ++ " = new Leaf(" ++ root ++ ".NAMESPACE, " ++ dq ++
    arg_name ++ dq ++ ");
        " ++ arg_name ++ ".setValue(" ++ value ++ ");
        insertChild(" ++ arg_name ++ ", childrenNames());" in
  let arg_name := arg_name ++ "Value" in
  let docstring := docstring ++ nl ++ "     * @param " ++ arg_name ++
                   " Key argument of child." in
  let tmp :=
    if (mode =? 2)%Z then "String " ++ arg_name ++ ", "
    else arg_type ++ " " ++ arg_name ++ ", " in
  let '(tmp, MAX_COLS) :=
    if (MAX_COLS <? len tmp)%Z then
      let tmp := nl ++ times " " 8 ++ tmp in
      (tmp, (80 - len tmp)%Z)
    else (tmp, (MAX_COLS - len tmp)%Z) in
  (inserts, docstring, MAX_COLS, arguments ++ tmp).

(** The body of [constructor] up to its [return]. *)
Definition constructor_locals (stmt : Statement) (ctx : Context)
  (root : string) (set_prefix : bool) (mode : Z) (args : KeyList)
  : M ConstructorLocals :=
  let name := capitalize (arg stmt) in
  let MAX_COLS := (80 - len ("    public " ++ name ++ "("))%Z in
  let root := if String.eqb root "" then name else root in
  let setters :=
    if set_prefix then "
        setDefaultPrefix();
        setPrefix(" ++ root ++ ".PREFIX);"
    else "" in
  if match args with [] => true | _ => false end || (mode =? 0)%Z then
    ret {| c_obj_status := "empty "; c_docstring := ""; c_inserts := "";
           c_arguments := ""; c_setters := setters; c_root := root |}
  else
    let obj_status := "initialized " in
    '(docstring, values) <-
      (if (mode =? 1)%Z then
         ret ("", fold_left (fun values '(arg_type, arg_name) =>
                               list_append values (arg_name ++ "Value"))
                            args [])
       else
         let docstring :=
           if (mode =? 2)%Z then nl ++ "     * with Strings for the keys."
           else nl ++ "     * with primitive Java types." in
         values <- for_loop args (constructor_value ctx) [] ;;
         ret (docstring, values)) ;;
    let '(inserts, docstring, MAX_COLS, arguments) :=
      fold_left (constructor_argument root mode) (combine args values)
                ("", docstring, MAX_COLS, "") in
    let arguments := drop_last 2 arguments in
    ret {| c_obj_status := obj_status; c_docstring := docstring;
           c_inserts := inserts; c_arguments := arguments;
           c_setters := setters; c_root := root |}.

(** [constructor(stmt, ctx, root, set_prefix, mode, args, throws)]. *)
Definition constructor (stmt : Statement) (ctx : Context) (root : string)
  (set_prefix : bool) (mode : Z) (args : KeyList) (throws : string)
  : M string :=
  let name := capitalize (arg stmt) in
  v <- constructor_locals stmt ctx root set_prefix mode args ;;
  ret ("
    /**
     * Constructor for an " ++ c_obj_status v ++ name ++ " object." ++
       c_docstring v ++ "
     */
    public " ++ name ++ "(" ++ c_arguments v ++ ")" ++ throws ++ " {
        super(" ++ c_root v ++ ".NAMESPACE, " ++ dq ++ arg stmt ++ dq ++ ");" ++
       c_inserts v ++ c_setters v ++ "
    }
").

(** [clone(class_name, key_names, shallow)]. *)
Definition clone (class_name : string) (key_names : list string)
  (shallow : bool) : string :=
  let '(try_stmt, catch_stmt) :=
    match key_names with
    | _ :: _ =>
        let try_stmt := "try {" ++ nl ++ times " " 12 in
        let catch_stmt := "(" in
        let MAX_COLS := (80 - 44 - len class_name)%Z in
        let '(catch_stmt, MAX_COLS) :=
          fold_left
            (fun '(catch_stmt, MAX_COLS) key_name =>
               let tmp := "get" ++ key_name ++ "Value(), " in
               let '(tmp, MAX_COLS) :=
                 if (MAX_COLS <? len tmp)%Z then
                   let tmp := nl ++ times " " 16 ++ tmp in
                   (tmp, (80 - len tmp)%Z)
                 else (tmp, (MAX_COLS - len tmp)%Z) in
               (catch_stmt ++ tmp, MAX_COLS))
            key_names (catch_stmt, MAX_COLS) in
        (try_stmt, drop_last 2 catch_stmt ++ "));
        } catch (INMException e) { return null; }
    }" ++ nl)
    | [] => ("", "());" ++ nl ++ "    }" ++ nl)
    end in
  let '(copy, children, signature, cast, method) :=
    if negb shallow then
      ("n exact", "", "Object clone()", "(" ++ class_name ++ ")",
       "cloneContent")
    else
      (" shallow", " Children are not included.", "Element cloneShallow()",
       "", "cloneShallowContent") in
  "
    /**
     * Clones this object, returning a" ++ copy ++ " copy.
     * @return A clone of the object." ++ children ++ "
     */
    public " ++ signature ++ " {
        " ++ try_stmt ++ "return " ++ cast ++ method ++ "(new " ++ class_name ++
    catch_stmt.

(** [key_names(stmt)]. *)
Definition key_names (stmt : Statement) : string :=
  let keys := search stmt "key" in
  let res :=
    match keys with
    | [] => "return null"
    | _ :: _ =>
        let res := "return new String[] {" ++ nl in
        let res :=
          fold_left
            (fun res key_str =>
               fold_left
                 (fun res key =>
                    res ++ times " " 12 ++ dq ++ key ++ dq ++ "," ++ nl)
                 (split " " (arg key_str)) res)
            keys res in
        drop_last 2 res ++ nl ++ times " " 8 ++ "}"
    end in
  "
    /**
     * Structure information which specifies
     * the keys for the list entries.
     */
    public String[] keyNames() {
        " ++ res ++ ";
    }
".

(** [children_names(stmt)]. *)
Definition children_names (stmt : Statement) : string :=
  let children :=
    filter (fun x => negb (String.eqb (keyword x) "key")) (substmts stmt) in
  let names := map arg children in
  let names :=
    if (0 <? Z.of_nat (List.length names))%Z then
      replace ", " ("," ++ nl ++ times " " 12)
        (replace "'" dq (drop_last 1 (drop_first 1 (repr_list names))))
    else "" in
  "
    /**
     * Structure information with the names of the children.
     * Makes it possible to order the children.
     */
    public String[] childrenNames() {
        return new String[] {
            " ++ names ++ "
        };
    }
".

(** [class_fields(ns_arg, prefix_arg)]. *)
Definition class_fields (ns_arg prefix_arg : string) : string :=
  "
    public static final String NAMESPACE = " ++ dq ++ ns_arg ++ dq ++ ";

    public static final String PREFIX = " ++ dq ++ prefix_arg ++ dq ++ ";
    ".

(** [enable(prefix_name)]. *)
Definition enable (prefix_name : string) : string :=
  "
    /**
     * Enable the elements in this namespace to be aware
     * of the data model and use the generated classes.
     */
    public static void enable() throws INMException {
        Container.setPackage(NAMESPACE, PREFIX);
        " ++ prefix_name ++ ".registerSchema();
    }
".

(** [register_schema(prefix_name)]. *)
Definition register_schema (prefix_name : string) : string :=
  "
    /**
     * Register the schema for this namespace in the global
     * schema table (CsTree) making it possible to lookup
     * CsNode entries for all tagpaths
     */
    public static void registerSchema() throws INMException {
        StackTraceElement[] sTrace = (new Exception()).getStackTrace();
        ClassLoader loader = sTrace[0].getClass().getClassLoader();
        java.net.URL schemaUrl = loader.getSystemResource(" ++ dq ++
    prefix_name ++ ".schema" ++ dq ++ ");
        SchemaParser parser = new SchemaParser();
        Hashtable h = CsTree.create(NAMESPACE);
        if (schemaUrl == null)
            parser.readFile(" ++ dq ++ prefix_name ++ ".schema" ++ dq ++ ", h);
        else
            parser.readFile(schemaUrl, h);
    }
".

(** [access_methods_comment(stmt, optional=False)]. *)
Definition access_methods_comment (stmt : Statement) (optional : bool)
  : string :=
  let opt := if optional then "optional " else "" in
  "
    /**
     * -------------------------------------------------------
     * Access methods for " ++ opt ++ keyword stmt ++
  " child: " ++ dq ++ arg stmt ++ dq ++ ".
     * -------------------------------------------------------
     */
".

(** [child_field(stmt)]. *)
Definition child_field (stmt : Statement) : string :=
  "
    /**
     * Field for child " ++ keyword stmt ++ " " ++ dq ++ arg stmt ++ dq ++ ".
     */
    public " ++ capitalize (arg stmt) ++ " " ++ arg stmt ++ " = null;
".

(** [get_stmt(stmt, keys, string=False)]. *)
Definition get_stmt (stmt : Statement) (keys : KeyList) (as_string : bool)
  : string :=
  let name := capitalize (arg stmt) in
  let spec :=
    if as_string then nl ++ "     * The keys are specified as Strings"
    else "" in
  let '(spec, arguments, xpath) :=
    fold_left
      (fun '(spec, arguments, xpath) '(key_type, key_name) =>
         let spec := spec ++ nl ++ "     * @param " ++ key_name ++
                     " Key argument of child." in
         let arguments :=
           if as_string then arguments ++ "String " ++ key_name ++ ", "
           else arguments ++ key_type ++ " " ++ key_name ++ ", " in
         let xpath := xpath ++ "[" ++ key_name ++ "='" ++ dq ++ " + " ++
                      key_name ++ " + " ++ dq ++ "']" in
         (spec, arguments, xpath))
      keys (spec, "", "") in
  "
    /**
     * Get method for " ++ keyword stmt ++ " entry: " ++ dq ++ arg stmt ++ dq ++ ".
     * Return the child with the specified keys " ++
  "(if any)." ++ spec ++ "
     * @return The " ++ keyword stmt ++ " entry with the specified keys.
     */
    public " ++ name ++ " get" ++ name ++ "(" ++ drop_last 2 arguments ++ ")
        throws INMException {
        String path = " ++ dq ++ arg stmt ++ xpath ++ dq ++ ";
        return (" ++ name ++ ")getListContainer(path);
    }
".

(** [get_value(stmt, ret_type)]. *)
Definition get_value (stmt : Statement) (ret_type : string) : string :=
  let name := capitalize (arg stmt) in
  "
    /**
     * Return the value for child " ++ keyword stmt ++ " " ++ dq ++ arg stmt ++
  dq ++ ".
     * @return The value of the " ++ keyword stmt ++ ".
     */
    public " ++ ret_type ++ " get" ++ name ++ "Value()
        throws INMException {
        return (" ++ ret_type ++ ")getValue(" ++ dq ++ arg stmt ++ dq ++ ");
    }
".

(** [set_value(stmt, prefix, arg_type, confm_type)]; it prints a trace. *)
Definition set_value (stmt : Statement) (prefix arg_type confm_type : string)
  : M string :=
  let name := capitalize (arg stmt) in
  let MAX_COLS :=
    (80 - len ("     * Sets the value for child " ++ keyword stmt ++
               " " ++ dq ++ arg stmt ++ dq ++ ",."))%Z in
  let '(spec1, spec2) :=
    if String.eqb arg_type "String" then
      (", using a string value", "string representation of the ")
    else if String.eqb arg_type "long" then
      (", using the java primitive value", "")
    else ("", "") in
  print ("set" ++ name ++ "Value(" ++ arg_type ++ " " ++ arg stmt ++
         "Value): " ++ nl ++ "len(spec1)=" ++
         str (len spec1) ++ " MAX_COLS=" ++ str MAX_COLS) ;;
  let spec1 :=
    if (MAX_COLS <? len spec1)%Z then "," ++ nl ++ "     * " ++ drop_first 2 spec1
    else spec1 in
  let body :=
    if negb (String.eqb prefix "") then
      let body :=
        if String.eqb (keyword stmt) "leaf-list" then "setLeafListValue("
        else "setLeafValue(" in
      body ++ prefix ++ ".NAMESPACE,
            " ++ dq ++ arg stmt ++ dq ++ ",
            " ++ arg stmt ++ "Value,
            childrenNames());"
    else
      "set" ++ name ++ "Value(new " ++ confm_type ++ "(" ++ arg stmt ++
      "Value));" in
  ret ("
    /**
     * Sets the value for child " ++ keyword stmt ++ " " ++ dq ++ arg stmt ++ dq ++
       spec1 ++ ".
     * @param " ++ arg stmt ++ "Value The " ++ spec2 ++ "value to set.
     */
    public void set" ++ name ++ "Value(" ++ arg_type ++ " " ++ arg stmt ++
       "Value)
        throws INMException {
        " ++ body ++ "
    }
").

(** [unset_value(stmt)]. *)
Definition unset_value (stmt : Statement) : string :=
  "
    /**
     * Unsets the value for child " ++ keyword stmt ++ " " ++ dq ++ arg stmt ++
  dq ++ ".
     */
    public void unset" ++ capitalize (arg stmt) ++ "Value()
        throws INMException {
        delete(" ++ dq ++ arg stmt ++ dq ++ ");
    }
".

(** [add_value(stmt, prefix)]. *)
Definition add_value (stmt : Statement) (prefix : string) : string :=
  let '(name, value_type) :=
    if String.eqb (keyword stmt) "leaf-list" then ("Empty", "List")
    else ("", "") in
  let name := name ++ capitalize (arg stmt) in
  "
    /**
     * This method is used for creating a subtree filter.
     * The added " ++ dq ++ arg stmt ++ dq ++ " " ++ keyword stmt ++
  " will not have a value.
     */
    public void add" ++ name ++ "()
        throws INMException {
        setLeaf" ++ value_type ++ "Value(" ++ prefix ++ ".NAMESPACE,
            " ++ dq ++ arg stmt ++ dq ++ ",
            null,
            childrenNames());
    }
".

(** [mark(stmt, op, arg_type='String')]. *)
Definition mark (stmt : Statement) (op arg_type : string) : string :=
  let spec := op ++ dq in
  let path := arg stmt in
  let argument := "" in
  let '(spec, argument, path) :=
    if String.eqb (keyword stmt) "leaf-list" then
      let spec := spec ++ ".
     * @param " ++ arg stmt ++ "Value The value to mark" in
      let spec :=
        if String.eqb arg_type "String" then spec ++ ", given as a String"
        else spec in
      let argument := arg_type ++ " " ++ arg stmt ++ "Value" in
      let path := path ++ "[name='" ++ dq ++ " + " ++ arg stmt ++ "Value+" ++
                  dq ++ "']" in
      (spec, argument, path)
    else (spec, argument, path) in
  "
    /**
     * Marks the " ++ dq ++ arg stmt ++ dq ++ " " ++ keyword stmt ++
  " with operation " ++ dq ++ spec ++ ".
     */
    public void mark" ++ capitalize (arg stmt) ++ capitalize op ++ "(" ++
  argument ++ ")
        throws INMException {
        markLeaf" ++ capitalize op ++ "(" ++ dq ++ path ++ dq ++ ");
    }
".

(** [child_iterator(substmt)]. *)
Definition child_iterator (substmt : Statement) : string :=
  let iterator_type :=
    if String.eqb (keyword substmt) "leaf-list" then "LeafListValue"
    else "Children" in
  "
    /**
     * Iterator method for the " ++ keyword substmt ++ " " ++ dq ++
  arg substmt ++ dq ++ ".
     * @return An iterator for the " ++ keyword substmt ++ ".
     */
    public Element" ++ iterator_type ++ "Iterator " ++ arg substmt ++
  "Iterator() {
        return new Element" ++ iterator_type ++ "Iterator(children, " ++ dq ++
  arg substmt ++ dq ++ ");
    }
".

(** [add_stmt(stmt, args, field, string)]. *)
Definition add_stmt (stmt : Statement) (args : KeyList)
  (field as_string : bool) : string :=
  let name := capitalize (arg stmt) in
  let '(spec1, spec2, spec3) :=
    if (Z.of_nat (List.length args) =? 1)%Z &&
       String.eqb (fst (hd ("", "") args)) (arg stmt)
    then
      ("." ++ nl ++ "     * @param " ++ snd (hd ("", "") args) ++
       " Child to be added to children",
       name ++ " " ++ arg stmt ++ ", ",
       "")
    else
      let spec3 := nl ++ times " " 8 ++ name ++ " " ++ arg stmt ++
                   " = new " ++ name ++ "(" in
      match args with
      | [] => (".
     * This method is used for creating subtree filters", "", spec3 ++ ");")
      | _ :: _ =>
          let spec1 := ", with given key arguments" in
          let spec1 :=
            if as_string
            then spec1 ++ "." ++ nl ++ "     * The keys are specified as strings"
            else spec1 in
          let '(spec1, spec2, spec3) :=
            fold_left
              (fun '(spec1, spec2, spec3) '(arg_type, arg_name) =>
                 let spec1 := spec1 ++ "." ++ nl ++ "     * @param " ++
                              arg_name ++ " Key argument of child" in
                 let spec2 :=
                   if as_string then spec2 ++ "String " ++ arg_name ++ ", "
                   else spec2 ++ arg_type ++ " " ++ arg_name ++ ", " in
                 let spec3 := spec3 ++ arg_name ++ ", " in
                 (spec1, spec2, spec3))
              args (spec1, "", spec3) in
          (spec1, spec2, drop_last 2 spec3 ++ ");")
      end in
  let spec3 :=
    if field
    then spec3 ++ nl ++ times " " 8 ++ "this." ++ arg stmt ++ " = " ++
         arg stmt ++ ";"
    else spec3 in
  "
    /**
     * Adds " ++ keyword stmt ++ " entry " ++ dq ++ arg stmt ++ dq ++ spec1 ++ ".
     * @return The added child.
     */
    public " ++ name ++ " add" ++ name ++ "(" ++ drop_last 2 spec2 ++ ")
        throws INMException {" ++ spec3 ++ "
        insertChild(" ++ arg stmt ++ ", childrenNames());
        return " ++ arg stmt ++ ";
    }
".

(** [delete_stmt(stmt, args, string, keys)]. *)
Definition delete_stmt (stmt : Statement) (args : KeyList)
  (as_string keys : bool) : string :=
  let '(spec1, spec2, spec3, arguments) :=
    match args with
    | _ :: _ =>
        let spec1 :=
          if keys then
            let spec1 := dq ++ ", with specified keys." in
            if as_string
            then spec1 ++ nl ++ "     * The keys are specified as Strings"
            else spec1
          else if as_string
          then nl ++ "     * The value is specified as a String"
          else "" in
        let '(spec1, spec3, arguments) :=
          fold_left
            (fun '(spec1, spec3, arguments) '(arg_type, arg_name) =>
               let arguments :=
                 if as_string then arguments ++ "String " ++ arg_name ++ ", "
                 else arguments ++ arg_type ++ " " ++ arg_name ++ ", " in
               if keys then
                 (spec1 ++ nl ++ "     * @param " ++ arg_name ++
                  " Key argument of child.",
                  spec3 ++ "[" ++ arg_name ++ "='" ++ dq ++ " + " ++ arg_name ++
                  " + " ++ dq ++ "']",
                  arguments)
               else
                 (spec1 ++ nl ++ "     * @param " ++ arg_name ++
                  " Child to be removed.",
                  spec3 ++ "[name='" ++ dq ++ " + " ++ arg_name ++ " + " ++
                  dq ++ "']",
                  arguments))
            args (spec1, "", "") in
        (spec1, "", spec3, arguments)
    | [] => ("", "this." ++ arg stmt ++ " = null;" ++ nl ++ "        ", "", "")
    end in
  "
    /**
     * Deletes " ++ keyword stmt ++ " entry " ++ dq ++ arg stmt ++ spec1 ++ dq ++ "
     */
    public void delete" ++ capitalize (arg stmt) ++ "(" ++
  drop_last 2 arguments ++ ")
        throws INMException {
        " ++ spec2 ++ "String path = " ++ dq ++ arg stmt ++ spec3 ++ dq ++ ";
        delete(path);
    }
".

(** [support_add(fields)]: the fields are visited from the last to the
    first, with their index. *)
Definition support_add (fields : list string) : string :=
  let assignments :=
    fold_left
      (fun assignments '(i, field) =>
         let assignments :=
           assignments ++ "if ($child instanceof " ++ capitalize field ++
           ") " ++ field ++ " = (" ++ capitalize field ++ ")$child;" in
         if (0 <? i)%nat then assignments ++ nl ++ "        else "
         else assignments)
      (rev (combine (seq 0 (List.length fields)) fields)) "" in
  "
    /**
     * -------------------------------------------------------
     * Support method for addChild.
     * -------------------------------------------------------
     */

    /**
     * Adds a child to this object.
     */
    public void addChild(Element $child) {
        super.addChild($child);
        " ++ assignments ++ "
    }
".

(* ================================================================= *)
(** ** The class generator *)

(** The variables of [generate_class] that its loop over the
    substatements updates.  [type_str] is a local variable of the
    function: it is unassigned until a branch assigns it, and keeps its
    value from one substatement to the next. *)
Record ClassAcc : Type := {
  access_methods : string;
  fields : list string;
  type_str : option string
}.

(** The body of the loop of [generate_class] for the substatement [sub]
    of [stmt].  [generate_sub sub] is the recursive call
    [generate_class(sub, directory, package, src, path + stmt.arg + '/',
    ns, prefix_name, ctx)]. *)
Definition generate_member (generate_sub : Statement -> M unit)
  (stmt : Statement) (ctx : Context) (prefix_name : string)
  (acc : ClassAcc) (sub : Statement) : M ClassAcc :=
  let access_methods := access_methods acc in
  let fields := fields acc in
  let type_str := type_str acc in
  if String.eqb (keyword sub) "list" then
    generate_sub sub ;;
    '(key, _, confm_keys, _) <- extract_keys sub ctx ;;
    let access_methods :=
      access_methods ++ access_methods_comment sub false ++
      get_stmt sub confm_keys false ++
      get_stmt sub confm_keys true ++
      child_iterator sub ++
      add_stmt sub [(arg sub, arg sub)] false false ++
      add_stmt sub confm_keys false false ++
      add_stmt sub confm_keys false true ++
      add_stmt sub [] false false ++
      delete_stmt sub confm_keys false true ++
      delete_stmt sub confm_keys true true in
    ret {| access_methods := access_methods; fields := fields;
           type_str := type_str |}
  else if String.eqb (keyword sub) "container" then
    generate_sub sub ;;
    let fields := list_append fields (arg sub) in
    let access_methods :=
      access_methods ++ access_methods_comment sub false ++
      child_field sub ++
      add_stmt sub [(arg sub, arg sub)] true false ++
      add_stmt sub [] true false ++
      delete_stmt sub [] false true in
    ret {| access_methods := access_methods; fields := fields;
           type_str := type_str |}
  else if String.eqb (keyword sub) "leaf" then
    let key := search_one stmt "key" None in
    let '(optional, access_methods) :=
      if match key with
         | Some k => existsb (String.eqb (arg sub)) (split " " (arg k))
         | None => false
         end
      then
        let temp := Stmt "key" (arg sub) [] in
        (false, access_methods ++ access_methods_comment temp false)
      else (true, access_methods ++ access_methods_comment sub true) in
    type_stmt <- deref (search_one sub "type" None) ;;
    '(type_str, access_methods) <-
      (if String.eqb (arg type_stmt) "uint32" then
         let type_str := "com.tailf.confm.xs.UnsignedInt" in
         s1 <- set_value sub prefix_name type_str "" ;;
         s2 <- set_value sub "" "String" type_str ;;
         s3 <- set_value sub "" "long" type_str ;;
         ret (Some type_str,
              access_methods ++ get_value sub type_str ++ s1 ++ s2 ++ s3)
       else if String.eqb (arg type_stmt) "string" then
         let type_str := "com.tailf.confm.xs.String" in
         s1 <- set_value sub prefix_name type_str "" ;;
         s2 <- set_value sub "" "String" type_str ;;
         ret (Some type_str,
              access_methods ++ get_value sub type_str ++ s1 ++ s2)
       else
         type_str <-
           (if debug (opts ctx) || verbose (opts ctx) then
              print_err ("WARNING! No support for type " ++ dq ++
                         arg type_stmt ++ dq ++ ", defaulting to string.") ;;
              ret (Some "com.tailf.confm.xs.String")
            else ret type_str) ;;
         t <- local type_str ;;
         s1 <- set_value sub prefix_name t "" ;;
         s2 <- set_value sub "" "" "" ;;
         ret (type_str, access_methods ++ get_value sub t ++ s1 ++ s2)) ;;
    let access_methods :=
      if optional then access_methods ++ unset_value sub
      else access_methods in
    let access_methods := access_methods ++ add_value sub prefix_name in
    let access_methods :=
      if optional then
        access_methods ++ mark sub "replace" "String" ++
        mark sub "merge" "String" ++
        mark sub "create" "String" ++
        mark sub "delete" "String"
      else access_methods in
    ret {| access_methods := access_methods; fields := fields;
           type_str := type_str |}
  else if String.eqb (keyword sub) "leaf-list" then
    let type_stmt := search_one sub "type" None in
    let access_methods :=
      access_methods ++ access_methods_comment sub false ++
      child_iterator sub in
    type_stmt <- deref type_stmt ;;
    '(type_str, access_methods) <-
      (if String.eqb (arg type_stmt) "uint32" then
         let type_str := "com.tailf.confm.xs.UnsignedInt" in
         s1 <- set_value sub prefix_name type_str "" ;;
         s2 <- set_value sub "" "String" type_str ;;
         s3 <- set_value sub "" "long" type_str ;;
         ret (Some type_str, access_methods ++ s1 ++ s2 ++ s3)
       else if String.eqb (arg type_stmt) "string" then
         let type_str := "com.tailf.confm.xs.String" in
         s1 <- set_value sub prefix_name type_str "" ;;
         s2 <- set_value sub "" "String" type_str ;;
         ret (Some type_str, access_methods ++ s1 ++ s2)
       else
         type_str <-
           (if debug (opts ctx) || verbose (opts ctx) then
              print_err ("WARNING! No support for type " ++ dq ++
                         arg type_stmt ++ dq ++ ", defaulting to string.") ;;
              ret (Some "com.tailf.confm.xs.String")
            else ret type_str) ;;
         t <- local type_str ;;
         s1 <- set_value sub prefix_name t "" ;;
         s2 <- set_value sub "" "String" t ;;
         ret (type_str, access_methods ++ s1 ++ s2)) ;;
    t <- local type_str ;;
    let access_methods :=
      access_methods ++
      delete_stmt sub [(t, arg sub ++ "Value")] false false ++
      delete_stmt sub [(t, arg sub ++ "Value")] true false ++
      add_value sub prefix_name ++
      mark sub "replace" t ++
      mark sub "replace" "String" ++
      mark sub "merge" t ++
      mark sub "merge" "String" ++
      mark sub "create" t ++
      mark sub "create" "String" ++
      mark sub "delete" t ++
      mark sub "delete" "String" in
    ret {| access_methods := access_methods; fields := fields;
           type_str := type_str |}
  else if String.eqb (keyword sub) "uses" then
    print ("USES..... " ++ arg sub) ;;
    ret acc
  else if String.eqb (keyword sub) "grouping" then
    print ("Grouping: " ++ arg sub) ;;
    ret acc
  else
    print (keyword sub ++ ": " ++ arg sub) ;;
    ret acc.

(** The constructors and the clone methods of the class of [stmt]: the
    [if stmt.keyword == 'container': ... elif stmt.keyword == 'list': ...]
    of [generate_class].  [constructors] is kept as the list of the
    results of the calls of [constructor], in the order in which the
    source concatenates them. *)
Definition generate_constructors (stmt : Statement) (ctx : Context)
  (prefix_name name : string) (top_level : bool) : M (list string * string) :=
  if String.eqb (keyword stmt) "container" then
    c0 <- constructor stmt ctx prefix_name top_level 0 [] "" ;;
    let cloners := clone name [] false ++ clone name [] true in
    ret ([c0], cloners)
  else if String.eqb (keyword stmt) "list" then
    '(key, only_strings, confm_keys, primitive_keys) <- extract_keys stmt ctx ;;
    c0 <- constructor stmt ctx prefix_name top_level 0 []
            (nl ++ "        throws INMException") ;;
    c1 <- constructor stmt ctx prefix_name top_level 1 confm_keys "
        throws INMException" ;;
    c2 <- constructor stmt ctx prefix_name top_level 2 primitive_keys "
        throws INMException" ;;
    let constructors := [c0; c1; c2] in
    constructors <-
      (if negb (truthy only_strings) then
         c3 <- constructor stmt ctx prefix_name top_level 3 primitive_keys "
        throws INMException" ;;
         ret (list_append constructors c3)
       else ret constructors) ;;
    let cloners :=
      clone name (map capitalize (split " " (arg key))) false ++
      clone name (map capitalize (split " " (arg key))) true in
    ret (constructors, cloners)
  else ret ([], "").

(** [generate_class(stmt, directory, package, src, path, ns, prefix_name,
    ctx, top_level=False)], on the day [time]. *)
Fixpoint generate_class (time : Date) (stmt : Statement)
  (directory package src path ns prefix_name : string) (ctx : Context)
  (top_level : bool) {struct stmt} : M unit :=
  match stmt with
  | Stmt _ _ subs =>
      let '(filename, name) := extract_names (arg stmt) in
      acc <-
        (fix members (subs : list Statement) (acc : ClassAcc) {struct subs}
           : M ClassAcc :=
           match subs with
           | [] => ret acc
           | sub :: rest =>
               acc' <-
                 generate_member
                   (fun sub =>
                      generate_class time sub directory package src
                                     (path ++ arg stmt ++ "/") ns prefix_name
                                     ctx false)
                   stmt ctx prefix_name acc sub ;;
               members rest acc'
           end) subs
          {| access_methods := ""; fields := []; type_str := None |} ;;
      when (verbose (opts ctx))
        (print ("Generating Java class " ++ dq ++ filename ++ dq ++ "...")) ;;
      let support_methods :=
        match filter (fun s => is_container s false) subs with
        | _ :: _ => support_add (fields acc)
        | [] => ""
        end in
      '(constructors, cloners) <-
        generate_constructors stmt ctx prefix_name name top_level ;;
      write_file (directory ++ "/" ++ filename)
        (java_class time filename package
           ["com.tailf.confm.*"; "com.tailf.inm.*"; "java.util.Hashtable"]
           ("This class represents a " ++ dq ++ path ++ arg stmt ++
            dq ++ " element" ++ nl ++ " * from the namespace " ++ ns)
           (join "" constructors ++ cloners ++ key_names stmt ++
            children_names stmt ++ access_methods acc ++ support_methods)
           "1.0" " extends Container" src)
  end.

(** [generate_classes(module, directory, package, src, ctx)], on the day
    [time].  The variables [ns_arg] and [prefix] are assigned only for a
    module or a submodule. *)
Definition generate_classes (time : Date) (module : Statement)
  (directory package src : string) (ctx : Context) : M unit :=
  '(ns_arg, prefix) <-
    (if String.eqb (keyword module) "module" then
       ns <- deref (search_one module "namespace" None) ;;
       let ns_arg := arg ns in
       let prefix := search_one module "prefix" None in
       ret (Some ns_arg, Some prefix)
     else if String.eqb (keyword module) "submodule" then
       let parent_module := search_one module "belongs-to" None in
       parent_module <- deref parent_module ;;
       let prefix := search_one parent_module "prefix" None in
       p <- deref prefix ;;
       let ns_arg := "<unknown/prefix: " ++ arg p ++ ">" in
       ret (Some ns_arg, Some prefix)
     else ret (None, None)) ;;
  prefix <- local prefix ;;
  prefix <- deref prefix ;;
  let '(filename, name) := extract_names (arg prefix) in
  for_loop (substmts module)
    (fun _ stmt =>
       if String.eqb (keyword stmt) "container" ||
          String.eqb (keyword stmt) "list"
       then
         ns_arg <- local ns_arg ;;
         generate_class time stmt directory package src "" ns_arg name ctx true
       else ret tt)
    tt ;;
  when (verbose (opts ctx))
    (print ("Generating Java class " ++ dq ++ filename ++ dq ++ "...")) ;;
  ns_arg <- local ns_arg ;;
  write_file (directory ++ "/" ++ filename)
    (java_class time filename package
       ["com.tailf.confm.*"; "com.tailf.inm.*"; "java.util.Hashtable"]
       ("The root class for namespace " ++ ns_arg ++
        " (accessible from " ++ nl ++ " * " ++ name ++
        ".NAMESPACE) with prefix " ++ dq ++
        arg prefix ++ dq ++ " (" ++ name ++ ".PREFIX).")
       (class_fields ns_arg (arg prefix) ++
        enable name ++ register_schema name)
       "1.0" "" src).

(** The schema generation of [JPyangPlugin.emit] for one top-level
    statement: the body of [if not ctx.opts.no_schema].  [cwd] is
    [os.getcwd()], the directory the files go to.  A top-level statement
    has no parent. *)
Definition emit_schema (cwd : string) (ctx : Context) (module : Statement)
  : M unit :=
  ns <- deref (search_one module "namespace" None) ;;
  let ns := arg ns in
  name <- deref (search_one module "prefix" None) ;;
  let name := capitalize (arg name) in
  node <- schema_node module None "/" ns ctx ;;
  nodes <- schema_nodes module "/" ns ctx ;;
  write_file (cwd ++ "/" ++ name ++ ".schema")
    ("<schema>" ++ nl ++
     indent (splitlines ("<node>" ++ nl ++ indent node 1 ++
                         nl ++ "</node>" ++ nodes)) 1 ++
     nl ++ "</schema>") ;;
  when (debug (opts ctx) || verbose (opts ctx))
    (print "Schema generation COMPLETE.").

(** The body of the loop [for module in modules] of [JPyangPlugin.emit],
    for one top-level statement.  [get_latest_revision] is the function
    of that name of the parser's utilities, which is not part of the
    plug-in. *)
Definition emit_module (time : Date)
  (get_latest_revision : Statement -> string) (cwd : string) (ctx : Context)
  (module : Statement) : M unit :=
  if String.eqb (keyword module) "module" ||
     String.eqb (keyword module) "submodule"
  then
    (if negb (no_schema (opts ctx)) then emit_schema cwd ctx module
     else ret tt) ;;
    let src := "module " ++ dq ++ arg module ++ dq ++ ", revision: " ++ dq ++
               get_latest_revision module ++ dq ++ "." in
    generate_classes time module cwd (directory (opts ctx)) src ctx ;;
    when (String.eqb (keyword module) "submodule")
      (print_err "Warning: no support for submodule") ;;
    when (debug (opts ctx) || verbose (opts ctx))
      (print "Java classes generation COMPLETE.")
  else
    print_err ("Error: unrecognized keyword: " ++ keyword module ++
               "top-level element should be module or submodule") ;;
    raise (EmitError 1).

(** The loop [for module in modules] of [JPyangPlugin.emit]. *)
Definition emit_modules (time : Date)
  (get_latest_revision : Statement -> string) (cwd : string) (ctx : Context)
  (modules : list Statement) : M unit :=
  for_loop modules
    (fun _ module => emit_module time get_latest_revision cwd ctx module) tt.

(* ================================================================= *)
(** ** The package description *)

(** A class hierarchy as [generate_javadoc] builds it: a list whose
    entries are file names and, after a file name, the list of the
    entries below it. *)
Inductive Entry : Type :=
| File (filename : string)
| Below (entries : list Entry).

(** [is_not_list(entry)]. *)
Definition is_not_list (entry : Entry) : bool :=
  match entry with
  | File _ => true
  | Below _ => false
  end.

(** [html_list(body, indent_level, tag='ul')]. *)
Definition html_list (body : string) (indent_level : nat) (tag : string)
  : string :=
  let body := "<" ++ tag ++ ">" ++ nl ++ body in
  let body := if negb (String.eqb (last1 body) nl) then body ++ nl else body in
  let body := body ++ "</" ++ tag ++ ">" in
  indent (split (ascii_of_nat 10) body) indent_level.

(** [parse_hierarchy(hierarchy)]; [parse_entry res entry] is the body of
    its loop. *)
Fixpoint parse_entry (res : string) (entry : Entry) {struct entry} : string :=
  match entry with
  | File e =>
      let body := "    <a href=" ++ dq ++ drop_last 5 e ++ ".html" ++ dq ++ ">" ++
                  drop_last 5 e ++ "</a>" in
      let res := res ++ html_list body 1 "li" in
      if negb (String.eqb (last1 body) nl) then res ++ nl else res
  | Below es =>
      let body :=
        (fix parse_hierarchy (hierarchy : list Entry) (res : string)
           {struct hierarchy} : string :=
           match hierarchy with
           | [] => res
           | entry :: rest => parse_hierarchy rest (parse_entry res entry)
           end) es "" in
      let res := res ++ html_list body 1 "ul" in
      if negb (String.eqb (last1 body) nl) then res ++ nl else res
  end.

Definition parse_hierarchy (hierarchy : list Entry) : string :=
  fold_left parse_entry hierarchy "".

(** The file names among the entries: [filter(is_not_list, ...)]. *)
Definition top_level_files (class_hierarchy : list Entry) : list string :=
  flat_map (fun entry => match entry with
                         | File e => [e]
                         | Below _ => []
                         end) class_hierarchy.

(** [l.remove(x)] for an [x] that is in [l]: the first occurrence goes. *)
Fixpoint remove_first (x : string) (l : list string) : list string :=
  match l with
  | [] => []
  | y :: rest => if String.eqb y x then rest else y :: remove_first x rest
  end.

(** [generate_javadoc(stmts, java_files, ctx)].  [java_files] is one list
    that all the calls share and shorten: it is passed in and handed
    back.  [javadoc_entry] is the body of the loop, for one statement. *)
Fixpoint javadoc_entry (java_files : list string) (hierarchy : list Entry)
  (stmt : Statement) {struct stmt} : list string * list Entry :=
  match stmt with
  | Stmt _ _ subs =>
      let '(filename, name) := extract_names (arg stmt) in
      if existsb (String.eqb filename) java_files then
        let java_files := remove_first filename java_files in
        let hierarchy := list_append hierarchy (File filename) in
        let '(java_files, children) :=
          (fix generate_javadoc (stmts : list Statement)
               (state : list string * list Entry) {struct stmts}
             : list string * list Entry :=
             match stmts with
             | [] => state
             | stmt :: rest =>
                 generate_javadoc rest
                   (javadoc_entry (fst state) (snd state) stmt)
             end) subs (java_files, []) in
        let hierarchy :=
          match children with
          | _ :: _ => list_append hierarchy (Below children)
          | [] => hierarchy
          end in
        (java_files, hierarchy)
      else (java_files, hierarchy)
  end.

Definition generate_javadoc (stmts : list Statement) (java_files : list string)
  : list string * list Entry :=
  fold_left (fun state stmt => javadoc_entry (fst state) (snd state) stmt)
            stmts (java_files, []).

(** [decapitalize], the lambda of [gen_package]. *)
Definition decapitalize (s : string) : string :=
  if negb (String.eqb s "") then lower (first1 s) ++ drop_first 1 s else "".

(** The revision of [module_arg] as [gen_package] reads it:
    [rev = ctx.revs[module_arg][-1:][:0]], then ['unknown'] if [not rev].
    A revision left as a list could not be added to a string. *)
Definition package_revision (ctx : Context) (module_arg : string) : M string :=
  known <- dict_get (revs ctx) module_arg ;;
  let rev := slice None (Some 0%Z) (slice (Some (-1)%Z) None known) in
  match rev with
  | [] => ret "unknown"
  | _ :: _ => raise TypeError
  end.

(** The body of the loop of [gen_package], for one file name. *)
Definition package_src_step (ctx : Context) (src entry : string) : M string :=
  let module_arg := decapitalize (drop_last 5 entry) in
  rev <- package_revision ctx module_arg ;;
  ret (src ++ "module " ++ dq ++ module_arg ++ dq ++ " (rev " ++ dq ++
       rev ++ dq ++ "), ").

(** The text [src] built by the loop of [gen_package]. *)
Definition package_src (ctx : Context) (top_level_entries : list string)
  : M string :=
  for_loop top_level_entries (package_src_step ctx) "".

(** The text of [package-info.java] that [gen_package] writes, from the
    text [src] built by its loop: the part of the function after the
    loop. *)
Definition package_info (class_hierarchy : list Entry) (package : string)
  (top_level_entries : list string) (src : string) : string :=
  let source := "" in
  let source :=
    if (1 <? Z.of_nat (List.length top_level_entries))%Z then source ++ "s"
    else source in
  let source := source ++ nl ++ drop_last 2 src in
  let html_hierarchy := html_list (parse_hierarchy class_hierarchy) 0 "ul" in
  let specification :=
    nl ++
    "This class hierarchy was generated from the Yang module" ++ source ++
    " by the <a target=" ++ dq ++ "_top" ++ dq ++ " href=" ++ dq ++
    "https://github.com/Emil-Tail-f/JPyang" ++ dq ++ ">" ++
    "JPyang</a> plugin of <a target=" ++ dq ++ "_top" ++ dq ++ " " ++
    "href=" ++ dq ++ "http://code.google.com/p/pyang/" ++ dq ++ ">pyang</a>." ++
    nl ++
    "The generated classes may be used to manipulate pieces of configuration data" ++
    nl ++
    "with NETCONF operations such as edit-config, delete-config and lock. These" ++
    nl ++
    "operations are typically accessed through the ConfM Java library by" ++
    nl ++
    "instantiating Device objects and setting up NETCONF sessions with real devices" ++
    nl ++
    "using a compatible YANG model." ++ nl ++
    nl in
  "/**" ++ java_docify (specification ++ html_hierarchy) ++ "
 *
 * @see <a target=" ++ dq ++ "_top" ++ dq ++ " href=" ++ dq ++
     "https://github.com/Emil-Tail-f/JPyang" ++ dq ++ ">" ++
     "JPyang project page</a>" ++ nl ++ " * @see <a target=" ++ dq ++ "_top" ++
     dq ++ " " ++
     "href=" ++ dq ++ "ftp://ftp.rfc-editor.org/in-notes/rfc6020.txt" ++ dq ++
     ">" ++
     "RFC 6020: YANG - A Data Modeling Language for the Network " ++
     "Configuration Protocol (NETCONF)</a>" ++ nl ++ " * @see <a target=" ++ dq ++
     "_top" ++ dq ++ " " ++
     "href=" ++ dq ++ "ftp://ftp.rfc-editor.org/in-notes/rfc6241.txt" ++ dq ++
     ">RFC 6241: " ++
     "Network Configuration Protocol (NETCONF)</a>" ++ nl ++ " * @see <a " ++
     "target=" ++ dq ++ "_top" ++ dq ++ " href=" ++ dq ++
     "ftp://ftp.rfc-editor.org/in-notes/rfc6242.txt" ++ dq ++ ">" ++
     "RFC 6242: Using the NETCONF Protocol over Secure Shell (SSH)</a>" ++ nl ++
     " * @see <a target=" ++ dq ++ "_top" ++ dq ++ " href=" ++ dq ++
     "http://www.tail-f.com" ++ dq ++ ">Tail-f " ++
     "Systems</a>" ++ nl ++ " */" ++ nl ++ "package " ++ package ++ ";".

(** [gen_package(class_hierarchy, package, ctx)]. *)
Definition gen_package (class_hierarchy : list Entry) (package : string)
  (ctx : Context) : M unit :=
  when (verbose (opts ctx))
    (print "Generating package description package-info.java...") ;;
  let top_level_entries := top_level_files class_hierarchy in
  src <- package_src ctx top_level_entries ;;
  write_file "package-info.java"
    (package_info class_hierarchy package top_level_entries src).

(* ================================================================= *)
(** ** Vocabulary of the properties *)

(** The type name of the leaf [a] of [stmt]: [None] when [stmt] has no
    leaf of that name, or when its first such leaf has no type. *)
Definition key_leaf_type (stmt : Statement) (a : string) : option string :=
  match search_one stmt "leaf" (Some a) with
  | Some leaf =>
      match search_one leaf "type" None with
      | Some t => Some (arg t)
      | None => None
      end
  | None => None
  end.

(** [stmt] has a key statement and every identifier of its argument
    names a leaf of [stmt] that has a type. *)
Definition keys_resolve (stmt : Statement) : bool :=
  match search_one stmt "key" None with
  | Some key =>
      forallb (fun a => match key_leaf_type stmt a with
                        | Some _ => true
                        | None => false
                        end)
              (split " " (arg key))
  | None => false
  end.

(** [stmt] has a key statement and some identifier of its argument names
    no leaf of [stmt]. *)
Definition names_missing_leaf (stmt : Statement) : bool :=
  match search_one stmt "key" None with
  | Some key =>
      existsb (fun a => match search_one stmt "leaf" (Some a) with
                        | Some _ => false
                        | None => true
                        end)
              (split " " (arg key))
  | None => false
  end.

(** A primitive key whose representation is the string type. *)
Definition is_string_key (k : string * string) : bool :=
  String.eqb (fst k) "String".

(** One parameter of a constructor, as [constructor] lays it out: after
    a line break or not, of type [String] in mode 2 and of the type of
    the key otherwise, named after the key, and followed by a comma. *)
Definition parameter (mode : Z) (break : bool) (k : string * string) : string :=
  (if break then nl ++ times " " 8 else "") ++
  (if (mode =? 2)%Z then "String" else fst k) ++ " " ++ snd k ++ "Value, ".

(** The text [src] of the package description when every revision is
    reported as unknown. *)
Definition unknown_src (top_level_entries : list string) : string :=
  join "" (map (fun entry =>
                  "module " ++ dq ++ decapitalize (drop_last 5 entry) ++ dq ++
                  " (rev " ++ dq ++ "unknown" ++ dq ++ "), ")
               top_level_entries).

(** The [throws] clause of the constructors of a list class. *)
Definition throws_inm : string := nl ++ "        throws INMException".

(** The warning for a type that is neither [string] nor [uint32]. *)
Definition unsupported_type_warning (t : string) : string :=
  "WARNING! No support for type " ++ dq ++ t ++ dq ++ ", defaulting to string.".

(** The warning of [emit] for a submodule. *)
Definition submodule_warning : string := "Warning: no support for submodule".

(** The origin of the classes of a top-level statement, as [emit] words
    it. *)
Definition module_src (get_latest_revision : Statement -> string)
  (module : Statement) : string :=
  "module " ++ dq ++ arg module ++ dq ++ ", revision: " ++ dq ++
  get_latest_revision module ++ dq ++ ".".

(** [k in d] for a dict. *)
Definition has_key {V : Type} (d : list (string * V)) (k : string) : bool :=
  existsb (fun kv => String.eqb (fst kv) k) d.

(** The context knows the module of every class file of the list. *)
Definition knows_modules (ctx : Context) (top_level_entries : list string)
  : bool :=
  forallb (fun entry => has_key (revs ctx) (decapitalize (drop_last 5 entry)))
          top_level_entries.

(** The representation [set_value] and [get_value] use for strings. *)
Definition confm_string : string := "com.tailf.confm.xs.String".

(** *** Sample inputs *)

Definition sample_opts (chatty schema_off : bool) : Opts :=
  {| directory := "com.example"; debug := chatty; verbose := false;
     no_schema := schema_off |}.

Definition sample_ctx (chatty schema_off : bool) : Context :=
  {| opts := sample_opts chatty schema_off;
     revs := [("m", [("2012-06-01", "m.yang")])] |}.

Definition sample_day : Date := {| year := 2012; month := 6; day := 1 |}.

Definition sample_leaf (name type : string) : Statement :=
  Stmt "leaf" name [Stmt "type" type []].

(** [leaf m { type string; mandatory true; }]. *)
Definition mandatory_leaf : Statement :=
  Stmt "leaf" "m" [Stmt "type" "string" []; Stmt "mandatory" "true" []].

(** [list l { key "k"; leaf k {...} leaf m {... mandatory true;} }]. *)
Definition list_with_mandatory_leaf : Statement :=
  Stmt "list" "l"
       [Stmt "key" "k" []; sample_leaf "k" "string"; mandatory_leaf].

(** [container c { list l {...} }]. *)
Definition container_with_list : Statement :=
  Stmt "container" "c" [list_with_mandatory_leaf].

(** [list entry { key "x y"; leaf x {type string;} leaf y {type string;} }]. *)
Definition list_two_string_keys : Statement :=
  Stmt "list" "entry"
       [Stmt "key" "x y" []; sample_leaf "x" "string"; sample_leaf "y" "string"].

(** [list entry { key "id"; leaf id {type uint32;} }]. *)
Definition list_uint_key : Statement :=
  Stmt "list" "entry" [Stmt "key" "id" []; sample_leaf "id" "uint32"].

(** [list l { key "a b a"; leaf a {type string;} leaf b {type uint32;} }]. *)
Definition list_repeated_key : Statement :=
  Stmt "list" "l"
       [Stmt "key" "a b a" []; sample_leaf "a" "string";
        sample_leaf "b" "uint32"].

(** [list l { key "a b"; leaf a {type string;} }]: no leaf [b]. *)
Definition list_missing_key_leaf : Statement :=
  Stmt "list" "l" [Stmt "key" "a b" []; sample_leaf "a" "string"].

(** [container c { leaf d {type decimal64;} }]. *)
Definition container_decimal_leaf : Statement :=
  Stmt "container" "c" [sample_leaf "d" "decimal64"].


(** [submodule s { belongs-to m { prefix mp; } container c {...} }]. *)
Definition sample_submodule : Statement :=
  Stmt "submodule" "s"
       [Stmt "belongs-to" "m" [Stmt "prefix" "mp" []];
        Stmt "container" "c" [sample_leaf "x" "string"]].

(* ================================================================= *)
(** ** Vocabulary of the further properties *)

(** [stmt] has [mandatory true]; [stmt] has [unique true]. *)
Definition is_mandatory (stmt : Statement) : bool :=
  match search_one stmt "mandatory" None with
  | Some m => String.eqb (arg m) "true"
  | None => false
  end.

Definition is_unique (stmt : Statement) : bool :=
  match search_one stmt "unique" None with
  | Some u => String.eqb (arg u) "true"
  | None => false
  end.

(** The argument of the key statement of the parent is the argument of
    [stmt]. *)
Definition is_whole_key (stmt : Statement) (parent : option Statement) : bool :=
  match parent with
  | Some p =>
      match search_one p "key" None with
      | Some k => String.eqb (arg k) (arg stmt)
      | None => false
      end
  | None => false
  end.

(** The parent is a container or a list. *)
Definition child_of_container (parent : option Statement) : bool :=
  match parent with
  | Some p => is_container p false
  | None => false
  end.

(** A character that ends a line for [splitlines], and a string without
    such a character. *)
Definition line_break (c : ascii) : bool :=
  Ascii.eqb c (ascii_of_nat 10) || Ascii.eqb c (ascii_of_nat 13).

Fixpoint one_line (s : string) : bool :=
  match s with
  | "" => true
  | String c r => negb (line_break c) && one_line r
  end.

(** The type name of the key leaf [a] of [stmt], or the empty string. *)
Definition leaf_type (stmt : Statement) (a : string) : string :=
  match key_leaf_type stmt a with
  | Some t => t
  | None => ""
  end.

(** The two representations of a key: [uint32] is the only type with
    representations of its own. *)
Definition wrapped_type (t : string) : string :=
  if String.eqb t "uint32" then "com.tailf.confm.xs.UnsignedInt"
  else confm_string.

Definition primitive_type (t : string) : string :=
  if String.eqb t "uint32" then "long" else "String".

(** A type that is neither [string] nor [uint32]. *)
Definition unsupported (t : string) : bool :=
  negb (String.eqb t "string") && negb (String.eqb t "uint32").

(** The warnings of [extract_keys] for the identifiers [ids]. *)
Definition key_warnings (stmt : Statement) (ctx : Context) (ids : list string)
  : list Event :=
  if debug (opts ctx) || verbose (opts ctx) then
    map (fun a => Stderr (unsupported_type_warning (leaf_type stmt a)))
        (filter (fun a => unsupported (leaf_type stmt a)) ids)
  else [].

(** Every event of a computation satisfies [P]. *)
Definition only (P : Event -> bool) {A : Type} (m : M A) : Prop :=
  forallb P (events m) = true.

(** The events that are not diagnostics, and those that write no file. *)
Definition no_diagnostic (e : Event) : bool := negb (is_stderr e).

Definition no_file (e : Event) : bool :=
  match e with
  | WriteFile _ _ => false
  | _ => true
  end.

(** The path of the class file of a statement. *)
Definition class_file (directory : string) (stmt : Statement) : string :=
  directory ++ "/" ++ fst (extract_names (arg stmt)).

(** The class files of a container or list: those of the containers and
    lists among its substatements, in their order, then its own. *)
Fixpoint class_files (directory : string) (stmt : Statement) {struct stmt}
  : list string :=
  match stmt with
  | Stmt _ _ subs =>
      (flat_map (fun sub => if is_container sub false
                            then class_files directory sub else [])
                subs ++ [class_file directory stmt])%list
  end.

(** The class files of the containers and lists among [stmts]. *)
Definition classes_files (directory : string) (stmts : list Statement)
  : list string :=
  flat_map (fun sub => if is_container sub false
                       then class_files directory sub else []) stmts.

(** A computation writes the files [l], in this order, when it completes,
    and the first ones of them when it faults. *)
Definition writes {A : Type} (m : M A) (l : list string) : Prop :=
  exists rest,
    l = (written (events m) ++ rest)%list /\
    (forall a, outcome m = Ok a -> rest = []).

(** The prefix statement that names the root class of a module or
    submodule: for a submodule, the one of its [belongs-to] statement. *)
Definition root_prefix (module : Statement) : option Statement :=
  if String.eqb (keyword module) "module" then
    match search_one module "namespace" None with
    | Some _ => search_one module "prefix" None
    | None => None
    end
  else if String.eqb (keyword module) "submodule" then
    match search_one module "belongs-to" None with
    | Some parent_module => search_one parent_module "prefix" None
    | None => None
    end
  else None.

(** The error of [emit] for a top-level statement that is neither a
    module nor a submodule. *)
Definition unrecognized_keyword (module : Statement) : string :=
  "Error: unrecognized keyword: " ++ keyword module ++
  "top-level element should be module or submodule".

(** The path of the schema file of a module with the prefix statement
    [prefix]. *)
Definition schema_file (cwd : string) (prefix : Statement) : string :=
  cwd ++ "/" ++ capitalize (arg prefix) ++ ".schema".

(** The file names of a hierarchy, at every depth. *)
Fixpoint entry_files (entry : Entry) : list string :=
  match entry with
  | File e => [e]
  | Below es => flat_map entry_files es
  end.

Definition hierarchy_files (hierarchy : list Entry) : list string :=
  flat_map entry_files hierarchy.

(** A computation that returns. *)
Definition completes {A : Type} (m : M A) : bool :=
  match outcome m with
  | Ok _ => true
  | Raise _ => false
  end.

(** The schema files of a turn of the loop of [emit]: none with
    [no_schema], else the one named after the prefix of the statement. *)
Definition schema_files (cwd : string) (ctx : Context) (module : Statement)
  : list string :=
  if no_schema (opts ctx) then []
  else match search_one module "prefix" None with
       | Some prefix => [schema_file cwd prefix]
       | None => []
       end.

(** [module m { namespace "urn:m"; prefix mp; container c {...} }]. *)
Definition sample_module : Statement :=
  Stmt "module" "m"
       [Stmt "namespace" "urn:m" []; Stmt "prefix" "mp" [];
        container_with_list].

(** The identifiers of the key argument of a list. *)
Definition key_identifiers (stmt : Statement) : list string :=
  match search_one stmt "key" None with
  | Some key => split " " (arg key)
  | None => []
  end.

(** The keys of a list in their two representations, from the types of
    the leaves the identifiers name. *)
Definition confm_keys_of (stmt : Statement) : KeyList :=
  map (fun a => (wrapped_type (leaf_type stmt a), a)) (key_identifiers stmt).

Definition primitive_keys_of (stmt : Statement) : KeyList :=
  map (fun a => (primitive_type (leaf_type stmt a), a)) (key_identifiers stmt).

(** No key identifier names a leaf of type [uint32]. *)
Definition no_uint32_key (stmt : Statement) : bool :=
  forallb (fun a => negb (String.eqb (leaf_type stmt a) "uint32"))
          (key_identifiers stmt).

(** The root that the constructors of a class name: the prefix, or the
    class when there is none. *)
Definition class_root (prefix_name : string) (stmt : Statement) : string :=
  if String.eqb prefix_name "" then capitalize (arg stmt) else prefix_name.

(** The Java text of one constructor of the class [name]: its comment,
    its declaration with the parameters [params], and its body. *)
Definition java_constructor
  (name status doc params throws root a body : string) : string :=
  "
    /**
     * Constructor for an " ++ status ++ name ++ " object." ++ doc ++ "
     */
    public " ++ name ++ "(" ++ params ++ ")" ++ throws ++ " {
        super(" ++ root ++ ".NAMESPACE, " ++ dq ++ a ++ dq ++ ");" ++ body ++ "
    }
".

(** The parameter list of a constructor for the keys [keys]: one
    parameter for each key, in order, without the final comma and
    space. *)
Definition parameters (mode : Z) (breaks : list bool) (keys : KeyList)
  : string :=
  drop_last 2 (join "" (map (fun bk => parameter mode (fst bk) (snd bk))
                            (combine breaks keys))).

(** [text] is the constructor of the class of [stmt] without parameters;
    [text] is its constructor of mode [mode] with one parameter for each
    of the keys. *)
Definition empty_constructor (stmt : Statement) (root text : string) : Prop :=
  exists body,
    text = java_constructor (capitalize (arg stmt)) "empty " "" "" throws_inm
                            root (arg stmt) body.

Definition key_constructor (stmt : Statement) (root : string) (mode : Z)
  (keys : KeyList) (text : string) : Prop :=
  exists breaks doc body,
    List.length breaks = List.length keys /\
    parameters mode breaks keys <> "" /\
    text = java_constructor (capitalize (arg stmt)) "initialized " doc
                            (parameters mode breaks keys) throws_inm
                            root (arg stmt) body.

(** The two clone methods of the class of a list. *)
Definition list_cloners (stmt : Statement) (name : string) : string :=
  clone name (map capitalize (key_identifiers stmt)) false ++
  clone name (map capitalize (key_identifiers stmt)) true.

(** The text of the class file of [stmt] with the members [body]. *)
Definition class_text (time : Date) (stmt : Statement)
  (package src path ns body : string) : string :=
  java_class time (fst (extract_names (arg stmt))) package
    ["com.tailf.confm.*"; "com.tailf.inm.*"; "java.util.Hashtable"]
    ("This class represents a " ++ dq ++ path ++ arg stmt ++
     dq ++ " element" ++ nl ++ " * from the namespace " ++ ns)
    body "1.0" " extends Container" src.

(** The loop of [generate_class] over the substatements of [stmt]: it
    generates the classes below and collects the accessors. *)
Definition class_members (time : Date) (stmt : Statement)
  (directory package src path ns prefix_name : string) (ctx : Context)
  : M ClassAcc :=
  for_loop (substmts stmt)
    (generate_member
       (fun sub =>
          generate_class time sub directory package src
                         (path ++ arg stmt ++ "/") ns prefix_name ctx false)
       stmt ctx prefix_name)
    {| access_methods := ""; fields := []; type_str := None |}.

(** The support methods of a class with a container or list below it. *)
Definition support_methods (stmt : Statement) (acc : ClassAcc) : string :=
  match filter (fun s => is_container s false) (substmts stmt) with
  | _ :: _ => support_add (fields acc)
  | [] => ""
  end.

(** The members of the class of [stmt] after its constructors and clone
    methods. *)
Definition other_members (stmt : Statement) (acc : ClassAcc) : string :=
  key_names stmt ++ children_names stmt ++ access_methods acc ++
  support_methods stmt acc.

(** The Java text of a setter of the value of [stmt]: after its comment
    [doc], the method with one parameter of the type [arg_type] and the
    one statement [body]. *)
Definition java_setter (stmt : Statement) (doc arg_type body : string)
  : string :=
  doc ++ "    public void set" ++ capitalize (arg stmt) ++ "Value(" ++
  arg_type ++ " " ++ arg stmt ++ "Value)
        throws INMException {
        " ++ body ++ "
    }
".

(** The statement of a setter that wraps its argument in the type
    [confm_type] and calls the setter of that type. *)
Definition wraps_value (stmt : Statement) (confm_type : string) : string :=
  "set" ++ capitalize (arg stmt) ++ "Value(new " ++ confm_type ++ "(" ++
  arg stmt ++ "Value));".

(** [list l { key "k"; leaf k { type int8; } }], and the list in a
    container. *)
Definition list_int8_key : Statement :=
  Stmt "list" "l" [Stmt "key" "k" []; sample_leaf "k" "int8"].

Definition container_list_int8_key : Statement :=
  Stmt "container" "c" [list_int8_key].

(** The module of a class file, as the package description names it,
    and its entry in the description with the revision [rev]. *)
Definition module_of (entry : string) : string :=
  decapitalize (drop_last 5 entry).

Definition module_entry (entry rev : string) : string :=
  "module " ++ dq ++ module_of entry ++ dq ++ " (rev " ++ dq ++ rev ++ dq ++ ")".

(** The line of the package description that lists the modules, each
    with its revision reported as unknown. *)
Definition unknown_modules (top_level_entries : list string) : string :=
  join ", " (map (fun entry => module_entry entry "unknown") top_level_entries).

(** [submodule s { namespace "urn:s"; prefix sp; belongs-to m { prefix
    mp; } container c {...} }]: a submodule with a namespace and a prefix
    statement of its own. *)
Definition sample_submodule_with_namespace : Statement :=
  Stmt "submodule" "s"
       [Stmt "namespace" "urn:s" []; Stmt "prefix" "sp" [];
        Stmt "belongs-to" "m" [Stmt "prefix" "mp" []];
        Stmt "container" "c" [sample_leaf "x" "string"]].

(* ================================================================= *)
(** * Properties *)

(** ** Reasoning in the monad *)

Section MonadFacts.

Context {A B : Type}.

Lemma bind_ok (m : M A) (k : A -> M B) (evs : list Event) (a : A) :
  m = (evs, Ok a) ->
  bind m k = ((evs ++ events (k a))%list, outcome (k a)).
Proof.
  intros ->. unfold bind, events, outcome. now destruct (k a).
Qed.


Lemma bind_ret (a : A) (k : A -> M B) : bind (ret a) k = k a.
Proof.
  unfold bind, ret. now destruct (k a).
Qed.

Lemma outcome_bind (m : M A) (k : A -> M B) :
  outcome (bind m k) =
  match outcome m with
  | Ok a => outcome (k a)
  | Raise e => Raise e
  end.
Proof.
  destruct m as [evs [a | e]]; simpl; [| reflexivity].
  unfold outcome. now destruct (k a).
Qed.

Lemma events_bind (m : M A) (k : A -> M B) :
  events (bind m k) =
  match outcome m with
  | Ok a => (events m ++ events (k a))%list
  | Raise e => events m
  end.
Proof.
  destruct m as [evs [a | e]]; simpl; [| reflexivity].
  unfold events. now destruct (k a).
Qed.

End MonadFacts.

Lemma bind_run {A B : Type} (m : M A) (k : A -> M B)
  (evs evs' : list Event) (a : A) (r : Result B) :
  m = (evs, Ok a) -> k a = (evs', r) -> bind m k = ((evs ++ evs')%list, r).
Proof.
  intros -> H. unfold bind. now rewrite H.
Qed.

Lemma bind_ext {A B : Type} (m : M A) (k1 k2 : A -> M B) :
  (forall a, k1 a = k2 a) -> bind m k1 = bind m k2.
Proof.
  intros H. destruct m as [evs [a | e]]; simpl; [| reflexivity].
  now rewrite H.
Qed.

Lemma for_loop_cons {A S : Type} (x : A) (l : list A) (body : S -> A -> M S)
  (s : S) :
  for_loop (x :: l) body s = bind (body s x) (fun s' => for_loop l body s').
Proof.
  reflexivity.
Qed.

(** Simplifying the outcome of a computation. *)
Ltac run :=
  repeat (rewrite ?outcome_bind, ?bind_ret;
          cbn [outcome events deref local ret raise when print print_err write_file snd fst]).

Lemma written_app (l1 l2 : list Event) :
  written (l1 ++ l2) = (written l1 ++ written l2)%list.
Proof.
  apply flat_map_app.
Qed.

(** ** Python strings *)

Lemma upper_ascii_idem (c : ascii) : upper_ascii (upper_ascii c) = upper_ascii c.
Proof.
  destruct c as [[] [] [] [] [] [] [] []]; reflexivity.
Qed.

Lemma lower_ascii_idem (c : ascii) : lower_ascii (lower_ascii c) = lower_ascii c.
Proof.
  destruct c as [[] [] [] [] [] [] [] []]; reflexivity.
Qed.

Lemma lower_idem (s : string) : lower (lower s) = lower s.
Proof.
  induction s as [| c r IH]; simpl; [reflexivity |].
  now rewrite lower_ascii_idem, IH.
Qed.

Lemma capitalize_idem (s : string) : capitalize (capitalize s) = capitalize s.
Proof.
  destruct s as [| c r]; simpl; [reflexivity |].
  now rewrite upper_ascii_idem, lower_idem.
Qed.

Lemma split_not_nil (sep : ascii) (s : string) : split sep s <> [].
Proof.
  destruct s as [| c r]; simpl; [discriminate |].
  destruct (Ascii.eqb c sep); [discriminate |].
  destruct (split sep r); discriminate.
Qed.

(** Joining the pieces of [split] with the separator gives the string
    back: the pieces are the text between the separators, in order. *)
Lemma join_split (sep : ascii) (s : string) :
  join (String sep "") (split sep s) = s.
Proof.
  unfold join. induction s as [| c r IH]; [reflexivity |].
  simpl split. destruct (Ascii.eqb c sep) eqn:E.
  - apply Ascii.eqb_eq in E. subst c.
    pose proof (split_not_nil sep r) as Hne.
    destruct (split sep r) as [| w ws] eqn:Hs; [congruence |].
    change (String.concat (String sep "") ("" :: w :: ws))
      with ("" ++ String sep "" ++ String.concat (String sep "") (w :: ws)).
    now rewrite IH.
  - pose proof (split_not_nil sep r) as Hne.
    destruct (split sep r) as [| w ws] eqn:Hs; [congruence |].
    destruct ws as [| w' ws'].
    + simpl in *. now rewrite IH.
    + change (String.concat (String sep "") (String c w :: w' :: ws'))
        with (String c (w ++ String sep "" ++ String.concat (String sep "") (w' :: ws'))).
      change (String.concat (String sep "") (w :: w' :: ws'))
        with (w ++ String sep "" ++ String.concat (String sep "") (w' :: ws')) in IH.
      now rewrite IH.
Qed.

(** No piece of [split] holds the separator. *)
Lemma split_pieces (sep : ascii) (s : string) :
  Forall (fun w => has_char sep w = false) (split sep s).
Proof.
  induction s as [| c r IH]; simpl.
  - now constructor.
  - destruct (Ascii.eqb c sep) eqn:E.
    + now constructor.
    + destruct (split sep r) as [| w ws].
      * constructor; [| constructor]. simpl.
        rewrite Ascii.eqb_sym, E. reflexivity.
      * inversion IH as [| ? ? Hw Hws]; subst.
        constructor; [| assumption]. simpl.
        now rewrite Ascii.eqb_sym, E.
Qed.

Lemma append_nil_r (s : string) : s ++ "" = s.
Proof.
  induction s as [| c r IH]; simpl; [reflexivity | now rewrite IH].
Qed.

Lemma append_assoc (s t u : string) : (s ++ t) ++ u = s ++ t ++ u.
Proof.
  induction s as [| c r IH]; simpl; [reflexivity | now rewrite IH].
Qed.

Lemma length_append (s t : string) :
  String.length (s ++ t) = String.length s + String.length t.
Proof.
  induction s as [| c r IH]; simpl; [reflexivity | now rewrite IH].
Qed.

Lemma length_substring (n : nat) (s : string) :
  n <= String.length s -> String.length (substring 0 n s) = n.
Proof.
  revert s. induction n as [| n IH]; intros [| c r]; simpl; intros H;
    try reflexivity; try lia.
  rewrite IH; [reflexivity | lia].
Qed.

Lemma join_empty_cons (x : string) (l : list string) :
  join "" (x :: l) = x ++ join "" l.
Proof.
  unfold join. destruct l as [| y l]; simpl; [now rewrite append_nil_r |].
  reflexivity.
Qed.

(** ** The key extractor *)

(** One turn of the loop on an identifier that resolves. *)
Lemma extract_keys_step_ok (stmt : Statement) (ctx : Context)
  (only : Z) (c p : KeyList) (a t : string) :
  key_leaf_type stmt a = Some t ->
  exists cty pty,
    outcome (extract_keys_step stmt ctx (only, c, p) a) =
    Ok ((only * Z.b2z (String.eqb pty "String"))%Z,
        list_append c (cty, a), list_append p (pty, a)).
Proof.
  unfold key_leaf_type, extract_keys_step. intros H.
  destruct (search_one stmt "leaf" (Some a)) as [leaf |]; [| discriminate].
  run.
  destruct (search_one leaf "type" None) as [ty |]; [| discriminate].
  run.
  destruct (String.eqb (arg ty) "string").
  { run. unfold list_append. rewrite last_last. now eexists _, _. }
  destruct (String.eqb (arg ty) "uint32").
  { run. unfold list_append. rewrite last_last. now eexists _, _. }
  destruct (debug (opts ctx) || verbose (opts ctx));
    run; unfold list_append; rewrite last_last; now eexists _, _.
Qed.

(** One turn of the loop on an identifier that does not resolve faults
    on the missing attribute. *)
Lemma extract_keys_step_unresolved (stmt : Statement) (ctx : Context)
  (acc : KeyAcc) (a : string) :
  key_leaf_type stmt a = None ->
  outcome (extract_keys_step stmt ctx acc a) = Raise AttributeError.
Proof.
  destruct acc as [[only c] p]. unfold key_leaf_type, extract_keys_step.
  intros E.
  destruct (search_one stmt "leaf" (Some a)) as [leaf |]; run; [| reflexivity].
  destruct (search_one leaf "type" None) as [ty |]; [discriminate |].
  now run.
Qed.

(** One turn of the loop either goes on or faults on a missing
    attribute. *)
Lemma extract_keys_step_outcome (stmt : Statement) (ctx : Context)
  (acc : KeyAcc) (a : string) :
  (exists acc', outcome (extract_keys_step stmt ctx acc a) = Ok acc') \/
  outcome (extract_keys_step stmt ctx acc a) = Raise AttributeError.
Proof.
  destruct (key_leaf_type stmt a) as [t |] eqn:E.
  - left. destruct acc as [[only c] p].
    destruct (extract_keys_step_ok stmt ctx only c p a t E) as (? & ? & ->).
    now eexists.
  - right. now apply extract_keys_step_unresolved.
Qed.

(** The loop faults on a missing attribute as soon as one identifier
    names no leaf. *)
Lemma extract_keys_loop_missing (stmt : Statement) (ctx : Context)
  (l : list string) :
  existsb (fun a => match search_one stmt "leaf" (Some a) with
                    | Some _ => false
                    | None => true
                    end) l = true ->
  forall acc,
    outcome (for_loop l (extract_keys_step stmt ctx) acc) = Raise AttributeError.
Proof.
  induction l as [| a l IH]; simpl existsb; [discriminate |].
  intros H acc. rewrite for_loop_cons, outcome_bind.
  destruct (search_one stmt "leaf" (Some a)) as [leaf |] eqn:E.
  - simpl in H.
    destruct (extract_keys_step_outcome stmt ctx acc a) as [[acc' ->] | ->];
      [now apply IH | reflexivity].
  - destruct acc as [[only c] p]. unfold extract_keys_step. rewrite E. now run.
Qed.

(** The loop on identifiers that all resolve: it completes, keeps the
    identifiers in order on both lists, and [only_strings] stays the
    truth value of "all primitive types so far are String". *)
Lemma extract_keys_loop_ok (stmt : Statement) (ctx : Context)
  (l : list string) :
  forallb (fun a => match key_leaf_type stmt a with
                    | Some _ => true
                    | None => false
                    end) l = true ->
  forall only c p,
    (only = 0 \/ only = 1)%Z ->
    truthy only = forallb is_string_key p ->
    exists only' c' p',
      outcome (for_loop l (extract_keys_step stmt ctx) (only, c, p)) =
      Ok (only', c', p') /\
      map snd c' = (map snd c ++ l)%list /\
      map snd p' = (map snd p ++ l)%list /\
      (only' = 0 \/ only' = 1)%Z /\
      truthy only' = forallb is_string_key p'.
Proof.
  induction l as [| a l IH]; intros H only c p Hb Ht.
  - exists only, c, p. rewrite !app_nil_r. now repeat split.
  - simpl in H. apply andb_true_iff in H as [Ha Hl].
    destruct (key_leaf_type stmt a) as [t |] eqn:E; [| discriminate].
    destruct (extract_keys_step_ok stmt ctx only c p a t E) as (cty & pty & Hs).
    rewrite for_loop_cons, outcome_bind. unfold KeyAcc, KeyList in *. rewrite Hs.
    destruct (IH Hl (only * Z.b2z (String.eqb pty "String"))%Z
                 (list_append c (cty, a)) (list_append p (pty, a)))
      as (only' & c' & p' & -> & Hc & Hp & Hb' & Ht').
    + destruct (String.eqb pty "String"); simpl; lia.
    + unfold list_append. rewrite forallb_app. simpl.
      unfold is_string_key at 2. simpl fst. rewrite andb_true_r, <- Ht.
      unfold truthy.
      destruct Hb as [-> | ->]; destruct (String.eqb pty "String"); reflexivity.
    + exists only', c', p'. unfold list_append in Hc, Hp.
      rewrite map_app in Hc, Hp. simpl in Hc, Hp.
      rewrite <- app_assoc in Hc, Hp. now repeat split.
Qed.

(** The loop completes only when every identifier resolves. *)
Lemma extract_keys_loop_returns (stmt : Statement) (ctx : Context)
  (l : list string) :
  forall acc r,
    outcome (for_loop l (extract_keys_step stmt ctx) acc) = Ok r ->
    forallb (fun a => match key_leaf_type stmt a with
                      | Some _ => true
                      | None => false
                      end) l = true.
Proof.
  induction l as [| a l IH]; intros acc r H; [reflexivity |].
  rewrite for_loop_cons, outcome_bind in H. cbn [forallb].
  destruct (key_leaf_type stmt a) as [t |] eqn:E.
  - destruct (extract_keys_step_outcome stmt ctx acc a) as [[acc' Hs] | Hs];
      rewrite Hs in H; [exact (IH acc' r H) | discriminate H].
  - rewrite (extract_keys_step_unresolved stmt ctx acc a E) in H.
    discriminate H.
Qed.

Lemma extract_keys_ok (stmt : Statement) (ctx : Context) :
  keys_resolve stmt = true ->
  exists key only c p,
    search_one stmt "key" None = Some key /\
    outcome (extract_keys stmt ctx) = Ok (key, only, c, p) /\
    map snd c = split " " (arg key) /\
    map snd p = split " " (arg key) /\
    truthy only = forallb is_string_key p.
Proof.
  unfold keys_resolve, extract_keys. intros H.
  destruct (search_one stmt "key" None) as [key |]; [| discriminate].
  destruct (extract_keys_loop_ok stmt ctx _ H 1%Z [] [])
    as (only & c & p & Hl & Hc & Hp & _ & Ht); [now right | reflexivity |].
  exists key, only, c, p. run. unfold KeyAcc, KeyList in *. rewrite Hl.
  now repeat split.
Qed.

(** [keys_resolve] is exactly the condition under which [extract_keys]
    returns: a key statement, and a typed leaf for each identifier. *)
Lemma extract_keys_returns_iff (stmt : Statement) (ctx : Context) :
  (exists r, outcome (extract_keys stmt ctx) = Ok r) <->
  keys_resolve stmt = true.
Proof.
  split.
  - intros [r H]. unfold extract_keys in H. unfold keys_resolve.
    destruct (search_one stmt "key" None) as [key |]; [| discriminate H].
    cbn [deref] in H. rewrite bind_ret, outcome_bind in H.
    destruct (outcome (for_loop _ _ _)) as [acc |] eqn:Hl; [| discriminate H].
    exact (extract_keys_loop_returns stmt ctx _ _ _ Hl).
  - intros H. destruct (extract_keys_ok stmt ctx H)
      as (key & only & c & p & _ & Ho & _).
    exists (key, only, c, p). exact Ho.
Qed.

Lemma search_one_absent (stmt : Statement) (kw : string) :
  Forall (fun ch => keyword ch <> kw) (substmts stmt) ->
  search_one stmt kw None = None.
Proof.
  unfold search_one. induction 1 as [| ch l Hch _ IH]; [reflexivity |].
  cbn [find]. apply String.eqb_neq in Hch. now rewrite Hch.
Qed.

(** C9: [extract_keys] needs a key statement.  On every statement
    without a [key] substatement, [search_one('key')] is [None] and
    reading [key.arg] faults with an [AttributeError]: no value is
    returned and nothing is printed, so no diagnostic either. *)
Theorem extract_keys_without_key (stmt : Statement) (ctx : Context) :
  Forall (fun ch => keyword ch <> "key") (substmts stmt) ->
  search_one stmt "key" None = None /\
  extract_keys stmt ctx = ([], Raise AttributeError).
Proof.
  intros H. apply search_one_absent in H. split; [exact H |].
  unfold extract_keys. now rewrite H.
Qed.

(** The fault of [extract_keys] when an identifier of the key argument
    names no leaf. *)
Lemma extract_keys_faults (stmt : Statement) (ctx : Context) :
  names_missing_leaf stmt = true ->
  outcome (extract_keys stmt ctx) = Raise AttributeError.
Proof.
  unfold names_missing_leaf, extract_keys. intros H.
  destruct (search_one stmt "key" None) as [key |]; [| discriminate].
  run. unfold KeyAcc, KeyList in *.
  now rewrite (extract_keys_loop_missing stmt ctx _ H).
Qed.

(** C6: the key specification keeps the textual order of the key
    argument.  For a list whose key identifiers all resolve (the
    condition under which [extract_keys] returns at all),
    [extract_keys] returns, and the identifiers of [confm_keys] and of
    [primitive_keys] are exactly the pieces of the key argument between
    its spaces, in order and with repetitions: none holds a space, and
    joined by spaces they give the key argument back. *)
Theorem extract_keys_order (stmt : Statement) (ctx : Context) :
  keys_resolve stmt = true ->
  exists key only confm_keys primitive_keys,
    search_one stmt "key" None = Some key /\
    outcome (extract_keys stmt ctx) =
      Ok (key, only, confm_keys, primitive_keys) /\
    map snd confm_keys = split " " (arg key) /\
    map snd primitive_keys = split " " (arg key) /\
    Forall (fun a => has_char " " a = false) (map snd confm_keys) /\
    join " " (map snd confm_keys) = arg key /\
    join " " (map snd primitive_keys) = arg key.
Proof.
  intros H.
  destruct (extract_keys_ok stmt ctx H)
    as (key & only & c & p & Hk & Ho & Hc & Hp & _).
  exists key, only, c, p. rewrite Hc, Hp.
  split; [exact Hk |]. split; [exact Ho |].
  split; [reflexivity |]. split; [reflexivity |].
  split; [apply split_pieces |].
  split; apply (join_split " ").
Qed.

(** C8: the class name is a function of the identifier alone, and
    deriving names from a derived class name changes nothing: both the
    class name and the file name are the same as after one derivation. *)
Theorem extract_names_idempotent (s : string) :
  (forall t, s = t -> extract_names s = extract_names t) /\
  extract_names (snd (extract_names s)) = extract_names s.
Proof.
  split; [now intros t -> |].
  unfold extract_names. simpl snd. now rewrite capitalize_idem.
Qed.

(** ** The schema emitter *)

(** The record of a statement: its eight lines, the bounds being those of
    [schema_occurs]. *)
Lemma schema_node_record (stmt : Statement) (parent : option Statement)
  (tagpath ns : string) (ctx : Context) :
  exists children,
    outcome (schema_node stmt parent tagpath ns ctx) =
    Ok ["<tagpath>" ++ tagpath ++ "</tagpath>";
        "<namespace>" ++ ns ++ "</namespace>";
        "<primitive_type></primitive_type>";
        "<min_occurs>" ++ fst (schema_occurs stmt parent) ++ "</min_occurs>";
        "<max_occurs>" ++ snd (schema_occurs stmt parent) ++ "</max_occurs>";
        "<children>" ++ children ++ "</children>";
        "<flags></flags>";
        "<desc></desc>"].
Proof.
  unfold schema_node. eexists.
  rewrite outcome_bind.
  destruct (verbose (opts ctx)); cbn [when print ret outcome snd];
    destruct (schema_occurs stmt parent); reflexivity.
Qed.

Lemma schema_occurs_child (stmt p : Statement) :
  is_container p false = true ->
  snd (schema_occurs stmt (Some p)) = "1" /\
  (forall m, search_one stmt "mandatory" None = Some m -> arg m = "true" ->
             fst (schema_occurs stmt (Some p)) = "1").
Proof.
  intros Hp. unfold schema_occurs. rewrite Hp. split.
  - destruct (_ || _ || _); simpl; now rewrite orb_true_r.
  - intros m -> ->. simpl String.eqb. now destruct (_ || _ || _).
Qed.

(** C1, as the code has it: every statement whose parent is a container
    or a list has [max_occurs] 1 in its schema record, whatever its own
    keyword (a list too); and when it has [mandatory true] its
    [min_occurs] is 1.  So a mandatory leaf directly under a list gets
    the bounds 1 and 1. *)
Theorem schema_node_child_of_container (stmt p : Statement)
  (tagpath ns : string) (ctx : Context) :
  is_container p false = true ->
  exists record,
    outcome (schema_node stmt (Some p) tagpath ns ctx) = Ok record /\
    nth 4 record "" = "<max_occurs>1</max_occurs>" /\
    (forall m, search_one stmt "mandatory" None = Some m -> arg m = "true" ->
               nth 3 record "" = "<min_occurs>1</min_occurs>").
Proof.
  intros Hp.
  destruct (schema_node_record stmt (Some p) tagpath ns ctx) as [children ->].
  destruct (schema_occurs_child stmt p Hp) as [Hmax Hmin].
  eexists. split; [reflexivity |]. cbn [nth]. rewrite Hmax.
  split; [reflexivity |]. intros m Hm Ha. now rewrite (Hmin m Hm Ha).
Qed.

Lemma schema_node_child_of_container_witness :
  is_container list_with_mandatory_leaf false = true /\
  exists record,
    outcome (schema_node mandatory_leaf (Some list_with_mandatory_leaf)
                         "/l/m/" "urn:m" (sample_ctx false false)) = Ok record /\
    nth 4 record "" = "<max_occurs>1</max_occurs>" /\
    (forall m, search_one mandatory_leaf "mandatory" None = Some m ->
               arg m = "true" ->
               nth 3 record "" = "<min_occurs>1</min_occurs>").
Proof.
  split; [reflexivity |].
  apply (schema_node_child_of_container mandatory_leaf list_with_mandatory_leaf).
  reflexivity.
Defined.

(** C1 as stated fails.  The leaf [m] has [mandatory true], is a child of
    the list [l] and is not its key [k], yet its record has [max_occurs]
    1, not -1; and the list [l] inside the container [c] has [max_occurs]
    1 as well. *)
Lemma mandatory_leaf_of_list_is_bounded :
  search_one mandatory_leaf "mandatory" None = Some (Stmt "mandatory" "true" []) /\
  keyword mandatory_leaf = "leaf" /\
  In mandatory_leaf (substmts list_with_mandatory_leaf) /\
  keyword list_with_mandatory_leaf = "list" /\
  search_one list_with_mandatory_leaf "key" None = Some (Stmt "key" "k" []) /\
  schema_occurs mandatory_leaf (Some list_with_mandatory_leaf) = ("1", "1") /\
  schema_occurs mandatory_leaf (Some list_with_mandatory_leaf) <> ("1", "-1") /\
  (forall tagpath ns ctx,
     exists record,
       outcome (schema_node mandatory_leaf (Some list_with_mandatory_leaf)
                            tagpath ns ctx) = Ok record /\
       nth 4 record "" <> "<max_occurs>-1</max_occurs>") /\
  In list_with_mandatory_leaf (substmts container_with_list) /\
  snd (schema_occurs list_with_mandatory_leaf (Some container_with_list)) = "1".
Proof.
  repeat split; try reflexivity; try (simpl; tauto); try discriminate.
  intros tagpath ns ctx.
  destruct (schema_node_record mandatory_leaf (Some list_with_mandatory_leaf)
                               tagpath ns ctx) as [children ->].
  eexists. split; [reflexivity |]. discriminate.
Qed.

(** ** Constructors *)

(** The values of the keys in mode 1: one per key. *)
Lemma mode1_values_length (args : KeyList) (values : list string) :
  List.length
    (fold_left (fun values '(arg_type, arg_name) =>
                  list_append values (arg_name ++ "Value"))
               args values)
  = List.length values + List.length args.
Proof.
  revert values. induction args as [| [t n] args IH]; intros values; simpl.
  - lia.
  - rewrite IH. unfold list_append. rewrite length_app. simpl. lia.
Qed.

(** The values of the keys in the modes 2 and 3: the loop completes, with
    one value per key. *)
Lemma constructor_values_ok (ctx : Context) (args : KeyList) :
  forall values, exists values',
    outcome (for_loop args (constructor_value ctx) values) = Ok values' /\
    List.length values' = List.length values + List.length args.
Proof.
  induction args as [| [t n] args IH]; intros values.
  - exists values. split; [reflexivity | simpl; lia].
  - rewrite for_loop_cons, outcome_bind.
    assert (exists decl, outcome (constructor_value ctx values (t, n)) =
                         Ok (list_append values (decl ++ n ++ "Value)")))
      as [decl ->].
    { unfold constructor_value.
      destruct (String.eqb t "String"); [run; now eexists |].
      destruct (String.eqb t "long"); [run; now eexists |].
      destruct (debug (opts ctx) || verbose (opts ctx)); run; now eexists. }
    destruct (IH (list_append values (decl ++ n ++ "Value)"))) as (v & -> & Hl).
    exists v. split; [reflexivity |].
    rewrite Hl. unfold list_append. rewrite length_app. simpl. lia.
Qed.

(** One turn of the loop over the keys and their values adds one
    parameter to [arguments]. *)
Lemma constructor_argument_adds (root : string) (mode : Z)
  (inserts docstring : string) (MAX_COLS : Z) (arguments : string)
  (k : string * string) (value : string) :
  exists break inserts' docstring' MAX_COLS',
    constructor_argument root mode (inserts, docstring, MAX_COLS, arguments)
                         (k, value)
    = (inserts', docstring', MAX_COLS', arguments ++ parameter mode break k).
Proof.
  destruct k as [t n]. unfold constructor_argument, parameter. cbn [fst snd].
  destruct (mode =? 2)%Z.
  - destruct (MAX_COLS <? len ("String " ++ (n ++ "Value") ++ ", "))%Z.
    + exists true. do 3 eexists. simpl. now rewrite !append_assoc.
    + exists false. do 3 eexists. simpl. now rewrite !append_assoc.
  - destruct (MAX_COLS <? len (t ++ " " ++ (n ++ "Value") ++ ", "))%Z.
    + exists true. do 3 eexists. simpl. now rewrite !append_assoc.
    + exists false. do 3 eexists. simpl. now rewrite !append_assoc.
Qed.

Lemma constructor_arguments_fold (root : string) (mode : Z)
  (l : list ((string * string) * string)) :
  forall inserts docstring MAX_COLS arguments,
  exists breaks inserts' docstring' MAX_COLS',
    List.length breaks = List.length l /\
    fold_left (constructor_argument root mode) l
              (inserts, docstring, MAX_COLS, arguments)
    = (inserts', docstring', MAX_COLS',
       arguments ++
       join "" (map (fun bk => parameter mode (fst bk) (snd bk))
                    (combine breaks (map fst l)))).
Proof.
  induction l as [| [k v] l IH]; intros inserts docstring MAX_COLS arguments.
  - exists [], inserts, docstring, MAX_COLS. simpl. now rewrite append_nil_r.
  - destruct (constructor_argument_adds root mode inserts docstring MAX_COLS
                                        arguments k v)
      as (b & i1 & d1 & m1 & H1).
    destruct (IH i1 d1 m1 (arguments ++ parameter mode b k))
      as (bs & i2 & d2 & m2 & Hlen & H2).
    exists (b :: bs), i2, d2, m2. split; [simpl; now rewrite Hlen |].
    cbn [fold_left]. rewrite H1, H2. cbn [map combine fst snd].
    now rewrite join_empty_cons, append_assoc.
Qed.

Lemma map_fst_combine {A B : Type} (l : list A) (l' : list B) :
  List.length l = List.length l' -> map fst (combine l l') = l.
Proof.
  revert l'. induction l as [| x l IH]; intros [| y l']; simpl; intros H;
    try reflexivity; try discriminate.
  f_equal. apply IH. lia.
Qed.

(** A parameter list with at least one parameter is not empty, even
    without its last two characters. *)
Lemma parameters_not_empty (mode : Z) (b : bool) (k : string * string)
  (rest : list (bool * (string * string))) :
  drop_last 2 (join "" (map (fun bk => parameter mode (fst bk) (snd bk))
                            ((b, k) :: rest))) <> "".
Proof.
  cbn [map fst snd]. rewrite join_empty_cons.
  set (tail := join "" _). unfold drop_last.
  assert (7 <= String.length (parameter mode b k ++ tail)) as Hlen.
  { unfold parameter. rewrite !length_append. simpl. lia. }
  intros H. apply (f_equal String.length) in H.
  rewrite length_substring in H; simpl in H; lia.
Qed.

(** The local variables of a constructor without arguments. *)
Lemma constructor_locals_mode0 (stmt : Statement) (ctx : Context)
  (root : string) (set_prefix : bool) (args : KeyList) :
  exists v,
    constructor_locals stmt ctx root set_prefix 0 args = ([], Ok v) /\
    c_obj_status v = "empty " /\ c_arguments v = "" /\ c_inserts v = "".
Proof.
  unfold constructor_locals. rewrite orb_true_r. eexists.
  split; [reflexivity |]. now repeat split.
Qed.

Lemma constructor_arguments_keyed (root : string) (mode : Z)
  (ks : KeyList) (values : list string) (docstring : string) (MAX_COLS : Z) :
  List.length values = List.length ks ->
  exists breaks inserts' docstring' MAX_COLS',
    List.length breaks = List.length ks /\
    fold_left (constructor_argument root mode) (combine ks values)
              ("", docstring, MAX_COLS, "")
    = (inserts', docstring', MAX_COLS',
       join "" (map (fun bk => parameter mode (fst bk) (snd bk))
                    (combine breaks ks))).
Proof.
  intros Hlen.
  destruct (constructor_arguments_fold root mode (combine ks values)
                                       "" docstring MAX_COLS "")
    as (breaks & i & d & m & Hb & Hfold).
  rewrite map_fst_combine in Hfold by (now rewrite Hlen).
  rewrite length_combine, Hlen, Nat.min_id in Hb.
  now exists breaks, i, d, m.
Qed.

(** The local variables of a constructor with keys, in the modes 1, 2
    and 3: the argument list is one parameter for each key, in order. *)
Lemma constructor_locals_keyed (stmt : Statement) (ctx : Context)
  (root : string) (set_prefix : bool) (mode : Z) (args : KeyList) :
  args <> [] -> mode <> 0%Z ->
  exists v breaks,
    outcome (constructor_locals stmt ctx root set_prefix mode args) = Ok v /\
    c_obj_status v = "initialized " /\
    List.length breaks = List.length args /\
    c_arguments v =
      drop_last 2 (join "" (map (fun bk => parameter mode (fst bk) (snd bk))
                                (combine breaks args))) /\
    c_arguments v <> "".
Proof.
  intros Hargs Hmode. unfold constructor_locals.
  destruct args as [| a args]; [congruence |]. clear Hargs.
  apply Z.eqb_neq in Hmode. rewrite Hmode. cbn [orb].
  set (ks := a :: args) in *.
  set (root' := if String.eqb root "" then _ else root).
  set (mc := (80 - _)%Z).
  assert (forall breaks : list bool,
            List.length breaks = List.length ks ->
            drop_last 2 (join "" (map (fun bk => parameter mode (fst bk) (snd bk))
                                      (combine breaks ks))) <> "") as Hne.
  { intros [| b breaks] Hb; [discriminate |]. subst ks. cbn [combine].
    apply parameters_not_empty. }
  destruct (mode =? 1)%Z.
  - rewrite bind_ret.
    destruct (constructor_arguments_keyed root' mode ks
                (fold_left (fun values '(arg_type, arg_name) =>
                              list_append values (arg_name ++ "Value")) ks [])
                "" mc)
      as (breaks & i & d & m & Hb & Hfold);
      [now rewrite mode1_values_length |].
    rewrite Hfold. eexists _, breaks. split; [reflexivity |].
    cbn [c_obj_status c_arguments]. repeat split; auto.
  - cbv zeta. set (doc := if (mode =? 2)%Z then _ else _).
    destruct (constructor_values_ok ctx ks []) as (values & Hv & Hlen).
    rewrite !outcome_bind, Hv. cbn [outcome ret snd].
    destruct (constructor_arguments_keyed root' mode ks values doc mc Hlen)
      as (breaks & i & d & m & Hb & Hfold).
    rewrite Hfold. eexists _, breaks. split; [reflexivity |].
    cbn [c_obj_status c_arguments]. repeat split; auto.
Qed.

Lemma constructor_outcome (stmt : Statement) (ctx : Context) (root : string)
  (set_prefix : bool) (mode : Z) (args : KeyList) (throws : string) :
  forall v,
    outcome (constructor_locals stmt ctx root set_prefix mode args) = Ok v ->
    exists text,
      outcome (constructor stmt ctx root set_prefix mode args throws) = Ok text.
Proof.
  intros v Hv. unfold constructor. rewrite outcome_bind, Hv. now eexists.
Qed.

Lemma constructor_total (stmt : Statement) (ctx : Context) (root : string)
  (set_prefix : bool) (mode : Z) (args : KeyList) (throws : string) :
  exists text,
    outcome (constructor stmt ctx root set_prefix mode args throws) = Ok text.
Proof.
  destruct (Z.eq_dec mode 0) as [-> | Hm].
  - destruct (constructor_locals_mode0 stmt ctx root set_prefix args)
      as (v & Hv & _).
    apply (constructor_outcome _ _ _ _ _ _ _ v). now rewrite Hv.
  - destruct args as [| a args].
    + unfold constructor, constructor_locals. cbn [orb]. run. now eexists.
    + destruct (constructor_locals_keyed stmt ctx root set_prefix mode (a :: args))
        as (v & _ & Hv & _); [discriminate | assumption |].
      now apply (constructor_outcome _ _ _ _ _ _ _ v).
Qed.

(** C5 as stated fails: the list [entry] with the keys [x] and [y] gets
    a first constructor [public Entry()] that takes no argument. *)
Lemma list_constructor_without_arguments :
  keyword list_two_string_keys = "list" /\
  exists c0 rest cloners v0,
    outcome (generate_constructors list_two_string_keys
                                   (sample_ctx false false) "Mp" "Entry" true)
      = Ok (c0 :: rest, cloners) /\
    outcome (constructor_locals list_two_string_keys (sample_ctx false false)
                                "Mp" true 0 []) = Ok v0 /\
    c_arguments v0 = "" /\
    index 0 "public Entry()" c0 <> None.
Proof.
  split; [reflexivity |].
  do 4 eexists. split; [vm_compute; reflexivity |].
  split; [vm_compute; reflexivity |].
  split; [reflexivity |]. vm_compute. discriminate.
Qed.

(** ** The class generator *)

(** [generate_class] with its loop over the substatements written as a
    [for_loop] of [generate_member]. *)
Lemma generate_class_eq (time : Date) (stmt : Statement)
  (directory package src path ns prefix_name : string) (ctx : Context)
  (top_level : bool) :
  generate_class time stmt directory package src path ns prefix_name ctx
                 top_level =
  (let '(filename, name) := extract_names (arg stmt) in
   acc <-
     for_loop (substmts stmt)
       (generate_member
          (fun sub =>
             generate_class time sub directory package src
                            (path ++ arg stmt ++ "/") ns prefix_name ctx false)
          stmt ctx prefix_name)
       {| access_methods := ""; fields := []; type_str := None |} ;;
   when (verbose (opts ctx))
     (print ("Generating Java class " ++ dq ++ filename ++ dq ++ "...")) ;;
   let support_methods :=
     match filter (fun s => is_container s false) (substmts stmt) with
     | _ :: _ => support_add (fields acc)
     | [] => ""
     end in
   '(constructors, cloners) <-
     generate_constructors stmt ctx prefix_name name top_level ;;
   write_file (directory ++ "/" ++ filename)
     (java_class time filename package
        ["com.tailf.confm.*"; "com.tailf.inm.*"; "java.util.Hashtable"]
        ("This class represents a " ++ dq ++ path ++ arg stmt ++
         dq ++ " element" ++ nl ++ " * from the namespace " ++ ns)
        (join "" constructors ++ cloners ++ key_names stmt ++
         children_names stmt ++ access_methods acc ++ support_methods)
        "1.0" " extends Container" src)).
Proof.
  destruct stmt as [kw a subs]. cbn [generate_class substmts].
  destruct (extract_names (arg (Stmt kw a subs))) as [filename name].
  f_equal.
  generalize {| access_methods := ""; fields := []; type_str := None |}.
  remember (Stmt kw a subs) as stmt eqn:Hs. clear Hs.
  induction subs as [| sub rest IH]; intros acc; [reflexivity |].
  cbn [for_loop]. apply bind_ext. intros acc'. apply IH.
Qed.

(** C3, as the code has it: when the key argument of a list names an
    identifier without a leaf of that name, [extract_keys] faults with
    the [AttributeError] of reading an attribute of the absent leaf (the
    plug-in has no error of its own for this), and the fault ends the
    generation of the class of the list: [generate_class] does not
    return. *)
Theorem missing_key_leaf_aborts (stmt : Statement) (ctx : Context) :
  names_missing_leaf stmt = true ->
  outcome (extract_keys stmt ctx) = Raise AttributeError /\
  (keyword stmt = "list" ->
   forall time directory package src path ns prefix_name top_level,
   exists e,
     outcome (generate_class time stmt directory package src path ns
                             prefix_name ctx top_level) = Raise e).
Proof.
  intros H. split; [now apply extract_keys_faults |].
  intros Hk time directory package src path ns prefix_name top_level.
  rewrite generate_class_eq.
  destruct (extract_names (arg stmt)) as [filename name].
  rewrite outcome_bind.
  destruct (outcome (for_loop _ _ _)) as [acc | e]; [| now exists e].
  exists AttributeError.
  rewrite outcome_bind.
  replace (outcome (when (verbose (opts ctx))
                      (print ("Generating Java class " ++ dq ++ filename ++
                              dq ++ "..."))))
    with (Ok tt) by (now destruct (verbose (opts ctx))).
  rewrite outcome_bind.
  unfold generate_constructors at 1. rewrite Hk.
  change (String.eqb "list" "container") with false.
  change (String.eqb "list" "list") with true. cbv iota.
  now rewrite outcome_bind, (extract_keys_faults stmt ctx H).
Qed.

Lemma missing_key_leaf_aborts_witness :
  names_missing_leaf list_missing_key_leaf = true /\
  outcome (extract_keys list_missing_key_leaf (sample_ctx false false))
    = Raise AttributeError /\
  (keyword list_missing_key_leaf = "list" ->
   forall time directory package src path ns prefix_name top_level,
   exists e,
     outcome (generate_class time list_missing_key_leaf directory package src
                             path ns prefix_name (sample_ctx false false)
                             top_level) = Raise e).
Proof.
  split; [reflexivity |].
  apply (missing_key_leaf_aborts list_missing_key_leaf (sample_ctx false false)).
  reflexivity.
Defined.

(** C3 as stated fails: the key argument of the list [l] names [b], [l]
    has no leaf [b], and [extract_keys] faults with an [AttributeError],
    not with an error named MissingKeyDefinition. *)
Lemma missing_key_leaf_is_attribute_error :
  search_one list_missing_key_leaf "key" None = Some (Stmt "key" "a b" []) /\
  search_one list_missing_key_leaf "leaf" (Some "b") = None /\
  extract_keys list_missing_key_leaf (sample_ctx true false)
    = ([], Raise AttributeError) /\
  ~ (exists e,
       outcome (extract_keys list_missing_key_leaf (sample_ctx true false))
         = Raise e /\
       exn_name e = "MissingKeyDefinition").
Proof.
  repeat split; try reflexivity.
  intros (e & He & Hn). vm_compute in He. inversion He; subst e.
  discriminate.
Qed.

(** *** Witnesses for the key extractor and the constructors *)

Lemma extract_keys_without_key_witness :
  Forall (fun ch => keyword ch <> "key") (substmts container_decimal_leaf) /\
  search_one container_decimal_leaf "key" None = None /\
  extract_keys container_decimal_leaf (sample_ctx true false)
    = ([], Raise AttributeError).
Proof.
  assert (Forall (fun ch => keyword ch <> "key")
                 (substmts container_decimal_leaf)) as H.
  { repeat constructor. discriminate. }
  split; [exact H |].
  apply (extract_keys_without_key container_decimal_leaf). exact H.
Defined.

Lemma extract_keys_order_witness :
  keys_resolve list_repeated_key = true /\
  exists key only confm_keys primitive_keys,
    search_one list_repeated_key "key" None = Some key /\
    outcome (extract_keys list_repeated_key (sample_ctx false false)) =
      Ok (key, only, confm_keys, primitive_keys) /\
    map snd confm_keys = split " " (arg key) /\
    map snd primitive_keys = split " " (arg key) /\
    Forall (fun a => has_char " " a = false) (map snd confm_keys) /\
    join " " (map snd confm_keys) = arg key /\
    join " " (map snd primitive_keys) = arg key.
Proof.
  split; [reflexivity |].
  apply (extract_keys_order list_repeated_key (sample_ctx false false)).
  reflexivity.
Defined.

(** The repeated key [a] is kept twice, in place. *)
Example extract_keys_repeated :
  extract_keys list_repeated_key (sample_ctx false false) =
  ([], Ok (Stmt "key" "a b a" [], 0%Z,
           [("com.tailf.confm.xs.String", "a");
            ("com.tailf.confm.xs.UnsignedInt", "b");
            ("com.tailf.confm.xs.String", "a")],
           [("String", "a"); ("long", "b"); ("String", "a")])).
Proof.
  reflexivity.
Qed.

(** The two scenarios of the specification: two string keys give
    [only_strings] true and 3 constructors; one unsigned integer key
    gives it false and 4 constructors. *)
Example two_string_keys_three_constructors :
  exists key only c p constructors cloners,
    outcome (extract_keys list_two_string_keys (sample_ctx false false)) =
      Ok (key, only, c, p) /\
    truthy only = true /\
    outcome (generate_constructors list_two_string_keys
                                   (sample_ctx false false) "Mp" "Entry" true)
      = Ok (constructors, cloners) /\
    List.length constructors = 3.
Proof.
  do 6 eexists. split; [vm_compute; reflexivity |].
  split; [reflexivity |]. split; [vm_compute; reflexivity |]. reflexivity.
Qed.

Example uint_key_four_constructors :
  exists key only c p constructors cloners,
    outcome (extract_keys list_uint_key (sample_ctx false false)) =
      Ok (key, only, c, p) /\
    truthy only = false /\
    outcome (generate_constructors list_uint_key
                                   (sample_ctx false false) "Mp" "Entry" true)
      = Ok (constructors, cloners) /\
    List.length constructors = 4.
Proof.
  do 6 eexists. split; [vm_compute; reflexivity |].
  split; [reflexivity |]. split; [vm_compute; reflexivity |]. reflexivity.
Qed.

(** ** Unsupported types *)

(** [set_value] prints one line of trace and returns a text. *)
Lemma set_value_run (stmt : Statement) (prefix arg_type confm_type : string) :
  exists trace text,
    set_value stmt prefix arg_type confm_type = ([Stdout trace], Ok text).
Proof.
  unfold set_value.
  destruct (String.eqb arg_type "String"); [now eexists _, _ |].
  destruct (String.eqb arg_type "long"); now eexists _, _.
Qed.





(** ** Submodules *)

(** C2 as stated fails.  Without schema generation, the submodule [s] is
    compiled: the class of its container [c] and its root class are
    written, then the warning is printed.  With schema generation, the
    turn of the loop faults on the absent [namespace] statement and
    reports nothing. *)
Lemma submodule_class_files_are_written :
  keyword sample_submodule = "submodule" /\
  outcome (emit_module sample_day (fun _ => "unknown") "/out"
                       (sample_ctx false true) sample_submodule) = Ok tt /\
  written (events (emit_module sample_day (fun _ => "unknown") "/out"
                               (sample_ctx false true) sample_submodule))
    = ["/out/C.java"; "/out/Mp.java"] /\
  diagnostics (events (emit_module sample_day (fun _ => "unknown") "/out"
                                   (sample_ctx false true) sample_submodule))
    = [Stderr submodule_warning] /\
  emit_module sample_day (fun _ => "unknown") "/out"
              (sample_ctx false false) sample_submodule
    = ([], Raise AttributeError).
Proof.
  split; [reflexivity |]. split; [vm_compute; reflexivity |].
  split; [vm_compute; reflexivity |]. split; vm_compute; reflexivity.
Qed.

(** ** The package description *)

(** A slice that stops at 0 is empty. *)
Lemma slice_to_zero {A : Type} (start : option Z) (l : list A) :
  slice start (Some 0%Z) l = [].
Proof.
  unfold slice, clamp.
  set (n := Z.of_nat (List.length l)).
  assert (0 <= n)%Z as Hn by (subst n; lia).
  replace (Z.to_nat _) with 0%nat; [reflexivity |].
  destruct start as [i |]; cbn [Z.ltb Z.compare];
    [destruct (i <? 0)%Z eqn:E; [| apply Z.ltb_ge in E] |]; lia.
Qed.

Lemma dict_get_run {V : Type} (d : list (string * V)) (k : string) :
  (has_key d k = true /\ exists v, dict_get d k = ([], Ok v)) \/
  (has_key d k = false /\ dict_get d k = ([], Raise KeyError)).
Proof.
  induction d as [| [k' v] d IH]; [now right |].
  cbn [dict_get has_key existsb fst].
  destruct (String.eqb k' k).
  - left. split; [reflexivity | now exists v].
  - exact IH.
Qed.

(** The revision read by [gen_package]: always ['unknown'], for a module
    of [ctx.revs]. *)
Lemma package_revision_run (ctx : Context) (module_arg : string) :
  (has_key (revs ctx) module_arg = true /\
   package_revision ctx module_arg = ([], Ok "unknown")) \/
  (has_key (revs ctx) module_arg = false /\
   package_revision ctx module_arg = ([], Raise KeyError)).
Proof.
  unfold package_revision.
  destruct (dict_get_run (revs ctx) module_arg) as [[Hk [v ->]] | [Hk ->]].
  - left. split; [exact Hk |].
    rewrite (bind_ok _ _ [] v eq_refl), slice_to_zero. reflexivity.
  - right. split; [exact Hk | reflexivity].
Qed.

Lemma unknown_src_cons (entry : string) (entries : list string) :
  unknown_src (entry :: entries) =
  ("module " ++ dq ++ decapitalize (drop_last 5 entry) ++ dq ++
   " (rev " ++ dq ++ "unknown" ++ dq ++ "), ") ++ unknown_src entries.
Proof.
  unfold unknown_src. cbn [map]. apply join_empty_cons.
Qed.

(** The loop of [gen_package]: with every module known it adds the text
    with the unknown revisions; otherwise it stops on a [KeyError]. *)
Lemma package_src_run (ctx : Context) (entries : list string) (src : string) :
  (knows_modules ctx entries = true /\
   for_loop entries
     (package_src_step ctx)
     src = ([], Ok (src ++ unknown_src entries))) \/
  (knows_modules ctx entries = false /\
   for_loop entries
     (package_src_step ctx)
     src = ([], Raise KeyError)).
Proof.
  revert src. induction entries as [| entry entries IH]; intros src.
  - left. split; [reflexivity |]. cbn [for_loop]. unfold unknown_src.
    cbn [map join String.concat]. now rewrite append_nil_r.
  - rewrite for_loop_cons. unfold package_src_step at 1 3. cbv zeta.
    cbn [knows_modules forallb].
    destruct (package_revision_run ctx (decapitalize (drop_last 5 entry)))
      as [[Hk ->] | [Hk ->]]; rewrite Hk; cbn [andb].
    + rewrite (bind_ok _ _ [] "unknown" eq_refl).
      cbn [ret events outcome fst snd app].
      rewrite (bind_ok _ _ [] _ eq_refl). cbn [app].
      destruct (IH (src ++ "module " ++ dq ++ decapitalize (drop_last 5 entry) ++
                    dq ++ " (rev " ++ dq ++ "unknown" ++ dq ++ "), "))
        as [[Hks Hs] | [Hks Hs]]; rewrite Hs; cbn [events outcome fst snd];
        [left | right]; (split; [exact Hks |]); [| reflexivity].
      rewrite unknown_src_cons, !append_assoc. reflexivity.
    + right. split; reflexivity.
Qed.

(** With a known revision, and with none, the description says
    "unknown"; for a module that is not in [ctx.revs] nothing is
    written. *)
Example gen_package_sample :
  knows_modules (sample_ctx false false) (top_level_files [File "M.java"])
    = true /\
  unknown_src (top_level_files [File "M.java"])
    = "module " ++ dq ++ "m" ++ dq ++ " (rev " ++ dq ++ "unknown" ++ dq ++ "), " /\
  gen_package [File "X.java"] "com.example" (sample_ctx false false)
    = ([], Raise KeyError).
Proof.
  split; [reflexivity |]. split; reflexivity.
Qed.

(* ================================================================= *)
(** * Further properties *)

(** ** Occurrence bounds *)

(** The bounds as one table. *)
Lemma schema_occurs_decides (stmt : Statement) (parent : option Statement) :
  schema_occurs stmt parent =
    (if is_module stmt || is_whole_key stmt parent ||
        (child_of_container parent && is_container stmt true) ||
        is_mandatory stmt
     then "1" else "0",
     if is_module stmt || is_whole_key stmt parent || is_unique stmt ||
        child_of_container parent || is_container stmt true
     then "1" else "-1").
Proof.
  unfold schema_occurs, is_mandatory, is_unique, is_whole_key,
    child_of_container.
  set (mandatory := match search_one stmt "mandatory" None with
                    | Some m => String.eqb (arg m) "true"
                    | None => false
                    end).
  set (unique := match search_one stmt "unique" None with
                 | Some u => String.eqb (arg u) "true"
                 | None => false
                 end).
  set (key := match match parent with
                    | Some p => search_one p "key" None
                    | None => None
                    end with
              | Some k => String.eqb (arg k) (arg stmt)
              | None => false
              end).
  replace (match parent with
           | Some p => match search_one p "key" None with
                       | Some k => String.eqb (arg k) (arg stmt)
                       | None => false
                       end
           | None => false
           end) with key by (subst key; now destruct parent).
  set (child := match parent with
                | Some p => is_container p false
                | None => false
                end).
  destruct (is_module stmt), key, child, (is_container stmt true),
    mandatory, unique; reflexivity.
Qed.

(** X1: the table of the occurrence bounds.  [min_occurs] is 1 exactly
    for a module, a statement whose argument is the whole key argument of
    its parent, a container directly under a container or a list, and a
    statement with [mandatory true]; otherwise it is 0.  [max_occurs] is
    1 exactly for a module, such a key, a statement with [unique true],
    any child of a container or a list, and a container; otherwise it is
    -1.  So a bound is unbounded only outside containers and lists, and
    never for a container or a module. *)
Theorem schema_occurs_table (stmt : Statement) (parent : option Statement) :
  schema_occurs stmt parent =
    (if is_module stmt || is_whole_key stmt parent ||
        (child_of_container parent && is_container stmt true) ||
        is_mandatory stmt
     then "1" else "0",
     if is_module stmt || is_whole_key stmt parent || is_unique stmt ||
        child_of_container parent || is_container stmt true
     then "1" else "-1") /\
  (snd (schema_occurs stmt parent) = "-1" ->
   child_of_container parent = false /\ is_container stmt true = false /\
   is_module stmt = false).
Proof.
  split; [apply schema_occurs_decides |].
  rewrite schema_occurs_decides. cbn [snd].
  destruct (is_module stmt), (is_whole_key stmt parent), (is_unique stmt),
    (child_of_container parent), (is_container stmt true); cbn;
    intros H; try discriminate H; now repeat split.
Qed.

Lemma has_char_differs (c : ascii) (s t : string) :
  has_char c s = true -> has_char c t = false -> String.eqb s t = false.
Proof.
  intros Hs Ht. apply String.eqb_neq. intros ->. congruence.
Qed.

(** X2: a key of several leaves is not seen by the schema emitter.  Its
    test compares the whole key argument with the argument of the
    statement, so when the key argument of a list holds a space, no leaf
    of the list counts as its key: a key leaf that is not mandatory gets
    [min_occurs] 0, although the class generator, which splits the key
    argument, treats it as a key. *)
Theorem composite_key_leaf_bounds (stmt p k : Statement) :
  search_one p "key" None = Some k ->
  has_char " " (arg k) = true ->
  has_char " " (arg stmt) = false ->
  keyword p = "list" ->
  keyword stmt = "leaf" ->
  is_mandatory stmt = false ->
  is_whole_key stmt (Some p) = false /\
  schema_occurs stmt (Some p) = ("0", "1").
Proof.
  intros Hk Hsp Hns Hp Hs Hm.
  assert (is_whole_key stmt (Some p) = false) as Hw.
  { unfold is_whole_key. rewrite Hk. now apply (has_char_differs " "). }
  split; [exact Hw |].
  rewrite schema_occurs_decides, Hw, Hm.
  unfold is_module, is_container, child_of_container, is_container.
  rewrite Hs, Hp. destruct (is_unique stmt); reflexivity.
Qed.

Lemma composite_key_leaf_bounds_witness :
  search_one list_two_string_keys "key" None = Some (Stmt "key" "x y" []) /\
  has_char " " (arg (Stmt "key" "x y" [])) = true /\
  has_char " " (arg (sample_leaf "x" "string")) = false /\
  keyword list_two_string_keys = "list" /\
  keyword (sample_leaf "x" "string") = "leaf" /\
  is_mandatory (sample_leaf "x" "string") = false /\
  In (arg (sample_leaf "x" "string")) (split " " (arg (Stmt "key" "x y" []))) /\
  is_whole_key (sample_leaf "x" "string") (Some list_two_string_keys) = false /\
  schema_occurs (sample_leaf "x" "string") (Some list_two_string_keys)
    = ("0", "1").
Proof.
  do 6 (split; [reflexivity |]). split; [now left |].
  apply (composite_key_leaf_bounds (sample_leaf "x" "string")
           list_two_string_keys (Stmt "key" "x y" [])); reflexivity.
Defined.

(** ** Strings built by loops *)

Lemma substring_prefix (s t : string) :
  substring 0 (String.length s) (s ++ t) = s.
Proof.
  induction s as [| c r IH]; cbn.
  - now destruct t.
  - now rewrite IH.
Qed.

(** Dropping the last characters of a string undoes appending as many. *)
Lemma drop_last_append (s t : string) :
  drop_last (String.length t) (s ++ t) = s.
Proof.
  unfold drop_last. rewrite length_append.
  replace (String.length s + String.length t - String.length t)
    with (String.length s) by lia.
  apply substring_prefix.
Qed.

(** A loop that appends each piece and a separator builds the pieces
    joined by the separator, and one separator more. *)
Lemma fold_append_sep {A : Type} (f : A -> string) (sep : string)
  (l : list A) (acc : string) :
  fold_left (fun res x => res ++ f x ++ sep) l acc =
  acc ++ match l with
         | [] => ""
         | _ :: _ => join sep (map f l) ++ sep
         end.
Proof.
  revert acc. induction l as [| x l IH]; intros acc; cbn [fold_left].
  - now rewrite append_nil_r.
  - rewrite IH, append_assoc. f_equal.
    destruct l as [| y l]; cbn [map join String.concat].
    + now rewrite append_nil_r.
    + now rewrite !append_assoc.
Qed.

(** The loop followed by the removal of the last separator joins the
    pieces. *)
Lemma fold_append_join {A : Type} (f : A -> string) (sep : string)
  (l : list A) :
  drop_last (String.length sep) (fold_left (fun res x => res ++ f x ++ sep) l "")
  = join sep (map f l).
Proof.
  rewrite fold_append_sep. cbn [append]. destruct l as [| x l].
  - unfold drop_last. now destruct (String.length sep).
  - apply drop_last_append.
Qed.

(** X3: the schema record of a statement.  [schema_node] never faults
    and reports no diagnostic; it prints one line when [verbose] is set.
    The record has eight lines, and its line of children holds the
    arguments of all the substatements, in order and separated by one
    space. *)
Theorem schema_node_spec (stmt : Statement) (parent : option Statement)
  (tagpath ns : string) (ctx : Context) :
  schema_node stmt parent tagpath ns ctx =
  (if verbose (opts ctx)
   then [Stdout ("Generating schema node " ++ dq ++ tagpath ++ dq ++ "...")]
   else [],
   Ok ["<tagpath>" ++ tagpath ++ "</tagpath>";
       "<namespace>" ++ ns ++ "</namespace>";
       "<primitive_type></primitive_type>";
       "<min_occurs>" ++ fst (schema_occurs stmt parent) ++ "</min_occurs>";
       "<max_occurs>" ++ snd (schema_occurs stmt parent) ++ "</max_occurs>";
       "<children>" ++ join " " (map arg (substmts stmt)) ++ "</children>";
       "<flags></flags>";
       "<desc></desc>"]).
Proof.
  unfold schema_node.
  pose proof (fold_append_join arg " " (substmts stmt)) as H.
  cbn [String.length] in H.
  destruct (schema_occurs stmt parent) as [lo hi]. cbv zeta. rewrite H.
  destruct (verbose (opts ctx)); reflexivity.
Qed.

(** ** Indentation and comment rows *)

Lemma times_add (s : string) (n m : nat) :
  times s (n + m) = times s n ++ times s m.
Proof.
  induction n as [| n IH]; cbn [times Nat.add]; [reflexivity |].
  now rewrite IH, append_assoc.
Qed.

Lemma times_times (s : string) (n m : nat) :
  times (times s n) m = times s (m * n).
Proof.
  induction m as [| m IH]; cbn [times Nat.mul]; [reflexivity |].
  now rewrite IH, times_add.
Qed.

Lemma length_times_space (n : nat) : String.length (times " " n) = n.
Proof.
  induction n as [| n IH]; cbn; [reflexivity | now rewrite IH].
Qed.

Lemma fold_left_ext {A S : Type} (f g : S -> A -> S) (l : list A) (s : S) :
  (forall s x, f s x = g s x) -> fold_left f l s = fold_left g l s.
Proof.
  intros H. revert s. induction l as [| x l IH]; intros s; cbn; [reflexivity |].
  now rewrite H, IH.
Qed.

(** A line followed by a line feed is the first row of [splitlines]. *)
Lemma splitlines_line (l r : string) :
  one_line l = true ->
  splitlines_from false (l ++ nl ++ r) = l :: splitlines_from false r.
Proof.
  induction l as [| c l IH]; intros H; [reflexivity |].
  cbn [one_line] in H. apply andb_true_iff in H as [Hc Hl].
  unfold line_break in Hc. apply negb_true_iff, orb_false_iff in Hc as [Hn Hr].
  change ((String c l) ++ nl ++ r) with (String c (l ++ nl ++ r)).
  cbn [splitlines_from]. rewrite Hn, Hr, (IH Hl). reflexivity.
Qed.

(** A line that is not empty and is not followed by a line feed is a row
    of its own. *)
Lemma splitlines_last (l : string) :
  one_line l = true -> l <> "" -> splitlines_from false l = [l].
Proof.
  induction l as [| c l IH]; intros H Hne; [congruence |].
  cbn [one_line] in H. apply andb_true_iff in H as [Hc Hl].
  unfold line_break in Hc. apply negb_true_iff, orb_false_iff in Hc as [Hn Hr].
  cbn [splitlines_from]. rewrite Hn, Hr.
  destruct l as [| d l]; [reflexivity |].
  rewrite (IH Hl); [reflexivity | discriminate].
Qed.

(** Lines joined by line feeds are the rows of [splitlines], provided
    the last line is not empty. *)
Lemma splitlines_join (ls : list string) :
  forallb one_line ls = true ->
  last ls "x" <> "" ->
  splitlines (join nl ls) = ls.
Proof.
  unfold splitlines, join.
  induction ls as [| l ls IH]; intros H Hlast; [reflexivity |].
  cbn [forallb] in H. apply andb_true_iff in H as [Hl Hls].
  destruct ls as [| l' ls].
  - cbn [String.concat]. now apply splitlines_last.
  - change (String.concat nl (l :: l' :: ls))
      with (l ++ nl ++ String.concat nl (l' :: ls)).
    rewrite (splitlines_line _ _ Hl), IH; [reflexivity | exact Hls |].
    exact Hlast.
Qed.

(** The rows of [splitlines] hold no line break. *)
Lemma splitlines_rows (s : string) (cr : bool) :
  forallb one_line (splitlines_from cr s) = true.
Proof.
  revert cr. induction s as [| c r IH]; intros cr; [reflexivity |].
  cbn [splitlines_from].
  destruct (Ascii.eqb c (ascii_of_nat 10)) eqn:Hn.
  - destruct cr; [apply IH | cbn [forallb one_line]; apply IH].
  - destruct (Ascii.eqb c (ascii_of_nat 13)) eqn:Hr.
    + cbn [forallb one_line]. apply IH.
    + specialize (IH false).
      destruct (splitlines_from false r) as [| w ws]; cbn [forallb one_line] in *.
      * unfold line_break. now rewrite Hn, Hr.
      * unfold line_break. now rewrite Hn, Hr.
Qed.

Lemma indent_join (lines : list string) (level : nat) :
  indent lines level =
  join nl (map (fun line => times " " (4 * level) ++ line) lines).
Proof.
  unfold indent.
  rewrite (fold_left_ext _ (fun res line =>
             res ++ (times " " (4 * level) ++ line) ++ nl)).
  - apply (fold_append_join (fun line => times " " (4 * level) ++ line) nl).
  - intros s x. now rewrite times_times, !append_assoc.
Qed.

Lemma one_line_append (s t : string) :
  one_line (s ++ t) = one_line s && one_line t.
Proof.
  induction s as [| c r IH]; cbn [append one_line]; [reflexivity |].
  now rewrite IH, andb_assoc.
Qed.

Lemma one_line_spaces (n : nat) : one_line (times " " n) = true.
Proof.
  induction n as [| n IH]; [reflexivity |].
  cbn [times]. now rewrite one_line_append, IH.
Qed.

Lemma forallb_map_prefix (pad : string) (ls : list string) :
  one_line pad = true ->
  forallb one_line ls = true ->
  forallb one_line (map (fun l => pad ++ l) ls) = true.
Proof.
  intros Hp. induction ls as [| l ls IH]; cbn [map forallb]; [reflexivity |].
  intros H. apply andb_true_iff in H as [Hl Hls].
  now rewrite one_line_append, Hp, Hl, IH.
Qed.

Lemma last_map_prefix (pad : string) (ls : list string) :
  pad <> "" -> last (map (fun l => pad ++ l) ls) "x" <> "".
Proof.
  intros Hp. induction ls as [| l ls IH]; [discriminate |].
  cbn [map]. destruct ls as [| l' ls].
  - cbn [last map]. destruct pad; [congruence | discriminate].
  - exact IH.
Qed.

(** X4: [indent] joins the lines with line feeds, each line after
    [4 * level] spaces: there is no line feed after the last line, and no
    lines give the empty string.  For lines without line breaks and a
    level of at least 1, the rows of the result are the indented lines:
    none is lost or split. *)
Theorem indent_rows (lines : list string) (level : nat) :
  indent lines level =
    join nl (map (fun line => times " " (4 * level) ++ line) lines) /\
  (forallb one_line lines = true -> 0 < level ->
   splitlines (indent lines level) =
   map (fun line => times " " (4 * level) ++ line) lines).
Proof.
  split; [apply indent_join |]. intros Hl Hlv. rewrite indent_join.
  apply splitlines_join.
  - apply forallb_map_prefix; [apply one_line_spaces | exact Hl].
  - apply last_map_prefix. destruct level; [lia |]. discriminate.
Qed.

(** At level 0 an empty last line is lost. *)
Example indent_level_0_loses_empty_line :
  splitlines (indent ["a"; ""] 0) = ["a"] /\
  splitlines (indent ["a"; ""] 1) = ["    a"; "    "].
Proof.
  split; reflexivity.
Qed.

(** X5: [java_docify] turns each row of its argument into a row that
    starts with [" * "]: the rows of the result are the rows of the
    argument, in order, each after this prefix, and the result does not
    end with a line feed. *)
Theorem java_docify_rows (s : string) :
  java_docify s = join nl (map (fun row => " * " ++ row) (splitlines s)) /\
  splitlines (java_docify s) = map (fun row => " * " ++ row) (splitlines s).
Proof.
  assert (java_docify s =
          join nl (map (fun row => " * " ++ row) (splitlines s))) as H.
  { unfold java_docify.
    rewrite (fold_left_ext _ (fun res row => res ++ (" * " ++ row) ++ nl)).
    - apply (fold_append_join (fun row => " * " ++ row) nl).
    - intros r x. now rewrite !append_assoc. }
  split; [exact H |]. rewrite H. apply splitlines_join.
  - apply forallb_map_prefix; [reflexivity | apply splitlines_rows].
  - apply last_map_prefix. discriminate.
Qed.

(** ** The keys and their representations *)

(** One turn of the loop of [extract_keys], in full. *)
Lemma extract_keys_step_run (stmt : Statement) (ctx : Context)
  (only : Z) (c p : KeyList) (a t : string) :
  key_leaf_type stmt a = Some t ->
  extract_keys_step stmt ctx (only, c, p) a =
  (key_warnings stmt ctx [a],
   Ok ((only * Z.b2z (negb (String.eqb t "uint32")))%Z,
       list_append c (wrapped_type t, a),
       list_append p (primitive_type t, a))).
Proof.
  intros H.
  assert (key_warnings stmt ctx [a] =
          if (debug (opts ctx) || verbose (opts ctx)) && unsupported t
          then [Stderr (unsupported_type_warning t)] else []) as ->.
  { unfold key_warnings, leaf_type. cbn [filter]. rewrite H.
    destruct (debug (opts ctx) || verbose (opts ctx)); [| reflexivity].
    destruct (unsupported t); cbn [map andb]; rewrite ?H; reflexivity. }
  unfold wrapped_type, primitive_type, unsupported.
  unfold key_leaf_type in H. unfold extract_keys_step.
  destruct (search_one stmt "leaf" (Some a)) as [leaf |]; [| discriminate].
  cbn [deref]. rewrite bind_ret.
  destruct (search_one leaf "type" None) as [ty |]; [| discriminate].
  cbn [deref]. rewrite bind_ret. injection H as <-.
  destruct (String.eqb (arg ty) "string") eqn:Es.
  - apply String.eqb_eq in Es. rewrite Es. cbn [String.eqb Ascii.eqb Bool.eqb].
    rewrite bind_ret. unfold list_append. rewrite last_last.
    cbn [negb andb]. now rewrite andb_false_r.
  - destruct (String.eqb (arg ty) "uint32") eqn:Eu.
    + rewrite bind_ret. unfold list_append. rewrite last_last.
      cbn [negb andb]. now rewrite andb_false_r.
    + cbn [negb andb]. rewrite andb_true_r. unfold unsupported_type_warning.
      destruct (debug (opts ctx) || verbose (opts ctx));
        cbn [when print_err bind ret app];
        unfold list_append; rewrite last_last; reflexivity.
Qed.

Lemma extract_keys_step_fault (stmt : Statement) (ctx : Context)
  (acc : KeyAcc) (a : string) :
  key_leaf_type stmt a = None ->
  extract_keys_step stmt ctx acc a = ([], Raise AttributeError).
Proof.
  destruct acc as [[only c] p]. unfold key_leaf_type, extract_keys_step.
  intros H.
  destruct (search_one stmt "leaf" (Some a)) as [leaf |]; [| reflexivity].
  cbn [deref]. rewrite bind_ret.
  destruct (search_one leaf "type" None) as [ty |]; [discriminate | reflexivity].
Qed.

Lemma key_warnings_cons (stmt : Statement) (ctx : Context) (a : string)
  (l : list string) :
  key_warnings stmt ctx (a :: l) =
  (key_warnings stmt ctx [a] ++ key_warnings stmt ctx l)%list.
Proof.
  unfold key_warnings.
  destruct (debug (opts ctx) || verbose (opts ctx)); [| reflexivity].
  cbn [filter]. now destruct (unsupported (leaf_type stmt a)).
Qed.

Lemma b2z_andb (x y : bool) : (Z.b2z x * Z.b2z y)%Z = Z.b2z (x && y).
Proof.
  now destruct x, y.
Qed.

(** The loop of [extract_keys] on identifiers that all resolve, in full. *)
Lemma extract_keys_loop_run (stmt : Statement) (ctx : Context)
  (l : list string) :
  forallb (fun a => match key_leaf_type stmt a with
                    | Some _ => true
                    | None => false
                    end) l = true ->
  forall only c p,
    for_loop l (extract_keys_step stmt ctx) (only, c, p) =
    (key_warnings stmt ctx l,
     Ok ((only *
          Z.b2z (forallb (fun a => negb (String.eqb (leaf_type stmt a) "uint32"))
                         l))%Z,
         (c ++ map (fun a => (wrapped_type (leaf_type stmt a), a)) l)%list,
         (p ++ map (fun a => (primitive_type (leaf_type stmt a), a)) l)%list)).
Proof.
  induction l as [| a l IH]; intros H only c p.
  - cbn [for_loop forallb map Z.b2z]. rewrite !app_nil_r, Z.mul_1_r.
    unfold key_warnings. now destruct (debug (opts ctx) || verbose (opts ctx)).
  - cbn [forallb] in H. apply andb_true_iff in H as [Ha Hl].
    destruct (key_leaf_type stmt a) as [t |] eqn:E; [| discriminate].
    rewrite for_loop_cons.
    etransitivity;
      [eapply bind_run;
       [apply (extract_keys_step_run stmt ctx only c p a t E)
       | cbv beta; apply (IH Hl)] |].
    rewrite <- key_warnings_cons. f_equal. f_equal.
    assert (leaf_type stmt a = t) as Ht by (unfold leaf_type; now rewrite E).
    unfold list_append. rewrite <- !app_assoc. cbn [forallb map app].
    rewrite Ht. f_equal. f_equal.
    rewrite <- Z.mul_assoc. f_equal. apply b2z_andb.
Qed.

(** [extract_keys] on a list whose key identifiers all resolve, in full. *)
Lemma extract_keys_run (stmt : Statement) (ctx : Context) (key : Statement) :
  search_one stmt "key" None = Some key ->
  keys_resolve stmt = true ->
  extract_keys stmt ctx =
  (key_warnings stmt ctx (split " " (arg key)),
   Ok (key,
       Z.b2z (forallb (fun a => negb (String.eqb (leaf_type stmt a) "uint32"))
                      (split " " (arg key))),
       map (fun a => (wrapped_type (leaf_type stmt a), a)) (split " " (arg key)),
       map (fun a => (primitive_type (leaf_type stmt a), a))
           (split " " (arg key)))).
Proof.
  unfold keys_resolve, extract_keys. intros Hk H. rewrite Hk in H |- *.
  cbn [deref]. rewrite bind_ret.
  etransitivity;
    [eapply bind_run;
     [apply (extract_keys_loop_run stmt ctx _ H 1%Z [] []) | reflexivity] |].
  rewrite app_nil_r, Z.mul_1_l. reflexivity.
Qed.

(** X6: the representations of the keys.  For a list whose key
    identifiers all resolve, [extract_keys] gives each key, in order, its
    wrapped and its primitive type: the unsigned integer pair for a leaf
    of type [uint32], the string pair for a leaf of any other type.
    [only_strings] is 1 when no key leaf has type [uint32] and 0
    otherwise: the constructor with primitive types is generated exactly
    when some key is a [uint32]. *)
Theorem key_representations (stmt : Statement) (ctx : Context) :
  keys_resolve stmt = true ->
  exists key only,
    search_one stmt "key" None = Some key /\
    outcome (extract_keys stmt ctx) =
      Ok (key, only,
          map (fun a => (wrapped_type (leaf_type stmt a), a))
              (split " " (arg key)),
          map (fun a => (primitive_type (leaf_type stmt a), a))
              (split " " (arg key))) /\
    (only = 0 \/ only = 1)%Z /\
    (truthy only = false <->
     exists a, In a (split " " (arg key)) /\
               key_leaf_type stmt a = Some "uint32").
Proof.
  intros H. pose proof H as H'. unfold keys_resolve in H'.
  destruct (search_one stmt "key" None) as [key |] eqn:Hk; [| discriminate].
  exists key. eexists. split; [reflexivity |].
  rewrite (extract_keys_run stmt ctx key Hk H). split; [reflexivity |].
  remember (forallb (fun a => negb (String.eqb (leaf_type stmt a) "uint32"))
                    (split " " (arg key))) as b eqn:F.
  symmetry in F.
  split; [destruct b; [right | left]; reflexivity |].
  destruct b.
  - split; [discriminate |]. intros (a & Hin & Ha).
    rewrite forallb_forall in F. specialize (F a Hin).
    unfold leaf_type in F. rewrite Ha in F. discriminate F.
  - split; [intros _ | reflexivity].
    assert (forallb (fun a => negb (String.eqb (leaf_type stmt a) "uint32"))
                    (split " " (arg key)) <> true) as F' by congruence.
    rewrite forallb_forall in F'.
    assert (exists a, In a (split " " (arg key)) /\
                      String.eqb (leaf_type stmt a) "uint32" = true)
      as (a & Hin & Ha).
    { clear F H'. induction (split " " (arg key)) as [| a l IH].
      - exfalso. apply F'. intros x [].
      - destruct (String.eqb (leaf_type stmt a) "uint32") eqn:Ea.
        + exists a. split; [now left | exact Ea].
        + destruct IH as (b & Hb & Hbu).
          * intros G. apply F'. intros x [<- | Hx]; [now rewrite Ea | now apply G].
          * exists b. split; [now right | exact Hbu]. }
    exists a. split; [exact Hin |].
    apply String.eqb_eq in Ha. unfold leaf_type in Ha.
    rewrite forallb_forall in H'. specialize (H' a Hin).
    destruct (key_leaf_type stmt a) as [t |]; [now subst t | discriminate].
Qed.

Lemma key_representations_witness :
  keys_resolve list_repeated_key = true /\
  exists key only,
    search_one list_repeated_key "key" None = Some key /\
    outcome (extract_keys list_repeated_key (sample_ctx true false)) =
      Ok (key, only,
          map (fun a => (wrapped_type (leaf_type list_repeated_key a), a))
              (split " " (arg key)),
          map (fun a => (primitive_type (leaf_type list_repeated_key a), a))
              (split " " (arg key))) /\
    (only = 0 \/ only = 1)%Z /\
    (truthy only = false <->
     exists a, In a (split " " (arg key)) /\
               key_leaf_type list_repeated_key a = Some "uint32").
Proof.
  split; [reflexivity |].
  apply (key_representations list_repeated_key (sample_ctx true false)).
  reflexivity.
Defined.

(** Without [debug] and [verbose], the loop prints nothing, whether it
    completes or faults. *)
Lemma extract_keys_loop_quiet (stmt : Statement) (ctx : Context)
  (l : list string) :
  debug (opts ctx) || verbose (opts ctx) = false ->
  forall acc, events (for_loop l (extract_keys_step stmt ctx) acc) = [].
Proof.
  intros Hf. induction l as [| a l IH]; intros [[only c] p]; [reflexivity |].
  rewrite for_loop_cons, events_bind.
  destruct (key_leaf_type stmt a) as [t |] eqn:E.
  - rewrite (extract_keys_step_run stmt ctx only c p a t E).
    cbn [outcome events fst snd]. rewrite IH.
    unfold key_warnings. now rewrite Hf.
  - now rewrite (extract_keys_step_fault stmt ctx _ a E).
Qed.

(** X7: the diagnostics of the key extractor.  Without [debug] and
    [verbose], [extract_keys] prints nothing, also when it faults.  With
    one of them, on a list whose key identifiers all resolve, it prints
    one warning for each identifier of the key argument whose leaf has a
    type other than [string] and [uint32], in the order of the key
    argument, and nothing else. *)
Theorem extract_keys_diagnostics (stmt : Statement) (ctx : Context) :
  (debug (opts ctx) || verbose (opts ctx) = false ->
   events (extract_keys stmt ctx) = []) /\
  (debug (opts ctx) || verbose (opts ctx) = true ->
   forall key,
     search_one stmt "key" None = Some key ->
     keys_resolve stmt = true ->
     events (extract_keys stmt ctx) =
     map (fun a => Stderr (unsupported_type_warning (leaf_type stmt a)))
         (filter (fun a => unsupported (leaf_type stmt a))
                 (split " " (arg key)))).
Proof.
  split.
  - intros Hf. unfold extract_keys.
    destruct (search_one stmt "key" None) as [key |]; [| reflexivity].
    cbn [deref]. rewrite bind_ret, events_bind.
    rewrite (extract_keys_loop_quiet stmt ctx _ Hf).
    now destruct (outcome _) as [[[o c] p] | e].
  - intros Hf key Hk H. rewrite (extract_keys_run stmt ctx key Hk H).
    unfold key_warnings. now rewrite Hf.
Qed.

(** Two keys of an unsupported type, one of them named twice: three
    warnings. *)
Example extract_keys_warns_per_identifier :
  diagnostics
    (events (extract_keys
               (Stmt "list" "l"
                     [Stmt "key" "d e d" []; sample_leaf "d" "decimal64";
                      sample_leaf "e" "boolean"])
               (sample_ctx true false)))
  = [Stderr (unsupported_type_warning "decimal64");
     Stderr (unsupported_type_warning "boolean");
     Stderr (unsupported_type_warning "decimal64")].
Proof.
  reflexivity.
Qed.

(** ** File names, class names and module names *)

Lemma dot_upper (c : ascii) :
  Ascii.eqb "." (upper_ascii c) = Ascii.eqb "." c.
Proof.
  destruct c as [[] [] [] [] [] [] [] []]; reflexivity.
Qed.

Lemma dot_lower (c : ascii) :
  Ascii.eqb "." (lower_ascii c) = Ascii.eqb "." c.
Proof.
  destruct c as [[] [] [] [] [] [] [] []]; reflexivity.
Qed.

Lemma has_dot_lower (s : string) : has_char "." (lower s) = has_char "." s.
Proof.
  induction s as [| c r IH]; [reflexivity |].
  cbn [lower has_char]. now rewrite dot_lower, IH.
Qed.

Lemma has_dot_capitalize (s : string) :
  has_char "." (capitalize s) = has_char "." s.
Proof.
  destruct s as [| c r]; [reflexivity |].
  cbn [capitalize has_char]. now rewrite dot_upper, has_dot_lower.
Qed.

(** The first piece of a string is what comes before the first
    separator. *)
Lemma split_first (sep : ascii) (s t : string) :
  has_char sep s = false ->
  hd "" (split sep (s ++ String sep t)) = s.
Proof.
  induction s as [| c r IH]; intros H.
  - cbn [append split]. now rewrite Ascii.eqb_refl.
  - cbn [has_char] in H. apply orb_false_iff in H as [Hc Hr].
    cbn [append split]. rewrite Ascii.eqb_sym, Hc.
    specialize (IH Hr).
    destruct (split sep (r ++ String sep t)) as [| w ws]; cbn [hd] in *.
    + now subst r.
    + now subst w.
Qed.

(** X8: the class that a generated file declares.  [java_class] takes
    the name of the class from the file name, up to its first dot.  For
    an identifier without a dot, the file [Name.java] that
    [extract_names] derives declares the class [Name].  For an identifier
    with a dot the two differ: the class is named by the part before the
    dot. *)
Theorem java_class_declares (time : Date) (a package : string)
  (imports : list string)
  (description body version modifiers source : string) :
  has_char "." a = false ->
  hd "" (split "." (fst (extract_names a))) = snd (extract_names a) /\
  exists header,
    java_class time (fst (extract_names a)) package imports description body
               version modifiers source =
    header ++ "public class " ++ snd (extract_names a) ++ modifiers ++
    " {" ++ nl ++ body ++ nl ++ "}".
Proof.
  intros H.
  assert (hd "" (split "." (fst (extract_names a))) = snd (extract_names a))
    as Hn.
  { unfold extract_names. cbn [fst snd].
    apply (split_first "." (capitalize a) "java").
    now rewrite has_dot_capitalize. }
  split; [exact Hn |].
  unfold java_class. cbv zeta. rewrite Hn.
  set (header := _ ++ nl ++ _ ++ nl).
  exists header. rewrite !append_assoc. reflexivity.
Qed.

Lemma java_class_declares_witness :
  has_char "." "entry" = false /\
  hd "" (split "." (fst (extract_names "entry"))) = snd (extract_names "entry") /\
  exists header,
    java_class sample_day (fst (extract_names "entry")) "com.example" []
               "d" "b" "1.0" " extends Container" "m.yang" =
    header ++ "public class " ++ snd (extract_names "entry") ++
    " extends Container" ++ " {" ++ nl ++ "b" ++ nl ++ "}".
Proof.
  split; [reflexivity |].
  apply (java_class_declares sample_day "entry" "com.example" []
                             "d" "b" "1.0" " extends Container" "m.yang").
  reflexivity.
Defined.

(** With a dot in the identifier, the file and the class differ. *)
Example class_name_stops_at_dot :
  extract_names "a.b" = ("A.b.java", "A.b") /\
  hd "" (split "." (fst (extract_names "a.b"))) = "A".
Proof.
  split; reflexivity.
Qed.

Lemma lower_upper_ascii (c : ascii) :
  lower_ascii (upper_ascii c) = lower_ascii c.
Proof.
  destruct c as [[] [] [] [] [] [] [] []]; reflexivity.
Qed.

Lemma substring_all (s : string) : substring 0 (String.length s) s = s.
Proof.
  induction s as [| c r IH]; cbn; [reflexivity | now rewrite IH].
Qed.

Lemma decapitalize_capitalize (s : string) :
  decapitalize (capitalize s) = lower s.
Proof.
  destruct s as [| c r]; [reflexivity |].
  unfold decapitalize, first1, drop_first. cbn [capitalize String.eqb negb].
  cbn [String.length substring Nat.sub lower append].
  rewrite Nat.sub_0_r, substring_all, lower_upper_ascii.
  now replace (substring 0 0 (lower r)) with "" by (now destruct (lower r)).
Qed.

(** ** The diagnostics of the constructors *)

(** The value of a key in the modes 2 and 3 is found without a word,
    when no flag is set or the type of the key is [String] or [long]. *)
Lemma constructor_value_quiet (ctx : Context) (values : list string)
  (k : string * string) :
  debug (opts ctx) || verbose (opts ctx) = false \/
  fst k = "String" \/ fst k = "long" ->
  exists values', constructor_value ctx values k = ([], Ok values').
Proof.
  destruct k as [t n]. unfold constructor_value. cbn [fst]. intros H.
  destruct (String.eqb t "String") eqn:Es; [now eexists |].
  destruct (String.eqb t "long") eqn:El; [now eexists |].
  destruct H as [Hf | [-> | ->]]; try discriminate.
  rewrite Hf. now eexists.
Qed.

Lemma constructor_values_quiet (ctx : Context) (args : KeyList) :
  debug (opts ctx) || verbose (opts ctx) = false \/
  Forall (fun k => fst k = "String" \/ fst k = "long") args ->
  forall values, exists values',
    for_loop args (constructor_value ctx) values = ([], Ok values').
Proof.
  intros H. induction args as [| k args IH]; intros values; [now eexists |].
  assert (debug (opts ctx) || verbose (opts ctx) = false \/
          fst k = "String" \/ fst k = "long") as Hk.
  { destruct H as [Hf | Ha]; [now left | right]. now inversion Ha. }
  destruct (constructor_value_quiet ctx values k Hk) as [v1 H1].
  destruct IH with (values := v1) as [v2 H2].
  { destruct H as [Hf | Ha]; [now left | right]. now inversion Ha. }
  exists v2. rewrite for_loop_cons.
  exact (bind_run _ _ _ _ _ _ H1 H2).
Qed.

Lemma constructor_locals_quiet (stmt : Statement) (ctx : Context)
  (root : string) (set_prefix : bool) (mode : Z) (args : KeyList) :
  mode = 0%Z \/ mode = 1%Z \/
  debug (opts ctx) || verbose (opts ctx) = false \/
  Forall (fun k => fst k = "String" \/ fst k = "long") args ->
  exists v, constructor_locals stmt ctx root set_prefix mode args = ([], Ok v).
Proof.
  intros H. unfold constructor_locals.
  destruct (match args with [] => true | _ :: _ => false end || (mode =? 0)%Z)
    eqn:E0; [now eexists |].
  apply orb_false_iff in E0 as [_ E0].
  destruct (mode =? 1)%Z eqn:E1.
  - rewrite bind_ret.
    destruct (fold_left (constructor_argument _ mode) _ _) as [[[i d] m] a].
    now eexists.
  - cbv zeta.
    destruct (constructor_values_quiet ctx args) with (values := @nil string)
      as [values Hv].
    { destruct H as [-> | [-> | H]]; [discriminate | discriminate | exact H]. }
    rewrite Hv. rewrite (bind_ok _ _ [] values eq_refl).
    cbn [ret events outcome fst snd app].
    rewrite (bind_ok _ _ [] _ eq_refl). cbn [app].
    destruct (fold_left (constructor_argument _ mode) _ _) as [[[i d] m] a].
    now eexists.
Qed.

Lemma constructor_quiet (stmt : Statement) (ctx : Context) (root : string)
  (set_prefix : bool) (mode : Z) (args : KeyList) (throws : string) :
  mode = 0%Z \/ mode = 1%Z \/
  debug (opts ctx) || verbose (opts ctx) = false \/
  Forall (fun k => fst k = "String" \/ fst k = "long") args ->
  exists text,
    constructor stmt ctx root set_prefix mode args throws = ([], Ok text).
Proof.
  intros H.
  destruct (constructor_locals_quiet stmt ctx root set_prefix mode args H)
    as [v Hv].
  unfold constructor. rewrite Hv, (bind_ok _ _ [] v eq_refl). now eexists.
Qed.

(** X10: [constructor] never faults, and it is silent in the modes 0 and
    1, without [debug] and [verbose], and whenever the types of its
    arguments are [String] or [long]: a diagnostic needs a flag, the mode
    2 or 3, and an argument of another type. *)
Theorem constructor_diagnostics (stmt : Statement) (ctx : Context)
  (root : string) (set_prefix : bool) (mode : Z) (args : KeyList)
  (throws : string) :
  (exists text,
     outcome (constructor stmt ctx root set_prefix mode args throws) = Ok text) /\
  (mode = 0%Z \/ mode = 1%Z \/
   debug (opts ctx) || verbose (opts ctx) = false \/
   Forall (fun k => fst k = "String" \/ fst k = "long") args ->
   events (constructor stmt ctx root set_prefix mode args throws) = []).
Proof.
  split; [apply constructor_total |]. intros H.
  destruct (constructor_quiet stmt ctx root set_prefix mode args throws H)
    as [text ->].
  reflexivity.
Qed.

(** The diagnostic of a constructor for a key of another type. *)
Example constructor_warns :
  events (constructor list_uint_key (sample_ctx true false) "Mp" true 3
                      [("int", "id")] throws_inm)
  = [Stderr "WARNING, at line 700 constructor argument defaulting to string from: int"].
Proof.
  reflexivity.
Qed.

Lemma primitive_types_known (stmt : Statement) (l : list string) :
  Forall (fun k : string * string => fst k = "String" \/ fst k = "long")
         (map (fun a => (primitive_type (leaf_type stmt a), a)) l).
Proof.
  induction l as [| a l IH]; constructor; [| exact IH].
  cbn [fst]. unfold primitive_type.
  destruct (String.eqb (leaf_type stmt a) "uint32"); [now right | now left].
Qed.

(** X11: the diagnostics of the constructors of a class.  For a list
    whose key identifiers all resolve, the constructors and clone methods
    are generated without fault, and the only diagnostics are those of
    the key extractor: one warning for each key identifier of an
    unsupported type when a flag is set.  For a container there is
    none. *)
Theorem generate_constructors_diagnostics (stmt : Statement) (ctx : Context)
  (prefix_name name : string) (top_level : bool) :
  (keyword stmt = "list" -> keys_resolve stmt = true ->
   exists result,
     outcome (generate_constructors stmt ctx prefix_name name top_level)
       = Ok result /\
     events (generate_constructors stmt ctx prefix_name name top_level)
       = events (extract_keys stmt ctx)) /\
  (keyword stmt = "container" ->
   exists result,
     generate_constructors stmt ctx prefix_name name top_level
       = ([], Ok result)).
Proof.
  split.
  - intros Hk Hr. pose proof Hr as Hr'. unfold keys_resolve in Hr'.
    destruct (search_one stmt "key" None) as [key |] eqn:Hkey; [| discriminate].
    clear Hr'. pose proof (extract_keys_run stmt ctx key Hkey Hr) as He.
    unfold generate_constructors. rewrite Hk.
    change (String.eqb "list" "container") with false.
    change (String.eqb "list" "list") with true. cbv iota.
    rewrite He. cbn [events fst].
    set (ids := split " " (arg key)) in *.
    set (c := map (fun a => (wrapped_type (leaf_type stmt a), a)) ids).
    set (p := map (fun a => (primitive_type (leaf_type stmt a), a)) ids).
    destruct (constructor_quiet stmt ctx prefix_name top_level 0 [] throws_inm)
      as [c0 H0]; [now left |].
    destruct (constructor_quiet stmt ctx prefix_name top_level 1 c throws_inm)
      as [c1 H1]; [now right; left |].
    destruct (constructor_quiet stmt ctx prefix_name top_level 2 p throws_inm)
      as [c2 H2]; [right; right; right; apply primitive_types_known |].
    destruct (constructor_quiet stmt ctx prefix_name top_level 3 p throws_inm)
      as [c3 H3]; [right; right; right; apply primitive_types_known |].
    change (nl ++ "        throws INMException") with throws_inm.
    match goal with
    | |- context [constructor stmt ctx prefix_name top_level 1 _ ?t] =>
        change t with throws_inm
    end.
    rewrite (bind_ok _ _ _ _ eq_refl). cbv beta iota.
    fold ids. fold c. fold p.
    rewrite H0, (bind_ok _ _ [] c0 eq_refl).
    rewrite H1, (bind_ok _ _ [] c1 eq_refl).
    rewrite H2, (bind_ok _ _ [] c2 eq_refl).
    destruct (negb (truthy _)).
    + rewrite H3. cbn [bind ret events outcome fst snd app].
      rewrite app_nil_r. eexists. split; reflexivity.
    + cbn [bind ret events outcome fst snd app].
      rewrite app_nil_r. eexists. split; reflexivity.
  - intros Hk. unfold generate_constructors. rewrite Hk.
    change (String.eqb "container" "container") with true. cbv iota.
    destruct (constructor_quiet stmt ctx prefix_name top_level 0 [] "")
      as [c0 H0]; [now left |].
    rewrite H0, (bind_ok _ _ [] c0 eq_refl). now eexists.
Qed.

(** ** The events of the class generator *)

Lemma Statement_tree_ind (Q : Statement -> Prop) :
  (forall kw a subs, Forall Q subs -> Q (Stmt kw a subs)) ->
  forall stmt, Q stmt.
Proof.
  intros H. fix IH 1. intros [kw a subs]. apply H.
  induction subs as [| sub subs IHs]; constructor; [apply IH | exact IHs].
Qed.

Section Only.

Context {A B : Type}.
Variable P : Event -> bool.

Lemma only_nil (m : M A) : events m = [] -> only P m.
Proof.
  unfold only. now intros ->.
Qed.

Lemma only_bind (m : M A) (k : A -> M B) :
  only P m -> (forall a, only P (k a)) -> only P (bind m k).
Proof.
  unfold only. destruct m as [evs [a | e]]; intros Hm Hk; [| exact Hm].
  specialize (Hk a). unfold bind. destruct (k a) as [evs' r].
  cbn [events fst] in *. rewrite forallb_app, Hm, Hk. reflexivity.
Qed.

Lemma only_weaken (Q : Event -> bool) (m : M A) :
  (forall e, P e = true -> Q e = true) -> only P m -> only Q m.
Proof.
  unfold only. intros H. induction (events m) as [| e l IH]; [reflexivity |].
  cbn [forallb]. intros Hl. apply andb_true_iff in Hl as [He Hl].
  now rewrite (H e He), (IH Hl).
Qed.

End Only.

Lemma only_for_loop {A B : Type} (P : Event -> bool) (l : list B)
  (body : A -> B -> M A) :
  (forall s x, In x l -> only P (body s x)) ->
  forall s, only P (for_loop l body s).
Proof.
  induction l as [| x l IH]; intros H s; [reflexivity |].
  rewrite for_loop_cons. apply only_bind.
  - apply H. now left.
  - intros s'. apply IH. intros s0 y Hy. apply H. now right.
Qed.

Lemma only_deref (P : Event -> bool) (o : option Statement) : only P (deref o).
Proof.
  now destruct o.
Qed.

Lemma only_local (P : Event -> bool) {A : Type} (v : option A) :
  only P (local v).
Proof.
  now destruct v.
Qed.

Lemma only_diagnostics {A : Type} (m : M A) :
  only no_diagnostic m -> diagnostics (events m) = [].
Proof.
  unfold only, diagnostics. induction (events m) as [| e l IH]; [reflexivity |].
  cbn [forallb filter]. intros H. apply andb_true_iff in H as [He Hl].
  unfold no_diagnostic in He. destruct (is_stderr e); [discriminate He |].
  exact (IH Hl).
Qed.

Lemma only_written {A : Type} (m : M A) :
  only no_file m -> written (events m) = [].
Proof.
  unfold only, written. induction (events m) as [| e l IH]; [reflexivity |].
  cbn [forallb flat_map]. intros H. apply andb_true_iff in H as [He Hl].
  destruct e; try discriminate He; exact (IH Hl).
Qed.

(** The events of the class generator other than the files it writes:
    the traces on the standard output, and diagnostics when [debug] or
    [verbose] is set. *)
Section Traces.

Variable P : Event -> bool.
Variable ctx : Context.
Hypothesis Hout : forall t, P (Stdout t) = true.
Hypothesis Herr :
  debug (opts ctx) || verbose (opts ctx) = true ->
  forall t, P (Stderr t) = true.

Lemma only_print (t : string) : only P (print t).
Proof.
  unfold only. cbn. now rewrite Hout.
Qed.

Lemma only_print_err (t : string) :
  debug (opts ctx) || verbose (opts ctx) = true -> only P (print_err t).
Proof.
  intros F. unfold only. cbn. now rewrite (Herr F).
Qed.

Lemma only_set_value (stmt : Statement) (prefix arg_type confm_type : string) :
  only P (set_value stmt prefix arg_type confm_type).
Proof.
  destruct (set_value_run stmt prefix arg_type confm_type) as (t & x & ->).
  unfold only. cbn. now rewrite Hout.
Qed.

Ltac only_step :=
  lazymatch goal with
  | |- only _ (bind _ _) => apply only_bind; [| intros ?]
  | |- only _ (set_value _ _ _ _) => apply only_set_value
  | |- only _ (deref _) => apply only_deref
  | |- only _ (local _) => apply only_local
  | |- only _ (ret _) => apply only_nil; reflexivity
  | |- only _ (print _) => apply only_print
  | |- only _ (print_err _) => apply only_print_err; assumption
  | |- only _ (when ?c _) => unfold when
  | |- only _ (let _ := _ in _) => cbv zeta
  | |- only _ (match ?x with _ => _ end) => case_eq x; intros; cbv beta iota
  end.

Lemma only_extract_keys_step (stmt : Statement) (acc : KeyAcc) (a : string) :
  only P (extract_keys_step stmt ctx acc a).
Proof.
  unfold extract_keys_step. repeat only_step.
Qed.

Lemma only_extract_keys (stmt : Statement) : only P (extract_keys stmt ctx).
Proof.
  unfold extract_keys. cbv zeta.
  apply only_bind; [apply only_deref | intros key].
  apply only_bind.
  - apply only_for_loop. intros s x _. apply only_extract_keys_step.
  - intros [[o c] p]. apply only_nil. reflexivity.
Qed.

Lemma only_constructor_value (values : list string) (a : string * string) :
  only P (constructor_value ctx values a).
Proof.
  unfold constructor_value. repeat only_step.
Qed.

Lemma only_constructor (stmt : Statement) (root : string) (set_prefix : bool)
  (mode : Z) (args : KeyList) (throws : string) :
  only P (constructor stmt ctx root set_prefix mode args throws).
Proof.
  unfold constructor. cbv zeta.
  apply only_bind; [| intros v; apply only_nil; reflexivity].
  unfold constructor_locals. cbv zeta.
  only_step; [only_step |].
  apply only_bind; [| intros [d v]; repeat only_step].
  only_step; [only_step |].
  apply only_bind; [| intros v; only_step].
  apply only_for_loop. intros s x _. apply only_constructor_value.
Qed.

Lemma only_generate_constructors (stmt : Statement)
  (prefix_name name : string) (top_level : bool) :
  only P (generate_constructors stmt ctx prefix_name name top_level).
Proof.
  unfold generate_constructors.
  repeat first [apply only_constructor | apply only_extract_keys | only_step].
Qed.

(** The part of [generate_member] that is not the generation of the
    class of the substatement. *)
Lemma only_generate_member (stmt : Statement) (prefix_name : string)
  (acc : ClassAcc) (sub : Statement) :
  only P (generate_member (fun _ => ret tt) stmt ctx prefix_name acc sub).
Proof.
  unfold generate_member. cbv beta zeta.
  repeat first [apply only_extract_keys | only_step].
Qed.

End Traces.

Lemma generate_member_sub (generate_sub : Statement -> M unit)
  (stmt : Statement) (ctx : Context) (prefix_name : string) (acc : ClassAcc)
  (sub : Statement) :
  generate_member generate_sub stmt ctx prefix_name acc sub =
  ((if is_container sub false then generate_sub sub else ret tt) ;;
   generate_member (fun _ => ret tt) stmt ctx prefix_name acc sub).
Proof.
  unfold generate_member, is_container. cbv beta zeta. cbn [negb andb].
  destruct (String.eqb (keyword sub) "list");
    destruct (String.eqb (keyword sub) "container"); cbn [orb];
    try (apply bind_ext; intros []); rewrite bind_ret; reflexivity.
Qed.

(** ** The diagnostics of the class generator *)

Section ClassEvents.

Variable P : Event -> bool.
Variable ctx : Context.
Hypothesis Hout : forall t, P (Stdout t) = true.
Hypothesis Herr :
  debug (opts ctx) || verbose (opts ctx) = true ->
  forall t, P (Stderr t) = true.
Hypothesis Hfile : forall p c, P (WriteFile p c) = true.

Lemma only_write_file (p c : string) : only P (write_file p c).
Proof.
  unfold only. cbn. now rewrite Hfile.
Qed.

Lemma only_generate_class (time : Date)
  (directory package src ns prefix_name : string) (stmt : Statement) :
  forall path top_level,
    only P (generate_class time stmt directory package src path ns
                           prefix_name ctx top_level).
Proof.
  induction stmt as [kw a subs IH] using Statement_tree_ind.
  intros path top_level. rewrite generate_class_eq.
  destruct (extract_names (arg (Stmt kw a subs))) as [filename name].
  apply only_bind.
  - apply only_for_loop. intros acc sub Hin. rewrite generate_member_sub.
    apply only_bind.
    + rewrite Forall_forall in IH. specialize (IH sub Hin).
      case (is_container sub false); [apply IH | apply only_nil; reflexivity].
    + intros _. apply only_generate_member; assumption.
  - intros acc. apply only_bind.
    + unfold when; case (verbose (opts ctx)); [apply only_print; assumption |].
      apply only_nil. reflexivity.
    + intros _. cbv zeta. apply only_bind.
      * apply only_generate_constructors; assumption.
      * intros [constructors cloners]. apply only_write_file.
Qed.

Lemma only_generate_classes (time : Date) (module : Statement)
  (directory package src : string) :
  only P (generate_classes time module directory package src ctx).
Proof.
  unfold generate_classes.
  apply only_bind.
  { case (String.eqb (keyword module) "module").
    - apply only_bind; [apply only_deref | intros ns; apply only_nil; reflexivity].
    - case (String.eqb (keyword module) "submodule");
        [| apply only_nil; reflexivity].
      cbv zeta. apply only_bind; [apply only_deref | intros pm].
      apply only_bind; [apply only_deref | intros p; apply only_nil; reflexivity]. }
  intros [ns_arg prefix].
  apply only_bind; [apply only_local | intros prefix'].
  apply only_bind; [apply only_deref | intros q].
  destruct (extract_names (arg q)) as [filename name].
  apply only_bind.
  { apply only_for_loop. intros [] stmt _.
    case (String.eqb (keyword stmt) "container" ||
          String.eqb (keyword stmt) "list"); [| apply only_nil; reflexivity].
    apply only_bind; [apply only_local | intros ns; apply only_generate_class]. }
  intros _. apply only_bind.
  { unfold when; case (verbose (opts ctx)); [apply only_print; assumption |].
    apply only_nil. reflexivity. }
  intros _. apply only_bind; [apply only_local | intros ns].
  apply only_write_file.
Qed.

End ClassEvents.

(** X12: without [debug] and [verbose] the class generator prints no
    diagnostic: neither [generate_class] on a statement, whatever is
    below it, nor [generate_classes] on a module, and also when the
    generation faults. *)
Theorem class_generator_diagnostics (time : Date) (stmt : Statement)
  (directory package src path ns prefix_name : string) (ctx : Context)
  (top_level : bool) :
  debug (opts ctx) || verbose (opts ctx) = false ->
  diagnostics (events (generate_class time stmt directory package src path ns
                                      prefix_name ctx top_level)) = [] /\
  diagnostics (events (generate_classes time stmt directory package src ctx))
    = [].
Proof.
  intros Hf.
  split; apply only_diagnostics;
    [apply only_generate_class | apply only_generate_classes];
    try reflexivity; intros F; rewrite Hf in F; discriminate F.
Qed.

Lemma class_generator_diagnostics_witness :
  diagnostics
    (events (generate_class sample_day container_decimal_leaf "d" "p" "s" "/"
                            "ns" "Mp" (sample_ctx false false) true)) = [] /\
  diagnostics
    (events (generate_classes sample_day container_decimal_leaf "d" "p" "s"
                              (sample_ctx false false))) = [].
Proof.
  apply (class_generator_diagnostics sample_day container_decimal_leaf "d" "p"
           "s" "/" "ns" "Mp" (sample_ctx false false) true).
  reflexivity.
Defined.

(** ** The files of the class generator *)

Lemma writes_nil {A : Type} (m : M A) : only no_file m -> writes m [].
Proof.
  intros H. exists []. rewrite (only_written m H). now split.
Qed.

Lemma writes_bind {A B : Type} (m : M A) (k : A -> M B) (l1 l2 : list string) :
  writes m l1 -> (forall a, writes (k a) l2) ->
  writes (bind m k) (l1 ++ l2)%list.
Proof.
  unfold writes.
  destruct m as [evs [a | e]]; intros (r1 & -> & H1) Hk.
  - destruct (Hk a) as (r2 & -> & H2). rewrite (H1 a eq_refl), app_nil_r.
    unfold bind. destruct (k a) as [evs' r]. cbn [events outcome fst snd] in *.
    exists r2. rewrite written_app, app_assoc. split; [reflexivity | exact H2].
  - cbn [bind events outcome fst snd] in *. exists (r1 ++ l2)%list.
    rewrite app_assoc. split; [reflexivity | intros a Ha; discriminate Ha].
Qed.

Lemma writes_for_loop {A B : Type} (l : list B) (body : A -> B -> M A)
  (f : B -> list string) :
  (forall s x, In x l -> writes (body s x) (f x)) ->
  forall s, writes (for_loop l body s) (flat_map f l).
Proof.
  induction l as [| x l IH]; intros H s.
  - exists []. now split.
  - rewrite for_loop_cons. cbn [flat_map]. apply writes_bind.
    + apply H. now left.
    + intros s'. apply IH. intros s0 y Hy. apply H. now right.
Qed.

Lemma writes_write_file (p c : string) : writes (write_file p c) [p].
Proof.
  exists []. now split.
Qed.

Lemma writes_fault {A : Type} (e : PyExn) (l : list string) :
  writes (A := A) ([], Raise e) l.
Proof.
  exists l. split; [reflexivity | intros a Ha; discriminate Ha].
Qed.

Lemma no_file_stdout (t : string) : no_file (Stdout t) = true.
Proof.
  reflexivity.
Qed.

Lemma no_file_stderr (ctx : Context) :
  debug (opts ctx) || verbose (opts ctx) = true ->
  forall t, no_file (Stderr t) = true.
Proof.
  reflexivity.
Qed.

Lemma writes_generate_class (time : Date)
  (directory package src ns prefix_name : string) (ctx : Context)
  (stmt : Statement) :
  forall path top_level,
    writes (generate_class time stmt directory package src path ns
                           prefix_name ctx top_level)
           (class_files directory stmt).
Proof.
  induction stmt as [kw a subs IH] using Statement_tree_ind.
  intros path top_level. rewrite generate_class_eq.
  cbn [class_files]. unfold class_file.
  destruct (extract_names (arg (Stmt kw a subs))) as [filename name].
  cbn [fst]. apply writes_bind.
  - apply writes_for_loop. intros acc sub Hin. rewrite generate_member_sub.
    rewrite <- (app_nil_r (if is_container sub false then _ else _)).
    apply writes_bind.
    + destruct (is_container sub false);
        [| apply writes_nil, only_nil; reflexivity].
      rewrite Forall_forall in IH. apply (IH sub Hin).
    + intros _. apply writes_nil.
      apply only_generate_member;
        [exact no_file_stdout | exact (no_file_stderr ctx)].
  - intros acc.
    set (file := directory ++ "/" ++ filename).
    change [file] with (@nil string ++ (@nil string ++ [file]))%list.
    apply writes_bind.
    + apply writes_nil. destruct (verbose (opts ctx)); reflexivity.
    + intros _. cbv zeta. apply writes_bind.
      * apply writes_nil.
        apply only_generate_constructors. exact (no_file_stderr ctx).
      * intros [constructors cloners]. apply writes_write_file.
Qed.

(** X13: the files of [generate_class].  A completed generation of the
    class of a statement has written the class files of the containers
    and lists below it, each after those below itself and in the order
    of the substatements, and the file of the statement last; all of
    them in the one directory, named after the argument of their
    statement alone.  A generation that faults has written the first of
    these files and no other. *)
Theorem generate_class_files (time : Date) (stmt : Statement)
  (directory package src path ns prefix_name : string) (ctx : Context)
  (top_level : bool) :
  (forall u,
     outcome (generate_class time stmt directory package src path ns
                             prefix_name ctx top_level) = Ok u ->
     written (events (generate_class time stmt directory package src path ns
                                     prefix_name ctx top_level))
       = class_files directory stmt) /\
  (exists rest,
     class_files directory stmt =
     (written (events (generate_class time stmt directory package src path ns
                                      prefix_name ctx top_level)) ++ rest)%list).
Proof.
  destruct (writes_generate_class time directory package src ns prefix_name
              ctx stmt path top_level) as (rest & H & Hok).
  split.
  - intros u Hu. rewrite H, (Hok u Hu). now rewrite app_nil_r.
  - now exists rest.
Qed.

(** Two statements of the same name at different places of the tree
    have the same class file: the second class replaces the first. *)
Example same_name_same_file :
  class_files "d" (Stmt "container" "a"
                        [Stmt "container" "b" [Stmt "list" "a" []]])
  = ["d/A.java"; "d/B.java"; "d/A.java"].
Proof.
  reflexivity.
Qed.

Lemma writes_generate_classes (time : Date) (module : Statement)
  (directory package src : string) (ctx : Context) (prefix : Statement) :
  root_prefix module = Some prefix ->
  writes (generate_classes time module directory package src ctx)
         (classes_files directory (substmts module) ++
          [class_file directory prefix])%list.
Proof.
  unfold root_prefix, generate_classes. intros Hp.
  set (files := (classes_files _ _ ++ _)%list).
  assert (forall ns_arg,
    writes
      (prefix0 <- local (Some (Some prefix)) ;;
       prefix0 <- deref prefix0 ;;
       (let '(filename, name) := extract_names (arg prefix0) in
        for_loop (substmts module)
          (fun _ stmt =>
             if String.eqb (keyword stmt) "container" ||
                String.eqb (keyword stmt) "list"
             then
               ns_arg <- local ns_arg ;;
               generate_class time stmt directory package src "" ns_arg name
                              ctx true
             else ret tt)
          tt ;;
        when (verbose (opts ctx))
          (print ("Generating Java class " ++ dq ++ filename ++ dq ++ "...")) ;;
        ns_arg <- local ns_arg ;;
        write_file (directory ++ "/" ++ filename)
          (java_class time filename package
             ["com.tailf.confm.*"; "com.tailf.inm.*"; "java.util.Hashtable"]
             ("The root class for namespace " ++ ns_arg ++
              " (accessible from " ++ nl ++ " * " ++ name ++
              ".NAMESPACE) with prefix " ++ dq ++
              arg prefix0 ++ dq ++ " (" ++ name ++ ".PREFIX).")
             (class_fields ns_arg (arg prefix0) ++
              enable name ++ register_schema name)
             "1.0" "" src))) files) as Hrest.
  { intros ns_arg. cbn [local]. rewrite bind_ret. cbn [deref].
    rewrite bind_ret.
    unfold files, class_file, classes_files.
    destruct (extract_names (arg prefix)) as [filename name]. cbn [fst].
    apply writes_bind.
    - apply writes_for_loop. intros [] stmt _.
      unfold is_container. cbn [negb andb].
      destruct (_ || _); [| apply writes_nil, only_nil; reflexivity].
      rewrite <- (app_nil_l (class_files directory stmt)).
      apply writes_bind; [apply writes_nil, only_local |].
      intros ns. apply writes_generate_class.
    - intros _.
      set (file := directory ++ "/" ++ filename).
      change [file] with (@nil string ++ (@nil string ++ [file]))%list.
      apply writes_bind.
      + apply writes_nil. destruct (verbose (opts ctx)); reflexivity.
      + intros _. apply writes_bind; [apply writes_nil, only_local |].
        intros ns. apply writes_write_file. }
  destruct (String.eqb (keyword module) "module").
  - destruct (search_one module "namespace" None) as [ns |];
      [| discriminate Hp].
    cbn [deref]. rewrite bind_ret. cbv zeta. rewrite bind_ret. cbv beta iota.
    rewrite Hp. apply Hrest.
  - destruct (String.eqb (keyword module) "submodule"); [| discriminate Hp].
    cbv zeta.
    destruct (search_one module "belongs-to" None) as [pm |];
      [| discriminate Hp].
    cbn [deref]. rewrite bind_ret. rewrite Hp. cbn [deref].
    rewrite !bind_ret. cbv beta iota. apply Hrest.
Qed.

Lemma generate_classes_without_prefix (time : Date) (module : Statement)
  (directory package src : string) (ctx : Context) :
  root_prefix module = None ->
  exists e,
    generate_classes time module directory package src ctx = ([], Raise e).
Proof.
  unfold root_prefix, generate_classes.
  destruct (String.eqb (keyword module) "module").
  - destruct (search_one module "namespace" None) as [ns |];
      [| intros _; now eexists].
    intros ->. cbn [deref]. rewrite bind_ret. now eexists.
  - destruct (String.eqb (keyword module) "submodule");
      [| intros _; now eexists].
    cbv zeta.
    destruct (search_one module "belongs-to" None) as [pm |];
      [| intros _; now eexists].
    intros Hn. cbn [deref]. rewrite bind_ret. rewrite Hn. now eexists.
Qed.

(** X14: the files of [generate_classes].  The root class is named after
    the prefix statement of the module or, for a submodule, of its
    [belongs-to] statement.  When there is one (and, for a module, a
    namespace), a completed generation has written the class files of
    the top-level containers and lists in their order and then the root
    class, and one that faults has written the first of these files;
    when there is none, the generation faults at once and writes and
    prints nothing. *)
Theorem generate_classes_files (time : Date) (module : Statement)
  (directory package src : string) (ctx : Context) :
  (forall prefix,
     root_prefix module = Some prefix ->
     (outcome (generate_classes time module directory package src ctx) = Ok tt ->
      written (events (generate_classes time module directory package src ctx))
        = (classes_files directory (substmts module) ++
           [class_file directory prefix])%list) /\
     (exists rest,
        (classes_files directory (substmts module) ++
         [class_file directory prefix])%list =
        (written (events (generate_classes time module directory package src
                                           ctx)) ++ rest)%list)) /\
  (root_prefix module = None ->
   exists e,
     generate_classes time module directory package src ctx = ([], Raise e)).
Proof.
  split.
  - intros prefix Hp.
    destruct (writes_generate_classes time module directory package src ctx
                prefix Hp) as (rest & H & Hok).
    split.
    + intros Hu. rewrite H, (Hok tt Hu). now rewrite app_nil_r.
    + now exists rest.
  - apply generate_classes_without_prefix.
Qed.

(** ** The schema file *)

Lemma schema_node_run (stmt : Statement) (parent : option Statement)
  (tagpath ns : string) (ctx : Context) :
  exists evs record,
    schema_node stmt parent tagpath ns ctx = (evs, Ok record) /\
    forallb is_stdout evs = true.
Proof.
  unfold schema_node.
  destruct (verbose (opts ctx)); cbn [when print ret bind];
    destruct (schema_occurs stmt parent); now eexists _, _.
Qed.

Lemma schema_nodes_run (ctx : Context) (ns : string) (owner : Statement) :
  forall tagpath,
  exists evs text,
    schema_nodes owner tagpath ns ctx = (evs, Ok text) /\
    forallb is_stdout evs = true.
Proof.
  induction owner as [kw a subs IH] using Statement_tree_ind.
  intros tagpath. cbn [schema_nodes].
  remember (Stmt kw a subs) as owner eqn:Ho. clear Ho.
  match goal with
  | |- exists evs text, ?loop subs _ = _ /\ _ =>
      assert (forall res, exists evs text,
                loop subs res = (evs, Ok text) /\
                forallb is_stdout evs = true) as Hloop; [| apply Hloop]
  end.
  induction subs as [| stmt rest IHr]; intros res.
  - now exists [], res.
  - inversion IH as [| s l Hs Hl]; subst s l.
    destruct (in_schema stmt).
    + destruct (schema_node_run stmt (Some owner) (tagpath ++ arg stmt ++ "/")
                                ns ctx) as (e1 & node & H1 & F1).
      destruct (Hs (tagpath ++ arg stmt ++ "/")) as (e2 & below & H2 & F2).
      destruct (IHr Hl (res ++ "<node>" ++ nl ++ indent node 1 ++
                        nl ++ "</node>" ++ below)) as (e3 & text & H3 & F3).
      exists (e1 ++ e2 ++ e3)%list, text. split.
      * eapply bind_run; [exact H1 |]. eapply bind_run; [exact H2 | exact H3].
      * now rewrite !forallb_app, F1, F2, F3.
    + apply (IHr Hl).
Qed.

Lemma stdout_no_diagnostics (evs : list Event) :
  forallb is_stdout evs = true -> diagnostics evs = [] /\ written evs = [].
Proof.
  induction evs as [| e evs IH]; [now split |].
  cbn [forallb]. intros H. apply andb_true_iff in H as [He H].
  destruct (IH H) as [Hd Hw].
  destruct e; try discriminate He. cbn. now split.
Qed.

Lemma emit_schema_faults (cwd : string) (ctx : Context) (module : Statement) :
  search_one module "namespace" None = None \/
  search_one module "prefix" None = None ->
  emit_schema cwd ctx module = ([], Raise AttributeError).
Proof.
  unfold emit_schema. intros [H | H].
  - now rewrite H.
  - destruct (search_one module "namespace" None) as [ns |]; [| reflexivity].
    now rewrite H.
Qed.

Lemma emit_schema_run (cwd : string) (ctx : Context) (module : Statement)
  (ns prefix : Statement) :
  search_one module "namespace" None = Some ns ->
  search_one module "prefix" None = Some prefix ->
  exists evs,
    emit_schema cwd ctx module = (evs, Ok tt) /\
    written evs = [schema_file cwd prefix] /\
    diagnostics evs = [].
Proof.
  unfold emit_schema. intros -> ->. cbn [deref]. rewrite !bind_ret. cbv zeta.
  destruct (schema_node_run module None "/" (arg ns) ctx)
    as (e1 & node & H1 & F1).
  destruct (schema_nodes_run ctx (arg ns) module "/")
    as (e2 & nodes & H2 & F2).
  rewrite H1, (bind_ok _ _ e1 node eq_refl).
  rewrite H2, (bind_ok _ _ e2 nodes eq_refl).
  destruct (stdout_no_diagnostics e1 F1) as [D1 W1].
  destruct (stdout_no_diagnostics e2 F2) as [D2 W2].
  unfold schema_file, diagnostics in *.
  destruct (debug (opts ctx) || verbose (opts ctx));
    cbn [write_file when print ret bind events outcome fst snd app];
    eexists; (split; [reflexivity |]);
    rewrite !written_app, !filter_app, D1, D2, W1, W2; now split.
Qed.

(** X15: the schema file of a module.  For a statement with a namespace
    and a prefix statement the schema generation always completes, writes
    the one file named after the capitalised prefix, and prints no
    diagnostic; for a statement without one of them it faults with an
    [AttributeError] before anything is written or printed. *)
Theorem emit_schema_file (cwd : string) (ctx : Context) (module : Statement) :
  (forall ns prefix,
     search_one module "namespace" None = Some ns ->
     search_one module "prefix" None = Some prefix ->
     outcome (emit_schema cwd ctx module) = Ok tt /\
     written (events (emit_schema cwd ctx module)) = [schema_file cwd prefix] /\
     diagnostics (events (emit_schema cwd ctx module)) = []) /\
  (search_one module "namespace" None = None \/
   search_one module "prefix" None = None ->
   emit_schema cwd ctx module = ([], Raise AttributeError)).
Proof.
  split.
  - intros ns prefix Hns Hp.
    destruct (emit_schema_run cwd ctx module ns prefix Hns Hp)
      as (evs & -> & W & D).
    split; [reflexivity |]. split; [exact W | exact D].
  - apply emit_schema_faults.
Qed.

(** ** The loop over the top-level statements *)

Lemma for_loop_app {A S : Type} (l1 l2 : list A) (body : S -> A -> M S) (s : S) :
  for_loop (l1 ++ l2) body s =
  bind (for_loop l1 body s) (fun s' => for_loop l2 body s').
Proof.
  revert s. induction l1 as [| x l1 IH]; intros s.
  - cbn [app for_loop]. now rewrite bind_ret.
  - cbn [app]. rewrite !for_loop_cons.
    destruct (body s x) as [evs [s1 | e]]; [| reflexivity].
    rewrite !(bind_ok _ _ evs s1 eq_refl), IH.
    destruct (for_loop l1 body s1) as [evs1 [s2 | e]]; [| reflexivity].
    rewrite (bind_ok _ _ evs1 s2 eq_refl).
    cbn [events outcome fst snd].
    rewrite (bind_ok _ _ (evs ++ evs1)%list s2 eq_refl).
    now rewrite app_assoc.
Qed.

(** X16: the loop of [emit] ends at the first top-level statement that
    is neither a module nor a submodule: after the statements before it
    have been compiled, the error that names its keyword is printed and
    an [EmitError] with exit code 1 is raised; what the statements before
    it wrote and printed stays, and the statements after it are not
    looked at. *)
Theorem emit_modules_unrecognized (time : Date)
  (get_latest_revision : Statement -> string) (cwd : string) (ctx : Context)
  (before after : list Statement) (module : Statement) (evs : list Event) :
  emit_modules time get_latest_revision cwd ctx before = (evs, Ok tt) ->
  is_module module = false ->
  emit_modules time get_latest_revision cwd ctx (before ++ module :: after) =
  ((evs ++ [Stderr (unrecognized_keyword module)])%list, Raise (EmitError 1)).
Proof.
  unfold emit_modules. intros Hb Hm.
  assert (emit_module time get_latest_revision cwd ctx module =
          ([Stderr (unrecognized_keyword module)], Raise (EmitError 1))) as He.
  { unfold emit_module. unfold is_module in Hm. now rewrite Hm. }
  rewrite for_loop_app, Hb, (bind_ok _ _ evs tt eq_refl), for_loop_cons, He.
  reflexivity.
Qed.

Lemma emit_modules_unrecognized_witness :
  emit_modules sample_day (fun _ => "r") "w" (sample_ctx false false)
               ([] ++ Stmt "container" "c" [] :: [sample_submodule]) =
  (([] ++ [Stderr (unrecognized_keyword (Stmt "container" "c" []))])%list,
   Raise (EmitError 1)).
Proof.
  apply (emit_modules_unrecognized sample_day (fun _ => "r") "w"
           (sample_ctx false false) [] [sample_submodule]
           (Stmt "container" "c" []) []); reflexivity.
Defined.

(** ** The class hierarchy *)

Lemma generate_javadoc_eq (kw a : string) (subs : list Statement)
  (java_files : list string) (hierarchy : list Entry) :
  javadoc_entry java_files hierarchy (Stmt kw a subs) =
  (let '(filename, name) := extract_names a in
   if existsb (String.eqb filename) java_files then
     let '(java_files, children) :=
       generate_javadoc subs (remove_first filename java_files) in
     (java_files,
      match children with
      | _ :: _ => list_append (list_append hierarchy (File filename))
                              (Below children)
      | [] => list_append hierarchy (File filename)
      end)
   else (java_files, hierarchy)).
Proof.
  cbn [javadoc_entry arg]. unfold generate_javadoc.
  destruct (extract_names a) as [filename name].
  destruct (existsb (String.eqb filename) java_files); [| reflexivity].
  generalize (remove_first filename java_files, @nil Entry).
  induction subs as [| stmt rest IH]; intros state; [reflexivity |].
  cbn [fold_left]. apply IH.
Qed.

Lemma remove_first_perm (x : string) (l : list string) :
  existsb (String.eqb x) l = true -> Permutation (x :: remove_first x l) l.
Proof.
  induction l as [| y l IH]; [discriminate |].
  cbn [existsb remove_first]. rewrite (String.eqb_sym y x).
  destruct (String.eqb x y) eqn:E.
  - intros _. apply String.eqb_eq in E. now subst y.
  - cbn [orb]. intros H. rewrite perm_swap. now rewrite (IH H).
Qed.

Lemma hierarchy_files_app (h1 h2 : list Entry) :
  hierarchy_files (h1 ++ h2) = (hierarchy_files h1 ++ hierarchy_files h2)%list.
Proof.
  apply flat_map_app.
Qed.

Lemma javadoc_entry_keeps (stmt : Statement) :
  forall java_files hierarchy,
    Permutation
      (hierarchy_files (snd (javadoc_entry java_files hierarchy stmt)) ++
       fst (javadoc_entry java_files hierarchy stmt))
      (hierarchy_files hierarchy ++ java_files).
Proof.
  induction stmt as [kw a subs IH] using Statement_tree_ind.
  intros java_files hierarchy. rewrite generate_javadoc_eq.
  destruct (extract_names a) as [filename name].
  destruct (existsb (String.eqb filename) java_files) eqn:E; [| reflexivity].
  assert (forall state,
            Permutation
              (hierarchy_files
                 (snd (fold_left (fun state stmt =>
                                    javadoc_entry (fst state) (snd state) stmt)
                                 subs state)) ++
               fst (fold_left (fun state stmt =>
                                 javadoc_entry (fst state) (snd state) stmt)
                              subs state))
              (hierarchy_files (snd state) ++ fst state)) as Hsubs.
  { induction subs as [| sub rest IHr]; intros state; [reflexivity |].
    inversion IH as [| s l Hs Hl]; subst s l. cbn [fold_left].
    rewrite (IHr Hl). apply Hs. }
  specialize (Hsubs (remove_first filename java_files, [])).
  unfold generate_javadoc.
  destruct (fold_left _ subs _) as [files children].
  cbn [fst snd hierarchy_files flat_map app] in Hsubs.
  rewrite <- (remove_first_perm filename java_files E).
  rewrite <- Hsubs. unfold list_append.
  destruct children as [| c children]; cbn [fst snd].
  - rewrite hierarchy_files_app. cbn. rewrite <- app_assoc. reflexivity.
  - rewrite !hierarchy_files_app. cbn [hierarchy_files flat_map entry_files].
    rewrite !app_nil_r, <- !app_assoc. cbn [app].
    apply Permutation_app_head.
    change (filename :: ?l) with ([filename] ++ l)%list.
    reflexivity.
Qed.

(** X17: [generate_javadoc] only moves file names: the names in the
    hierarchy it returns, taken at every depth, together with the names
    it leaves in [java_files], are the names [java_files] had, each as
    often as there.  So the hierarchy lists no file that was not
    generated, and none more often than the directory listing has it. *)
Theorem generate_javadoc_keeps_files (stmts : list Statement)
  (java_files : list string) :
  Permutation
    (hierarchy_files (snd (generate_javadoc stmts java_files)) ++
     fst (generate_javadoc stmts java_files))
    java_files.
Proof.
  unfold generate_javadoc.
  change java_files
    with (hierarchy_files (snd (java_files, @nil Entry)) ++
          fst (java_files, @nil Entry))%list at 3.
  generalize (java_files, @nil Entry).
  induction stmts as [| stmt rest IH]; intros state; [reflexivity |].
  cbn [fold_left]. rewrite IH. apply javadoc_entry_keeps.
Qed.

(** X18: a statement whose class file is not in the listing is passed
    over with everything below it.  The top-level statements are the
    modules, whose class is named after the prefix: when no file has the
    name of a module, the hierarchy is empty, whatever was generated. *)
Theorem generate_javadoc_skips (stmts : list Statement)
  (java_files : list string) :
  (forall stmt, In stmt stmts ->
     In (fst (extract_names (arg stmt))) java_files -> False) ->
  generate_javadoc stmts java_files = (java_files, []).
Proof.
  unfold generate_javadoc. generalize (@nil Entry).
  induction stmts as [| stmt rest IH]; intros hierarchy H; [reflexivity |].
  cbn [fold_left fst snd].
  destruct stmt as [kw a subs]. rewrite generate_javadoc_eq.
  destruct (extract_names a) as [filename name] eqn:En.
  destruct (existsb (String.eqb filename) java_files) eqn:E.
  - exfalso. apply existsb_exists in E as (f & Hin & Hf).
    apply String.eqb_eq in Hf. subst f.
    apply (H (Stmt kw a subs)); [now left |].
    cbn [arg]. now rewrite En.
  - apply IH. intros s Hs. apply H. now right.
Qed.

Lemma generate_javadoc_skips_witness :
  generate_javadoc [Stmt "module" "router" [Stmt "container" "c" []]]
                   ["Rt.java"; "C.java"]
  = (["Rt.java"; "C.java"], []).
Proof.
  apply generate_javadoc_skips.
  intros stmt [<- | []] [H | [H | []]]; discriminate H.
Defined.

(** ** A turn of the loop of [emit] *)

(** The schema part of a turn: what it writes and prints. *)
Lemma emit_schema_part (cwd : string) (ctx : Context) (module : Statement) :
  let part := if negb (no_schema (opts ctx)) then emit_schema cwd ctx module
              else ret tt in
  diagnostics (events part) = [] /\
  (outcome part = Ok tt -> written (events part) = schema_files cwd ctx module) /\
  (outcome part <> Ok tt -> part = ([], Raise AttributeError)).
Proof.
  unfold schema_files. destruct (no_schema (opts ctx)); cbn [negb].
  - split; [reflexivity |]. split; [reflexivity |]. intros H. now elim H.
  - destruct (search_one module "namespace" None) as [ns |] eqn:Hns.
    + destruct (search_one module "prefix" None) as [p |] eqn:Hp.
      * destruct (emit_schema_run cwd ctx module ns p Hns Hp)
          as (evs & -> & W & D).
        split; [exact D |]. split; [intros _; exact W |].
        intros H. now elim H.
      * rewrite (emit_schema_faults cwd ctx module (or_intror Hp)).
        split; [reflexivity |]. split; [intros H; discriminate H |].
        reflexivity.
    + rewrite (emit_schema_faults cwd ctx module (or_introl Hns)).
      split; [reflexivity |]. split; [intros H; discriminate H |].
      reflexivity.
Qed.

Lemma generate_classes_quiet (time : Date) (module : Statement)
  (directory package src : string) (ctx : Context) :
  debug (opts ctx) || verbose (opts ctx) = false ->
  diagnostics (events (generate_classes time module directory package src ctx))
    = [].
Proof.
  intros Hf. apply only_diagnostics, only_generate_classes;
    try reflexivity; intros F; rewrite Hf in F; discriminate F.
Qed.

(** A turn of the loop on a module or submodule, by its two parts. *)
Lemma emit_module_parts (time : Date)
  (get_latest_revision : Statement -> string) (cwd : string) (ctx : Context)
  (module : Statement) (schema classes : M unit) :
  is_module module = true ->
  schema = (if negb (no_schema (opts ctx)) then emit_schema cwd ctx module
            else ret tt) ->
  classes = generate_classes time module cwd (directory (opts ctx))
                             (module_src get_latest_revision module) ctx ->
  emit_module time get_latest_revision cwd ctx module =
  (schema ;; classes ;;
   when (String.eqb (keyword module) "submodule")
     (print_err submodule_warning) ;;
   when (debug (opts ctx) || verbose (opts ctx))
     (print "Java classes generation COMPLETE.")).
Proof.
  unfold is_module, emit_module. intros -> -> ->. reflexivity.
Qed.

(** X19: the diagnostics of a turn of the loop of [emit] without [debug]
    and [verbose].  A statement that is neither a module nor a submodule
    gives the one error that names its keyword; a submodule gives the one
    warning, and only when its schema and its classes were generated; a
    module gives none.  Nothing else is ever printed to the standard
    error. *)
Theorem emit_module_diagnostics (time : Date)
  (get_latest_revision : Statement -> string) (cwd : string) (ctx : Context)
  (module : Statement) :
  debug (opts ctx) || verbose (opts ctx) = false ->
  diagnostics (events (emit_module time get_latest_revision cwd ctx module)) =
  if negb (is_module module) then [Stderr (unrecognized_keyword module)]
  else if String.eqb (keyword module) "submodule" &&
          completes (emit_module time get_latest_revision cwd ctx module)
       then [Stderr submodule_warning]
       else [].
Proof.
  intros Hf. destruct (is_module module) eqn:Hm; cbn [negb].
  - rewrite (emit_module_parts time get_latest_revision cwd ctx module _ _ Hm
               eq_refl eq_refl).
    destruct (emit_schema_part cwd ctx module) as (DS & _ & _).
    pose proof (generate_classes_quiet time module cwd (directory (opts ctx))
                  (module_src get_latest_revision module) ctx Hf) as DG.
    cbv zeta in DS. rewrite Hf.
    set (S := if negb (no_schema (opts ctx)) then _ else _) in *.
    set (G := generate_classes _ _ _ _ _ _) in *.
    destruct S as [eS [[] | e]]; cbn [events fst] in DS;
      [| rewrite andb_false_r; exact DS].
    rewrite (bind_ok _ _ eS tt eq_refl).
    destruct G as [eG [[] | e]]; cbn [events fst] in DG.
    + rewrite (bind_ok _ _ eG tt eq_refl).
      destruct (String.eqb (keyword module) "submodule");
        cbn [when print_err print ret bind events outcome completes fst snd
             app andb];
        unfold diagnostics in *; rewrite !filter_app, DS, DG; reflexivity.
    + rewrite andb_false_r. cbn [bind events outcome fst snd].
      unfold diagnostics in *. now rewrite filter_app, DS, DG.
  - unfold emit_module. unfold is_module in Hm. now rewrite Hm.
Qed.

Lemma emit_module_diagnostics_witness :
  diagnostics (events (emit_module sample_day (fun _ => "r") "w"
                                   (sample_ctx false true) sample_submodule)) =
  [Stderr submodule_warning].
Proof.
  apply (emit_module_diagnostics sample_day (fun _ => "r") "w"
           (sample_ctx false true) sample_submodule).
  reflexivity.
Defined.

(** X20: the files of a turn of the loop of [emit].  A turn that
    completes on a module or submodule has written, all into the working
    directory: the schema file unless [no_schema] is set, then the class
    files of the top-level containers and lists, each after the classes
    below it, then the root class named after the prefix. *)
Theorem emit_module_files (time : Date)
  (get_latest_revision : Statement -> string) (cwd : string) (ctx : Context)
  (module : Statement) :
  is_module module = true ->
  outcome (emit_module time get_latest_revision cwd ctx module) = Ok tt ->
  exists root,
    root_prefix module = Some root /\
    written (events (emit_module time get_latest_revision cwd ctx module)) =
    (schema_files cwd ctx module ++
     classes_files cwd (substmts module) ++ [class_file cwd root])%list.
Proof.
  intros Hm.
  rewrite (emit_module_parts time get_latest_revision cwd ctx module _ _ Hm
             eq_refl eq_refl).
  destruct (emit_schema_part cwd ctx module) as (_ & WS & _).
  cbv zeta in WS.
  set (S := if negb (no_schema (opts ctx)) then _ else _) in *.
  destruct (root_prefix module) as [root |] eqn:Hr.
  - destruct (writes_generate_classes time module cwd (directory (opts ctx))
                (module_src get_latest_revision module) ctx root Hr)
      as (rest & WG & Hok).
    set (G := generate_classes _ _ _ _ _ _) in *.
    destruct S as [eS [[] | e]]; [| intros H; discriminate H].
    rewrite (bind_ok _ _ eS tt eq_refl).
    destruct G as [eG [[] | e]]; [| intros H; discriminate H].
    rewrite (bind_ok _ _ eG tt eq_refl). intros _. exists root.
    split; [reflexivity |].
    cbn [events outcome fst snd] in *.
    rewrite (Hok tt eq_refl), app_nil_r in WG.
    rewrite !written_app, (WS eq_refl), <- WG.
    destruct (String.eqb (keyword module) "submodule");
      destruct (debug (opts ctx) || verbose (opts ctx));
      cbn [when print_err print ret bind events fst written flat_map app];
      now rewrite ?app_nil_r.
  - destruct (generate_classes_without_prefix time module cwd
                (directory (opts ctx)) (module_src get_latest_revision module)
                ctx Hr) as [e ->].
    destruct S as [eS [[] | e']]; intros H; discriminate H.
Qed.

Lemma emit_module_files_witness :
  exists root,
    root_prefix sample_module = Some root /\
    written (events (emit_module sample_day (fun _ => "r") "w"
                                 (sample_ctx false false) sample_module)) =
    (schema_files "w" (sample_ctx false false) sample_module ++
     classes_files "w" (substmts sample_module) ++ [class_file "w" root])%list.
Proof.
  apply (emit_module_files sample_day (fun _ => "r") "w"
           (sample_ctx false false) sample_module); reflexivity.
Defined.

(** The files of the sample module. *)
Example sample_module_files :
  written (events (emit_module sample_day (fun _ => "r") "w"
                               (sample_ctx false false) sample_module)) =
  ["w/Mp.schema"; "w/L.java"; "w/C.java"; "w/Mp.java"].
Proof.
  reflexivity.
Qed.

(** X21: with the schema generation on, a turn of the loop of [emit] on
    a module or submodule without a namespace statement or without a
    prefix statement of its own (as a submodule is, whose prefix is in
    its [belongs-to] statement) faults with an [AttributeError] before
    anything is written or printed: no class is generated and the warning
    for a submodule is not reached. *)
Theorem emit_module_without_namespace (time : Date)
  (get_latest_revision : Statement -> string) (cwd : string) (ctx : Context)
  (module : Statement) :
  is_module module = true ->
  no_schema (opts ctx) = false ->
  search_one module "namespace" None = None \/
  search_one module "prefix" None = None ->
  emit_module time get_latest_revision cwd ctx module =
  ([], Raise AttributeError).
Proof.
  intros Hm Hs H.
  rewrite (emit_module_parts time get_latest_revision cwd ctx module _ _ Hm
             eq_refl eq_refl).
  rewrite Hs. cbn [negb].
  now rewrite (emit_schema_faults cwd ctx module H).
Qed.

Lemma emit_module_without_namespace_witness :
  emit_module sample_day (fun _ => "r") "w" (sample_ctx true false)
              sample_submodule = ([], Raise AttributeError).
Proof.
  apply emit_module_without_namespace; [reflexivity | reflexivity |].
  left. reflexivity.
Defined.

(* ================================================================= *)
(** * Constructors, accessors, submodules and the package description *)

(** ** The constructors of a list class *)

(** The text of a constructor, from its local variables. *)
Lemma constructor_text (stmt : Statement) (ctx : Context) (root : string)
  (set_prefix : bool) (mode : Z) (args : KeyList) (throws : string)
  (v : ConstructorLocals) :
  outcome (constructor_locals stmt ctx root set_prefix mode args) = Ok v ->
  outcome (constructor stmt ctx root set_prefix mode args throws) =
  Ok (java_constructor (capitalize (arg stmt)) (c_obj_status v) (c_docstring v)
                       (c_arguments v) throws (c_root v) (arg stmt)
                       (c_inserts v ++ c_setters v)).
Proof.
  intros Hv. unfold constructor. cbv zeta. rewrite outcome_bind, Hv.
  cbn [ret outcome snd]. unfold java_constructor.
  rewrite (append_assoc (c_inserts v)). reflexivity.
Qed.

Lemma constructor_locals_root (stmt : Statement) (ctx : Context)
  (root : string) (set_prefix : bool) (mode : Z) (args : KeyList)
  (v : ConstructorLocals) :
  outcome (constructor_locals stmt ctx root set_prefix mode args) = Ok v ->
  c_root v = class_root root stmt.
Proof.
  unfold constructor_locals, class_root. cbv zeta.
  destruct (_ || _).
  - cbn [ret outcome snd]. intros H. inversion H. reflexivity.
  - set (m := if (mode =? 1)%Z then _ else _).
    destruct m as [evs [[d vals] | e]]; [| intros H; discriminate H].
    rewrite (bind_ok _ _ evs (d, vals) eq_refl). cbv beta iota.
    destruct (fold_left _ _ _) as [[[i d'] mc] a].
    cbn [ret outcome snd]. intros H. inversion H. reflexivity.
Qed.

Lemma constructor_empty (stmt : Statement) (ctx : Context) (root : string)
  (set_prefix : bool) (args : KeyList) :
  exists text,
    outcome (constructor stmt ctx root set_prefix 0 args throws_inm) = Ok text /\
    empty_constructor stmt (class_root root stmt) text.
Proof.
  assert (exists s,
            constructor_locals stmt ctx root set_prefix 0 args =
            ([], Ok {| c_obj_status := "empty "; c_docstring := "";
                       c_inserts := ""; c_arguments := ""; c_setters := s;
                       c_root := class_root root stmt |})) as [s Hv].
  { unfold constructor_locals, class_root. rewrite orb_true_r. cbv zeta.
    eexists. reflexivity. }
  eexists. split.
  - apply constructor_text. rewrite Hv. reflexivity.
  - cbn [c_obj_status c_docstring c_inserts c_arguments c_setters c_root].
    now eexists.
Qed.

Lemma constructor_keyed (stmt : Statement) (ctx : Context) (root : string)
  (set_prefix : bool) (mode : Z) (args : KeyList) :
  args <> [] -> mode <> 0%Z ->
  exists text,
    outcome (constructor stmt ctx root set_prefix mode args throws_inm)
      = Ok text /\
    key_constructor stmt (class_root root stmt) mode args text.
Proof.
  intros Ha Hm.
  destruct (constructor_locals_keyed stmt ctx root set_prefix mode args Ha Hm)
    as (v & breaks & Hv & Hs & Hb & Hargs & Hne).
  eexists. split; [exact (constructor_text _ _ _ _ _ _ _ v Hv) |].
  exists breaks. do 2 eexists. fold (parameters mode breaks args) in Hargs.
  split; [exact Hb |]. split; [now rewrite <- Hargs |].
  now rewrite Hs, Hargs, (constructor_locals_root _ _ _ _ _ _ v Hv).
Qed.

Lemma truthy_b2z (b : bool) : truthy (Z.b2z b) = b.
Proof.
  now destruct b.
Qed.

(** [extract_keys] on a list whose key identifiers resolve. *)
Lemma extract_keys_of (stmt : Statement) (ctx : Context) :
  keys_resolve stmt = true ->
  exists key,
    search_one stmt "key" None = Some key /\
    key_identifiers stmt <> [] /\
    extract_keys stmt ctx =
    (key_warnings stmt ctx (key_identifiers stmt),
     Ok (key, Z.b2z (no_uint32_key stmt), confm_keys_of stmt,
         primitive_keys_of stmt)).
Proof.
  intros Hr. pose proof Hr as Hr'. unfold keys_resolve in Hr'.
  unfold confm_keys_of, primitive_keys_of, no_uint32_key, key_identifiers.
  destruct (search_one stmt "key" None) as [key |] eqn:Hk; [| discriminate].
  exists key. split; [reflexivity |]. split; [apply split_not_nil |].
  exact (extract_keys_run stmt ctx key Hk Hr).
Qed.

(** The constructors of the class of a list whose key identifiers
    resolve: the results of the calls, and the list of them. *)
Lemma list_class_constructors (stmt : Statement) (ctx : Context)
  (prefix_name name : string) (top_level : bool) :
  keyword stmt = "list" ->
  keys_resolve stmt = true ->
  exists c0 c1 c2 c3,
    empty_constructor stmt (class_root prefix_name stmt) c0 /\
    key_constructor stmt (class_root prefix_name stmt) 1 (confm_keys_of stmt) c1 /\
    key_constructor stmt (class_root prefix_name stmt) 2
                    (primitive_keys_of stmt) c2 /\
    key_constructor stmt (class_root prefix_name stmt) 3
                    (primitive_keys_of stmt) c3 /\
    outcome (generate_constructors stmt ctx prefix_name name top_level) =
      Ok (if no_uint32_key stmt then [c0; c1; c2] else [c0; c1; c2; c3],
          list_cloners stmt name).
Proof.
  intros Hk Hr.
  destruct (extract_keys_of stmt ctx Hr) as (key & Hkey & Hne & He).
  assert (confm_keys_of stmt <> []) as Hc.
  { unfold confm_keys_of. destruct (key_identifiers stmt); [congruence |].
    discriminate. }
  assert (primitive_keys_of stmt <> []) as Hp.
  { unfold primitive_keys_of. destruct (key_identifiers stmt); [congruence |].
    discriminate. }
  destruct (constructor_empty stmt ctx prefix_name top_level [])
    as (c0 & H0 & E0).
  destruct (constructor_keyed stmt ctx prefix_name top_level 1
              (confm_keys_of stmt) Hc) as (c1 & H1 & E1); [discriminate |].
  destruct (constructor_keyed stmt ctx prefix_name top_level 2
              (primitive_keys_of stmt) Hp) as (c2 & H2 & E2); [discriminate |].
  destruct (constructor_keyed stmt ctx prefix_name top_level 3
              (primitive_keys_of stmt) Hp) as (c3 & H3 & E3); [discriminate |].
  exists c0, c1, c2, c3.
  split; [exact E0 |]. split; [exact E1 |]. split; [exact E2 |].
  split; [exact E3 |].
  unfold generate_constructors. rewrite Hk.
  change (String.eqb "list" "container") with false.
  change (String.eqb "list" "list") with true. cbv iota.
  rewrite outcome_bind, He. cbn [outcome snd]. cbv beta iota.
  rewrite outcome_bind.
  change (nl ++ "        throws INMException") with throws_inm.
  rewrite H0, outcome_bind.
  match goal with
  | |- context [constructor stmt ctx prefix_name top_level 1 _ ?t] =>
      change t with throws_inm
  end.
  rewrite H1, outcome_bind, H2, outcome_bind, truthy_b2z.
  unfold list_cloners, key_identifiers. rewrite Hkey.
  destruct (no_uint32_key stmt); cbn [negb].
  - reflexivity.
  - rewrite outcome_bind, H3. reflexivity.
Qed.

(** The file that a completed [generate_class] writes last: the class of
    the statement, whose members are the constructors, the clone
    methods, and the other members in this order. *)
Lemma generate_class_written (time : Date) (stmt : Statement)
  (directory package src path ns prefix_name : string) (ctx : Context)
  (top_level : bool) :
  outcome (generate_class time stmt directory package src path ns prefix_name
                          ctx top_level) = Ok tt ->
  exists evs acc constructors cloners,
    outcome (class_members time stmt directory package src path ns
                           prefix_name ctx) = Ok acc /\
    outcome (generate_constructors stmt ctx prefix_name
               (snd (extract_names (arg stmt))) top_level)
      = Ok (constructors, cloners) /\
    events (generate_class time stmt directory package src path ns prefix_name
                           ctx top_level) =
    (evs ++ [WriteFile (class_file directory stmt)
               (class_text time stmt package src path ns
                  (join "" constructors ++ cloners ++
                   other_members stmt acc))])%list.
Proof.
  rewrite generate_class_eq.
  unfold class_file, class_text, other_members, support_methods, class_members.
  destruct (extract_names (arg stmt)) as [filename name]. cbn [fst snd].
  set (loop := for_loop _ _ _).
  destruct loop as [e1 [acc | e]]; [| intros H; discriminate H].
  rewrite (bind_ok _ _ e1 acc eq_refl).
  set (sup := match filter _ _ with _ :: _ => _ | [] => "" end).
  set (gc := generate_constructors stmt ctx prefix_name name top_level).
  destruct gc as [e2 [[cs cl] | e]] eqn:Hgc.
  - intros _.
    exists (e1 ++ (if verbose (opts ctx)
                   then [Stdout ("Generating Java class " ++ dq ++ filename ++
                                 dq ++ "...")]
                   else []) ++ e2)%list, acc, cs, cl.
    split; [reflexivity |]. split; [reflexivity |].
    cbn [events outcome fst snd]. rewrite <- !app_assoc. f_equal.
    destruct (verbose (opts ctx));
      cbn [when print ret bind write_file events outcome fst snd app];
      rewrite ?app_nil_r; rewrite <- ?app_assoc; reflexivity.
  - cbn [events outcome fst snd].
    destruct (verbose (opts ctx));
      cbn [when print ret bind events outcome fst snd app];
      intros H; discriminate H.
Qed.

Lemma no_uint32_key_iff (stmt : Statement) :
  (no_uint32_key stmt = true <->
   Forall (fun k => fst k = "String") (primitive_keys_of stmt)) /\
  (no_uint32_key stmt = true <->
   forall a, In a (key_identifiers stmt) ->
             key_leaf_type stmt a <> Some "uint32").
Proof.
  unfold no_uint32_key, primitive_keys_of.
  induction (key_identifiers stmt) as [| a l [IH1 IH2]].
  - split; split; intros _; [constructor | reflexivity | now intros a [] |
                             reflexivity].
  - cbn [forallb map]. rewrite andb_true_iff.
    assert (negb (String.eqb (leaf_type stmt a) "uint32") = true <->
            primitive_type (leaf_type stmt a) = "String") as Hp.
    { unfold primitive_type.
      destruct (String.eqb (leaf_type stmt a) "uint32"); cbn [negb];
        split; intros H; try reflexivity; discriminate H. }
    assert (negb (String.eqb (leaf_type stmt a) "uint32") = true <->
            key_leaf_type stmt a <> Some "uint32") as Hk.
    { unfold leaf_type. destruct (key_leaf_type stmt a) as [t |].
      - rewrite negb_true_iff, String.eqb_neq. split; intros H; congruence.
      - split; [discriminate | reflexivity]. }
    split; split.
    + intros [Ha Hl]. constructor; [now apply Hp | now apply IH1].
    + intros H. inversion H as [| k ks Ha Hl]; subst.
      split; [now apply Hp | now apply IH1].
    + intros [Ha Hl] b [<- | Hb]; [now apply Hk | now apply IH2].
    + intros H. split; [apply Hk, H; now left |].
      apply IH2. intros b Hb. apply H. now right.
Qed.

(** C4: for a list whose key identifiers all resolve, [extract_keys]
    returns the keys with the representations of their leaf types, and
    [only_strings] is true exactly when the primitive representation of
    every key is [String], that is when no key leaf has the type
    [uint32].  The class of the list gets three constructors when it is
    true, and four, the last one with primitive types, when it is false:
    each is the text of one Java constructor, and the members of the
    class in the file that a completed [generate_class] writes are these
    constructors in this order, then the clone methods, the names of the
    keys and of the children, the accessors and the support methods. *)
Theorem only_strings_and_constructor_count (time : Date) (stmt : Statement)
  (directory package src path ns prefix_name : string) (ctx : Context)
  (top_level : bool) :
  keyword stmt = "list" ->
  keys_resolve stmt = true ->
  exists key only c0 c1 c2 c3,
    search_one stmt "key" None = Some key /\
    outcome (extract_keys stmt ctx) =
      Ok (key, only, confm_keys_of stmt, primitive_keys_of stmt) /\
    (truthy only = true <->
     Forall (fun k => fst k = "String") (primitive_keys_of stmt)) /\
    (truthy only = true <->
     forall a, In a (key_identifiers stmt) ->
               key_leaf_type stmt a <> Some "uint32") /\
    empty_constructor stmt (class_root prefix_name stmt) c0 /\
    key_constructor stmt (class_root prefix_name stmt) 1 (confm_keys_of stmt) c1 /\
    key_constructor stmt (class_root prefix_name stmt) 2
                    (primitive_keys_of stmt) c2 /\
    key_constructor stmt (class_root prefix_name stmt) 3
                    (primitive_keys_of stmt) c3 /\
    outcome (generate_constructors stmt ctx prefix_name
               (snd (extract_names (arg stmt))) top_level) =
      Ok (if truthy only then [c0; c1; c2] else [c0; c1; c2; c3],
          list_cloners stmt (snd (extract_names (arg stmt)))) /\
    (outcome (generate_class time stmt directory package src path ns
                             prefix_name ctx top_level) = Ok tt ->
     exists evs acc,
       outcome (class_members time stmt directory package src path ns
                              prefix_name ctx) = Ok acc /\
       events (generate_class time stmt directory package src path ns
                              prefix_name ctx top_level) =
       (evs ++
        [WriteFile (class_file directory stmt)
           (class_text time stmt package src path ns
              ((if truthy only then c0 ++ c1 ++ c2 else c0 ++ c1 ++ c2 ++ c3) ++
               list_cloners stmt (snd (extract_names (arg stmt))) ++
               other_members stmt acc))])%list).
Proof.
  intros Hk Hr.
  destruct (extract_keys_of stmt ctx Hr) as (key & Hkey & _ & He).
  destruct (list_class_constructors stmt ctx prefix_name
              (snd (extract_names (arg stmt))) top_level Hk Hr)
    as (c0 & c1 & c2 & c3 & E0 & E1 & E2 & E3 & Hg).
  destruct (no_uint32_key_iff stmt) as [Hf Hu].
  exists key, (Z.b2z (no_uint32_key stmt)), c0, c1, c2, c3.
  rewrite truthy_b2z.
  split; [exact Hkey |]. split; [now rewrite He |].
  split; [exact Hf |]. split; [exact Hu |].
  split; [exact E0 |]. split; [exact E1 |]. split; [exact E2 |].
  split; [exact E3 |]. split; [exact Hg |].
  intros Hc.
  destruct (generate_class_written time stmt directory package src path ns
              prefix_name ctx top_level Hc)
    as (evs & acc & cs & cl & Hacc & Hg' & Hev).
  rewrite Hg in Hg'. inversion Hg' as [[Hcs Hcl]]. clear Hg'.
  subst cs cl. exists evs, acc. split; [exact Hacc |].
  rewrite Hev. clear Hev Hg He.
  destruct (no_uint32_key stmt); rewrite !join_empty_cons;
    cbn [join String.concat]; now rewrite !append_nil_r, !append_assoc.
Qed.

(** C5, as the code has it: the first constructor of the class of a
    list takes no argument.  It is followed by the constructors that
    take the keys in their wrapped form (mode 1) and as strings (mode
    2), and, when some key leaf has the type [uint32], by the one with
    primitive types (mode 3).  Each is the result of its call of
    [constructor] and is the text of one Java constructor; those of the
    modes 1, 2 and 3 declare one parameter for each identifier of the key
    argument, in order, of the type of its mode.  In the file that a
    completed [generate_class] writes these constructors are the first
    members of the class, in this order. *)
Theorem list_constructors (time : Date) (stmt : Statement)
  (directory package src path ns prefix_name name : string) (ctx : Context)
  (top_level : bool) :
  keyword stmt = "list" ->
  keys_resolve stmt = true ->
  exists c0 c1 c2 c3,
    outcome (generate_constructors stmt ctx prefix_name name top_level) =
      Ok (if no_uint32_key stmt then [c0; c1; c2] else [c0; c1; c2; c3],
          list_cloners stmt name) /\
    (no_uint32_key stmt = true <->
     forall a, In a (key_identifiers stmt) ->
               key_leaf_type stmt a <> Some "uint32") /\
    outcome (constructor stmt ctx prefix_name top_level 0 [] throws_inm)
      = Ok c0 /\
    outcome (constructor stmt ctx prefix_name top_level 1 (confm_keys_of stmt)
                         throws_inm) = Ok c1 /\
    outcome (constructor stmt ctx prefix_name top_level 2
                         (primitive_keys_of stmt) throws_inm) = Ok c2 /\
    outcome (constructor stmt ctx prefix_name top_level 3
                         (primitive_keys_of stmt) throws_inm) = Ok c3 /\
    empty_constructor stmt (class_root prefix_name stmt) c0 /\
    key_constructor stmt (class_root prefix_name stmt) 1 (confm_keys_of stmt) c1 /\
    key_constructor stmt (class_root prefix_name stmt) 2
                    (primitive_keys_of stmt) c2 /\
    key_constructor stmt (class_root prefix_name stmt) 3
                    (primitive_keys_of stmt) c3 /\
    key_identifiers stmt <> [] /\
    map snd (confm_keys_of stmt) = key_identifiers stmt /\
    map snd (primitive_keys_of stmt) = key_identifiers stmt /\
    (name = snd (extract_names (arg stmt)) ->
     outcome (generate_class time stmt directory package src path ns
                             prefix_name ctx top_level) = Ok tt ->
     exists evs acc,
       outcome (class_members time stmt directory package src path ns
                              prefix_name ctx) = Ok acc /\
       events (generate_class time stmt directory package src path ns
                              prefix_name ctx top_level) =
       (evs ++
        [WriteFile (class_file directory stmt)
           (class_text time stmt package src path ns
              ((if no_uint32_key stmt
                then c0 ++ c1 ++ c2 else c0 ++ c1 ++ c2 ++ c3) ++
               list_cloners stmt name ++ other_members stmt acc))])%list).
Proof.
  intros Hk Hr.
  destruct (extract_keys_of stmt ctx Hr) as (key & Hkey & Hne & He).
  assert (confm_keys_of stmt <> []) as Hc.
  { unfold confm_keys_of. destruct (key_identifiers stmt); [congruence |].
    discriminate. }
  assert (primitive_keys_of stmt <> []) as Hp.
  { unfold primitive_keys_of. destruct (key_identifiers stmt); [congruence |].
    discriminate. }
  destruct (constructor_empty stmt ctx prefix_name top_level [])
    as (c0 & H0 & E0).
  destruct (constructor_keyed stmt ctx prefix_name top_level 1
              (confm_keys_of stmt) Hc) as (c1 & H1 & E1); [discriminate |].
  destruct (constructor_keyed stmt ctx prefix_name top_level 2
              (primitive_keys_of stmt) Hp) as (c2 & H2 & E2); [discriminate |].
  destruct (constructor_keyed stmt ctx prefix_name top_level 3
              (primitive_keys_of stmt) Hp) as (c3 & H3 & E3); [discriminate |].
  destruct (list_class_constructors stmt ctx prefix_name name top_level Hk Hr)
    as (d0 & d1 & d2 & d3 & _ & _ & _ & _ & Hg).
  assert (d0 = c0 /\ d1 = c1 /\ d2 = c2 /\
          (no_uint32_key stmt = false -> d3 = c3)) as (-> & -> & -> & Hd3).
  { revert Hg. unfold generate_constructors. rewrite Hk.
    change (String.eqb "list" "container") with false.
    change (String.eqb "list" "list") with true. cbv iota.
    rewrite outcome_bind, He. cbn [outcome snd]. cbv beta iota.
    rewrite outcome_bind.
    change (nl ++ "        throws INMException") with throws_inm.
    rewrite H0, outcome_bind.
    match goal with
    | |- context [constructor stmt ctx prefix_name top_level 1 _ ?t] =>
        change t with throws_inm
    end.
    rewrite H1, outcome_bind, H2, outcome_bind, truthy_b2z.
    destruct (no_uint32_key stmt); cbn [negb].
    - cbn [ret outcome snd]. intros H. inversion H.
      repeat split. discriminate.
    - rewrite outcome_bind, H3. cbn [ret outcome snd list_append app].
      intros H. inversion H. repeat split. }
  assert (outcome (generate_constructors stmt ctx prefix_name name top_level) =
          Ok (if no_uint32_key stmt then [c0; c1; c2] else [c0; c1; c2; c3],
              list_cloners stmt name)) as Hg0.
  { destruct (no_uint32_key stmt) eqn:Hu; [exact Hg |].
    now rewrite <- (Hd3 eq_refl). }
  exists c0, c1, c2, c3.
  split; [exact Hg0 |].
  split; [apply no_uint32_key_iff |].
  split; [exact H0 |]. split; [exact H1 |]. split; [exact H2 |].
  split; [exact H3 |]. split; [exact E0 |]. split; [exact E1 |].
  split; [exact E2 |]. split; [exact E3 |]. split; [exact Hne |].
  split.
  { unfold confm_keys_of. rewrite map_map. cbn [snd]. apply map_id. }
  split.
  { unfold primitive_keys_of. rewrite map_map. cbn [snd]. apply map_id. }
  intros Hname Hok. subst name.
  destruct (generate_class_written time stmt directory package src path ns
              prefix_name ctx top_level Hok)
    as (evs & acc & cs & cl & Hacc & Hg' & Hev).
  rewrite Hg0 in Hg'. inversion Hg' as [[Hcs Hcl]]. clear Hg'.
  subst cs cl. exists evs, acc. split; [exact Hacc |].
  rewrite Hev. clear Hev Hg Hg0 He.
  destruct (no_uint32_key stmt); rewrite !join_empty_cons;
    cbn [join String.concat]; now rewrite !append_nil_r, !append_assoc.
Qed.

Lemma only_strings_and_constructor_count_witness :
  keyword list_uint_key = "list" /\
  keys_resolve list_uint_key = true /\
  exists key only c0 c1 c2 c3,
    search_one list_uint_key "key" None = Some key /\
    outcome (extract_keys list_uint_key (sample_ctx false false)) =
      Ok (key, only, confm_keys_of list_uint_key,
          primitive_keys_of list_uint_key) /\
    (truthy only = true <->
     Forall (fun k => fst k = "String") (primitive_keys_of list_uint_key)) /\
    key_constructor list_uint_key (class_root "Mp" list_uint_key) 3
                    (primitive_keys_of list_uint_key) c3 /\
    outcome (generate_constructors list_uint_key (sample_ctx false false) "Mp"
               (snd (extract_names (arg list_uint_key))) true) =
      Ok (if truthy only then [c0; c1; c2] else [c0; c1; c2; c3],
          list_cloners list_uint_key
                       (snd (extract_names (arg list_uint_key)))).
Proof.
  split; [reflexivity |]. split; [reflexivity |].
  destruct (only_strings_and_constructor_count sample_day list_uint_key "/out"
              "com.example" "m.yang" "" "urn:m" "Mp" (sample_ctx false false)
              true eq_refl eq_refl)
    as (key & only & c0 & c1 & c2 & c3 & Hkey & He & Hf & _ & _ & _ & _ & E3 &
        Hg & _).
  exists key, only, c0, c1, c2, c3.
  exact (conj Hkey (conj He (conj Hf (conj E3 Hg)))).
Defined.

Lemma list_constructors_witness :
  keyword list_repeated_key = "list" /\
  keys_resolve list_repeated_key = true /\
  exists c0 c1 c2 c3,
    outcome (generate_constructors list_repeated_key (sample_ctx false false)
                                   "Mp" "L" true) =
      Ok (if no_uint32_key list_repeated_key
          then [c0; c1; c2] else [c0; c1; c2; c3],
          list_cloners list_repeated_key "L") /\
    empty_constructor list_repeated_key (class_root "Mp" list_repeated_key) c0 /\
    key_constructor list_repeated_key (class_root "Mp" list_repeated_key) 1
                    (confm_keys_of list_repeated_key) c1 /\
    key_constructor list_repeated_key (class_root "Mp" list_repeated_key) 2
                    (primitive_keys_of list_repeated_key) c2 /\
    key_constructor list_repeated_key (class_root "Mp" list_repeated_key) 3
                    (primitive_keys_of list_repeated_key) c3.
Proof.
  split; [reflexivity |]. split; [reflexivity |].
  destruct (list_constructors sample_day list_repeated_key "/out"
              "com.example" "m.yang" "" "urn:m" "Mp" "L"
              (sample_ctx false false) true eq_refl eq_refl)
    as (c0 & c1 & c2 & c3 & Hg & _ & _ & _ & _ & _ & E0 & E1 & E2 & E3 & _).
  exists c0, c1, c2, c3.
  exact (conj Hg (conj E0 (conj E1 (conj E2 E3)))).
Defined.

(** The class of the list [entry] with the key [id] of type [uint32]
    has four constructors; the last one takes a [long]. *)
Example uint_key_constructors_text :
  exists c0 c1 c2 c3 cloners,
    outcome (generate_constructors list_uint_key (sample_ctx false false) "Mp"
                                   "Entry" true)
      = Ok ([c0; c1; c2; c3], cloners) /\
    index 0 "public Entry()" c0 <> None /\
    index 0 "public Entry(com.tailf.confm.xs.UnsignedInt idValue)" c1 <> None /\
    index 0 "public Entry(String idValue)" c2 <> None /\
    index 0 "public Entry(long idValue)" c3 <> None.
Proof.
  do 5 eexists. split; [vm_compute; reflexivity |].
  repeat split; vm_compute; discriminate.
Qed.

(** ** The accessors of a leaf of an unsupported type *)










(** The key leaf [k] of type [int8] is warned about twice when the class
    of its list is generated, and three times when the list is in a
    container; and its second setter has no parameter type. *)
Example key_leaf_is_warned_again :
  diagnostics
    (events (generate_class sample_day list_int8_key "/out" "com.example"
                            "m.yang" "" "urn:m" "Mp" (sample_ctx true false)
                            true))
    = [Stderr (unsupported_type_warning "int8");
       Stderr (unsupported_type_warning "int8")] /\
  diagnostics
    (events (generate_class sample_day container_list_int8_key "/out"
                            "com.example" "m.yang" "" "urn:m" "Mp"
                            (sample_ctx true false) true))
    = [Stderr (unsupported_type_warning "int8");
       Stderr (unsupported_type_warning "int8");
       Stderr (unsupported_type_warning "int8")] /\
  index 0 "public void setKValue( kValue)"
        (java_setter (sample_leaf "k" "int8") "" ""
                     (wraps_value (sample_leaf "k" "int8") "")) <> None /\
  index 0 "setKValue(new (kValue));"
        (java_setter (sample_leaf "k" "int8") "" ""
                     (wraps_value (sample_leaf "k" "int8") "")) <> None.
Proof.
  split; [vm_compute; reflexivity |]. split; [vm_compute; reflexivity |].
  split; vm_compute; discriminate.
Qed.

(** ** The text of the package description *)

Lemma java_docify_join (s : string) :
  java_docify s = join nl (map (fun row => " * " ++ row) (splitlines s)).
Proof.
  unfold java_docify.
  rewrite (fold_left_ext _ (fun res row => res ++ (" * " ++ row) ++ nl)).
  - apply (fold_append_join (fun row => " * " ++ row) nl).
  - intros r x. now rewrite !append_assoc.
Qed.

(** Pieces that each end with the separator, without the last
    separator, are the pieces joined by the separator. *)
Lemma join_pieces {A : Type} (f : A -> string) (sep : string) (l : list A) :
  drop_last (String.length sep) (join "" (map (fun x => f x ++ sep) l)) =
  join sep (map f l).
Proof.
  rewrite <- (fold_append_join f sep l), fold_append_sep. cbn [append].
  f_equal. induction l as [| x l IH]; [reflexivity |].
  cbn [map]. rewrite join_empty_cons, IH.
  destruct l as [| y l]; cbn [map join String.concat].
  - now rewrite append_nil_r.
  - now rewrite !append_assoc.
Qed.

Lemma unknown_src_modules (entries : list string) :
  drop_last 2 (unknown_src entries) = unknown_modules entries.
Proof.
  unfold unknown_src, unknown_modules.
  rewrite <- (join_pieces (fun entry => module_entry entry "unknown") ", ").
  cbn [String.length]. do 2 f_equal. apply map_ext. intros entry.
  unfold module_entry, module_of. now rewrite !append_assoc.
Qed.

Lemma one_line_join (sep : string) (l : list string) :
  one_line sep = true -> forallb one_line l = true ->
  one_line (join sep l) = true.
Proof.
  intros Hs. unfold join. induction l as [| x l IH]; [reflexivity |].
  cbn [forallb]. intros H. apply andb_true_iff in H as [Hx Hl].
  destruct l as [| y l]; [exact Hx |].
  change (String.concat sep (x :: y :: l))
    with (x ++ sep ++ String.concat sep (y :: l)).
  now rewrite !one_line_append, Hx, Hs, (IH Hl).
Qed.

Lemma one_line_unknown_modules (entries : list string) :
  forallb (fun entry => one_line (module_of entry)) entries = true ->
  one_line (unknown_modules entries) = true.
Proof.
  intros H. apply one_line_join; [reflexivity |].
  induction entries as [| e l IH]; [reflexivity |].
  cbn [forallb map] in *. apply andb_true_iff in H as [He Hl].
  rewrite (IH Hl), andb_true_r.
  unfold module_entry. now rewrite !one_line_append, He.
Qed.

(** The first rows of a documentation whose second and third lines are
    [a ++ s] and [d ++ b]. *)
Lemma java_docify_head (a s d b rest h : string) :
  one_line (a ++ s) = true ->
  one_line (d ++ b) = true ->
  exists post,
    java_docify ((nl ++ a ++ (s ++ nl ++ d) ++ b ++ nl ++ rest) ++ h) =
    " * " ++ nl ++ " * " ++ a ++ s ++ nl ++ " * " ++ d ++ b ++ post.
Proof.
  intros H1 H2.
  assert ((nl ++ a ++ (s ++ nl ++ d) ++ b ++ nl ++ rest) ++ h =
          "" ++ nl ++ (a ++ s) ++ nl ++ (d ++ b) ++ nl ++ (rest ++ h)) as ->.
  { cbn [append]. now rewrite !append_assoc. }
  rewrite java_docify_join. unfold splitlines.
  rewrite (splitlines_line "" _ eq_refl), (splitlines_line _ _ H1),
    (splitlines_line _ _ H2).
  cbn [map]. unfold join.
  set (rows := map _ (splitlines_from false (rest ++ h))).
  exists (match rows with
          | [] => ""
          | _ :: _ => nl ++ String.concat nl rows
          end).
  destruct rows as [| r rows]; cbn [String.concat app];
    now rewrite ?append_nil_r, !append_assoc.
Qed.

(** The package description begins with the sentence on the modules:
    its third row lists every module with the revision [unknown]. *)
Lemma package_info_modules (class_hierarchy : list Entry) (package : string)
  (entries : list string) :
  forallb (fun entry => one_line (module_of entry)) entries = true ->
  exists post,
    package_info class_hierarchy package entries (unknown_src entries) =
    "/**" ++ " * " ++ nl ++
    " * This class hierarchy was generated from the Yang module" ++
    (if (1 <? Z.of_nat (List.length entries))%Z then "s" else "") ++ nl ++
    " * " ++ unknown_modules entries ++ " by the <a target=" ++ post.
Proof.
  intros Hn.
  pose (b := dq ++ "_top" ++ dq ++ " href=" ++ dq ++
             "https://github.com/Emil-Tail-f/JPyang" ++ dq ++ ">" ++
             "JPyang</a> plugin of <a target=" ++ dq ++ "_top" ++ dq ++ " " ++
             "href=" ++ dq ++ "http://code.google.com/p/pyang/" ++ dq ++
             ">pyang</a>.").
  pose (rest :=
    "The generated classes may be used to manipulate pieces of configuration data" ++
    nl ++
    "with NETCONF operations such as edit-config, delete-config and lock. These" ++
    nl ++
    "operations are typically accessed through the ConfM Java library by" ++
    nl ++
    "instantiating Device objects and setting up NETCONF sessions with real devices" ++
    nl ++
    "using a compatible YANG model." ++ nl ++
    nl).
  set (s := if (1 <? Z.of_nat (List.length entries))%Z then "s" else "").
  set (h := html_list (parse_hierarchy class_hierarchy) 0 "ul").
  destruct (java_docify_head
              "This class hierarchy was generated from the Yang module" s
              (unknown_modules entries) (" by the <a target=" ++ b) rest h)
    as [post E].
  { subst s. now destruct (1 <? _)%Z. }
  { rewrite one_line_append, (one_line_unknown_modules entries Hn).
    reflexivity. }
  unfold package_info. cbv zeta. rewrite unknown_src_modules.
  fold h.
  match goal with
  | |- context [java_docify ?x ++ ?tail] =>
      set (t := tail);
      change x with
        ((nl ++ "This class hierarchy was generated from the Yang module" ++
          (s ++ nl ++ unknown_modules entries) ++
          (" by the <a target=" ++ b) ++ nl ++ rest) ++ h)
  end.
  rewrite E. exists (b ++ post ++ t).
  clearbody t b rest h s. clear E.
  rewrite !append_assoc. reflexivity.
Qed.

(** C10: the revision that [gen_package] reports is always unknown.  The
    slice [ctx.revs[module_arg][-1:][:0]] is empty whatever the list of
    known revisions, so the revision read for a known module is
    ['unknown'].  When the context knows every module of the hierarchy,
    [gen_package] writes the one file [package-info.java]; for module
    names without line breaks its text begins with the sentence on the
    modules, whose row lists every module of the hierarchy, in order,
    with the revision [unknown].  Otherwise the lookup faults with a
    [KeyError] and nothing is written. *)
Theorem gen_package_reports_unknown (class_hierarchy : list Entry)
  (package : string) (ctx : Context) :
  (forall known : list RevEntry,
     slice None (Some 0%Z) (slice (Some (-1)%Z) None known) = []) /\
  (forall module_arg rev,
     outcome (package_revision ctx module_arg) = Ok rev -> rev = "unknown") /\
  (knows_modules ctx (top_level_files class_hierarchy) = true ->
   exists content,
     outcome (gen_package class_hierarchy package ctx) = Ok tt /\
     filter (fun e => negb (is_stdout e))
            (events (gen_package class_hierarchy package ctx)) =
       [WriteFile "package-info.java" content] /\
     content = package_info class_hierarchy package
                 (top_level_files class_hierarchy)
                 (unknown_src (top_level_files class_hierarchy)) /\
     (forallb (fun entry => one_line (module_of entry))
              (top_level_files class_hierarchy) = true ->
      exists post,
        content =
        "/**" ++ " * " ++ nl ++
        " * This class hierarchy was generated from the Yang module" ++
        (if (1 <? Z.of_nat (List.length (top_level_files class_hierarchy)))%Z
         then "s" else "") ++ nl ++
        " * " ++ unknown_modules (top_level_files class_hierarchy) ++
        " by the <a target=" ++ post)) /\
  (knows_modules ctx (top_level_files class_hierarchy) = false ->
   outcome (gen_package class_hierarchy package ctx) = Raise KeyError /\
   written (events (gen_package class_hierarchy package ctx)) = []).
Proof.
  split; [intros known; apply slice_to_zero |]. split.
  { intros module_arg rev.
    destruct (package_revision_run ctx module_arg) as [[_ ->] | [_ ->]];
      intros H; inversion H; reflexivity. }
  unfold gen_package. cbv zeta. unfold package_src.
  destruct (package_src_run ctx (top_level_files class_hierarchy) "")
    as [[Hk Hs] | [Hk Hs]]; rewrite Hk, Hs.
  - split; [| intros H; discriminate H]. intros _.
    eexists. split; [destruct (verbose (opts ctx)); reflexivity |].
    split; [destruct (verbose (opts ctx)); reflexivity |].
    split; [reflexivity |].
    apply package_info_modules.
  - split; [intros H; discriminate H |]. intros _.
    destruct (verbose (opts ctx)); split; reflexivity.
Qed.

Lemma gen_package_reports_unknown_witness :
  exists content post,
    filter (fun e => negb (is_stdout e))
           (events (gen_package [File "M.java"] "com.example"
                                (sample_ctx false false))) =
      [WriteFile "package-info.java" content] /\
    content =
      "/**" ++ " * " ++ nl ++
      " * This class hierarchy was generated from the Yang module" ++
      (if (1 <? Z.of_nat (List.length (top_level_files [File "M.java"])))%Z
       then "s" else "") ++ nl ++
      " * " ++ unknown_modules (top_level_files [File "M.java"]) ++
      " by the <a target=" ++ post.
Proof.
  destruct (gen_package_reports_unknown [File "M.java"] "com.example"
              (sample_ctx false false)) as (_ & _ & Hk & _).
  destruct (Hk eq_refl) as (content & _ & Hw & _ & Ht).
  destruct (Ht eq_refl) as (post & Hp).
  exists content, post. exact (conj Hw Hp).
Defined.

(** The row of the modules of the sample. *)
Example unknown_modules_sample :
  unknown_modules ["M.java"; "Router.java"] =
  "module " ++ dq ++ "m" ++ dq ++ " (rev " ++ dq ++ "unknown" ++ dq ++ "), " ++
  "module " ++ dq ++ "router" ++ dq ++ " (rev " ++ dq ++ "unknown" ++ dq ++ ")".
Proof.
  reflexivity.
Qed.

(** ** Submodules *)

(** C2, as the code has it: a top-level submodule is not skipped.  The
    loop of [emit] treats it as a module: it generates the schema unless
    [no_schema] is set, runs [generate_classes] on it, and only then
    prints the warning.  So whenever the turn of the loop for a submodule
    completes, it has written, before the warning: the schema file unless
    [no_schema] is set (a turn with the schema generation on completes
    only for a submodule with a namespace and a prefix statement of its
    own), then the class files of the top-level containers and lists,
    each after the classes below it, then the root class named after the
    prefix of the [belongs-to] statement; and the warning is the last
    diagnostic. *)
Theorem submodule_is_compiled (time : Date)
  (get_latest_revision : Statement -> string) (cwd : string) (ctx : Context)
  (module : Statement) :
  keyword module = "submodule" ->
  outcome (emit_module time get_latest_revision cwd ctx module) = Ok tt ->
  exists parent_module prefix before after,
    search_one module "belongs-to" None = Some parent_module /\
    search_one parent_module "prefix" None = Some prefix /\
    events (emit_module time get_latest_revision cwd ctx module) =
      (before ++ [Stderr submodule_warning] ++ after)%list /\
    written before =
      (schema_files cwd ctx module ++
       classes_files cwd (substmts module) ++ [class_file cwd prefix])%list /\
    diagnostics after = [] /\
    written after = [] /\
    (no_schema (opts ctx) = true -> schema_files cwd ctx module = []) /\
    (no_schema (opts ctx) = false ->
     exists ns q,
       search_one module "namespace" None = Some ns /\
       search_one module "prefix" None = Some q /\
       schema_files cwd ctx module = [schema_file cwd q]).
Proof.
  intros Hk.
  assert (is_module module = true) as Hm.
  { unfold is_module. rewrite Hk. reflexivity. }
  rewrite (emit_module_parts time get_latest_revision cwd ctx module _ _ Hm
             eq_refl eq_refl).
  rewrite Hk. change (String.eqb "submodule" "submodule") with true.
  destruct (emit_schema_part cwd ctx module) as (_ & WS & FS).
  cbv zeta in WS, FS.
  set (S := if negb (no_schema (opts ctx)) then _ else _) in *.
  destruct (root_prefix module) as [prefix |] eqn:Hr.
  - assert (exists pm, search_one module "belongs-to" None = Some pm /\
                       search_one pm "prefix" None = Some prefix)
      as (pm & Hpm & Hp).
    { revert Hr. unfold root_prefix. rewrite Hk.
      change (String.eqb "submodule" "module") with false.
      change (String.eqb "submodule" "submodule") with true. cbv iota.
      destruct (search_one module "belongs-to" None) as [pm |];
        [| discriminate].
      intros H. now exists pm. }
    destruct (writes_generate_classes time module cwd (directory (opts ctx))
                (module_src get_latest_revision module) ctx prefix Hr)
      as (rest & WG & Hok).
    set (G := generate_classes _ _ _ _ _ _) in *.
    destruct S as [eS [[] | e]] eqn:HS; [| intros H; discriminate H].
    rewrite (bind_ok _ _ eS tt eq_refl).
    destruct G as [eG [[] | e]]; [| intros H; discriminate H].
    rewrite (bind_ok _ _ eG tt eq_refl). intros _.
    cbn [events outcome fst snd] in *.
    rewrite (Hok tt eq_refl), app_nil_r in WG.
    exists pm, prefix, (eS ++ eG)%list,
      (if debug (opts ctx) || verbose (opts ctx)
       then [Stdout "Java classes generation COMPLETE."] else []).
    split; [exact Hpm |]. split; [exact Hp |]. split.
    { destruct (debug (opts ctx) || verbose (opts ctx));
        cbn [when print_err print ret bind events fst app];
        now rewrite <- !app_assoc. }
    split; [now rewrite written_app, (WS eq_refl), <- WG |].
    split; [now destruct (debug (opts ctx) || verbose (opts ctx)) |].
    split; [now destruct (debug (opts ctx) || verbose (opts ctx)) |].
    unfold schema_files. split; [now intros -> |].
    intros Hn. rewrite Hn. subst S. rewrite Hn in HS. cbn [negb] in HS.
    destruct (search_one module "namespace" None) as [ns |] eqn:Hns.
    + destruct (search_one module "prefix" None) as [q |] eqn:Hq.
      * now exists ns, q.
      * rewrite (emit_schema_faults cwd ctx module (or_intror Hq)) in HS.
        discriminate HS.
    + rewrite (emit_schema_faults cwd ctx module (or_introl Hns)) in HS.
      discriminate HS.
  - destruct (generate_classes_without_prefix time module cwd
                (directory (opts ctx)) (module_src get_latest_revision module)
                ctx Hr) as [e ->].
    destruct S as [eS [[] | e']]; intros H; discriminate H.
Qed.

Lemma submodule_is_compiled_witness :
  (exists before after,
     events (emit_module sample_day (fun _ => "unknown") "/out"
                         (sample_ctx false true) sample_submodule) =
       (before ++ [Stderr submodule_warning] ++ after)%list /\
     written before = ["/out/C.java"; "/out/Mp.java"]) /\
  (exists before after,
     events (emit_module sample_day (fun _ => "unknown") "/out"
                         (sample_ctx false false)
                         sample_submodule_with_namespace) =
       (before ++ [Stderr submodule_warning] ++ after)%list /\
     written before = ["/out/Sp.schema"; "/out/C.java"; "/out/Mp.java"]).
Proof.
  split.
  - destruct (submodule_is_compiled sample_day (fun _ => "unknown") "/out"
                (sample_ctx false true) sample_submodule eq_refl eq_refl)
      as (pm & p & before & after & Hpm & Hp & He & Hw & _).
    exists before, after. split; [exact He |].
    cbn in Hpm. inversion Hpm. subst pm.
    cbn in Hp. inversion Hp. subst p. exact Hw.
  - destruct (submodule_is_compiled sample_day (fun _ => "unknown") "/out"
                (sample_ctx false false) sample_submodule_with_namespace
                eq_refl eq_refl)
      as (pm & p & before & after & Hpm & Hp & He & Hw & _).
    exists before, after. split; [exact He |].
    cbn in Hpm. inversion Hpm. subst pm.
    cbn in Hp. inversion Hp. subst p. exact Hw.
Defined.

(** ** The module name of the package description *)

(** X9: the module name that [gen_package] looks up.  It takes the name
    back from the file name of the class, and gets the identifier in
    lower case, not the identifier.  So the lookup in [ctx.revs] is made
    with the name in lower case: it gives the revision exactly when that
    name is a key, and faults with a [KeyError] otherwise, also for a
    module that is a key under its own name, with an upper-case letter;
    [gen_package] then faults for every hierarchy with the file of the
    module at its top level. *)
Theorem module_lookup_is_lower_case (a : string) (ctx : Context) :
  decapitalize (drop_last 5 (fst (extract_names a))) = lower a /\
  package_revision ctx (decapitalize (drop_last 5 (fst (extract_names a)))) =
    (if has_key (revs ctx) (lower a)
     then ([], Ok "unknown") else ([], Raise KeyError)) /\
  (has_key (revs ctx) (lower a) = false ->
   forall class_hierarchy package,
     In (fst (extract_names a)) (top_level_files class_hierarchy) ->
     outcome (gen_package class_hierarchy package ctx) = Raise KeyError).
Proof.
  assert (decapitalize (drop_last 5 (fst (extract_names a))) = lower a) as H.
  { unfold extract_names. cbn [fst].
    pose proof (drop_last_append (capitalize a) ".java") as Hd.
    cbn [String.length] in Hd. rewrite Hd.
    apply decapitalize_capitalize. }
  split; [exact H |]. rewrite H. split.
  - destruct (package_revision_run ctx (lower a)) as [[-> ->] | [-> ->]];
      reflexivity.
  - intros Hn class_hierarchy package Hin.
    assert (knows_modules ctx (top_level_files class_hierarchy) = false) as Hk.
    { unfold knows_modules. apply not_true_is_false. intros Hall.
      rewrite forallb_forall in Hall. specialize (Hall _ Hin).
      rewrite H, Hn in Hall. discriminate Hall. }
    unfold gen_package. cbv zeta. unfold package_src.
    destruct (package_src_run ctx (top_level_files class_hierarchy) "")
      as [[Hk' _] | [_ Hs]]; [congruence |].
    rewrite Hs. now destruct (verbose (opts ctx)).
Qed.

(** The module [myModule] is not found under its own name, unless its
    name in lower case is a key too. *)
Example module_with_capital_is_not_found :
  lower "myModule" <> "myModule" /\
  gen_package [File (fst (extract_names "myModule"))] "com.example"
              {| opts := sample_opts false false;
                 revs := [("myModule", [("2012-06-01", "m.yang")])] |}
  = ([], Raise KeyError) /\
  outcome
    (gen_package [File (fst (extract_names "myModule"))] "com.example"
                 {| opts := sample_opts false false;
                    revs := [("myModule", [("2012-06-01", "m.yang")]);
                             ("mymodule", [])] |})
  = Ok tt.
Proof.
  split; [discriminate |]. split; reflexivity.
Qed.
